(** * Plenario: filter-query translation and time-bucketed aggregation

    A shallow embedding of
    - [plenario/api/sensor.py] ([make_query]) and
    - [plenario/sensor_network/api/sensor_aggregate_functions.py]
      ([_generate_datetime_range], [_zero_out_datetime], [_valid_columns],
      [_apply_aggregates], [_format_aggregates], [aggregate]),
    together with the parts of the Python runtime these functions rely on
    (string splitting, [repr], naive datetimes and their arithmetic). *)

From Stdlib Require Import ZArith Lia Bool Ascii String List.
From stdpp Require Import base gmap strings list.
Import ListNotations.

Local Open Scope string_scope.
Local Open Scope Z_scope.

(** ** Python exceptions and fallible results *)

Inductive exn : Type :=
  | ValueError
  | TypeError
  | KeyError
  | IndexError
  | AttributeError
  | OverflowError
  | NoSuchTableError
  | DatabaseError
  | ContradictoryFilters.   (* the ValueError raised by [aggregate] itself *)

Inductive result (A : Type) : Type :=
  | Ok (a : A)
  | Raise (e : exn).
Arguments Ok {A} a.
Arguments Raise {A} e.

#[global] Instance result_ret : MRet result := fun A a => Ok a.

#[global] Instance result_bind : MBind result := fun A B k r =>
  match r with
  | Ok a => k a
  | Raise e => Raise e
  end.

#[global] Instance result_fmap : FMap result := fun A B f r =>
  match r with
  | Ok a => Ok (f a)
  | Raise e => Raise e
  end.

(** ** Python strings *)

Module PyStr.

(** [s.startswith(p)] *)
Fixpoint startswith (s p : string) : bool :=
  match p, s with
  | EmptyString, _ => true
  | String a p', String b s' => if Ascii.eqb a b then startswith s' p' else false
  | String _ _, EmptyString => false
  end.

(** drop the first [n] characters: [s[n:]] *)
Fixpoint drop (n : nat) (s : string) : string :=
  match n, s with
  | O, _ => s
  | S k, String _ s' => drop k s'
  | S _, EmptyString => EmptyString
  end.

(** [s.endswith(p)] *)
Definition endswith (s p : string) : bool :=
  (String.length p <=? String.length s)%nat
  && String.eqb (drop (String.length s - String.length p) s) p.

(** [s.split(sep)] for a non-empty separator: the pieces between the
    non-overlapping occurrences of [sep], found left to right.  [skip]
    counts the characters of a matched separator still to be consumed. *)
Fixpoint split_aux (sep : string) (skip : nat) (s : string) : list string :=
  match s with
  | EmptyString => [EmptyString]
  | String c s' =>
      match skip with
      | S k => split_aux sep k s'
      | O =>
          if startswith s sep
          then EmptyString :: split_aux sep (String.length sep - 1) s'
          else match split_aux sep 0 s' with
               | h :: t => String c h :: t
               | [] => [String c EmptyString]
               end
      end
  end.

Definition split (s sep : string) : list string := split_aux sep 0 s.

(** [sub in s] for strings *)
Fixpoint contains (s sub : string) : bool :=
  startswith s sub ||
  match s with
  | EmptyString => false
  | String _ s' => contains s' sub
  end.

Definition mem (x : string) (l : list string) : bool :=
  existsb (String.eqb x) l.

(** [l.remove(x)] guarded by [if x in l]: drops the first occurrence. *)
Fixpoint remove (x : string) (l : list string) : list string :=
  match l with
  | [] => []
  | y :: l' => if String.eqb x y then l' else y :: remove x l'
  end.

Definition squote : ascii := Ascii.ascii_of_nat 39.
Definition dquote : ascii := Ascii.ascii_of_nat 34.
Definition backslash : ascii := Ascii.ascii_of_nat 92.

Fixpoint has_char (c : ascii) (s : string) : bool :=
  match s with
  | EmptyString => false
  | String a s' => Ascii.eqb a c || has_char c s'
  end.

Definition hex_digit (n : nat) : ascii :=
  if (n <? 10)%nat then Ascii.ascii_of_nat (48 + n)
  else Ascii.ascii_of_nat (87 + n).

(** The escaping done by [repr] on one character, with [q] the quote
    character chosen for the literal. *)
Definition repr_char (q c : ascii) : string :=
  let n := Ascii.nat_of_ascii c in
  if Ascii.eqb c backslash then String backslash (String backslash EmptyString)
  else if Ascii.eqb c q then String backslash (String q EmptyString)
  else if (n =? 9)%nat then String backslash "t"
  else if (n =? 10)%nat then String backslash "n"
  else if (n =? 13)%nat then String backslash "r"
  else if ((n <? 32) || (n =? 127))%nat
       then String backslash
              (String "x" (String (hex_digit (n / 16))
                             (String (hex_digit (n mod 16)) EmptyString)))
  else String c EmptyString.

Fixpoint repr_body (q : ascii) (s : string) : string :=
  match s with
  | EmptyString => EmptyString
  | String c s' => repr_char q c ++ repr_body q s'
  end.

(** The text has ASCII characters only. *)
Fixpoint is_ascii (s : string) : bool :=
  match s with
  | EmptyString => true
  | String c s' => (Ascii.nat_of_ascii c <? 128)%nat && is_ascii s'
  end.

(** [repr(s)], as used by ['{!r}'.format(s)], for ASCII text: single quotes
    unless the text has a single quote and no double quote.  Outside ASCII
    Python also escapes the characters that are not printable, which a
    byte-wise reading cannot tell apart: statements about the result carry
    [is_ascii]. *)
Definition repr (s : string) : string :=
  let q := if has_char squote s && negb (has_char dquote s)
           then dquote else squote in
  String q (repr_body q s ++ String q EmptyString).

End PyStr.

(** ** Python naive and aware datetimes *)

Module PyDatetime.

(** A [datetime.datetime]; [tzinfo] is the UTC offset in minutes of an
    aware value and [None] for a naive one. *)
Record datetime : Type := {
  year : Z;
  month : Z;
  day : Z;
  hour : Z;
  minute : Z;
  second : Z;
  microsecond : Z;
  tzinfo : option Z
}.

Definition MINYEAR : Z := 1.
Definition MAXYEAR : Z := 9999.
Definition MAXORDINAL : Z := 3652059.

Definition is_leap (y : Z) : bool :=
  (y mod 4 =? 0) && (negb (y mod 100 =? 0) || (y mod 400 =? 0)).

(** [_DAYS_IN_MONTH] *)
Definition DAYS_IN_MONTH (m : Z) : Z :=
  match m with
  | 1 => 31 | 2 => 28 | 3 => 31 | 4 => 30 | 5 => 31 | 6 => 30
  | 7 => 31 | 8 => 31 | 9 => 30 | 10 => 31 | 11 => 30 | 12 => 31
  | _ => 0
  end.

(** [_DAYS_BEFORE_MONTH] *)
Definition DAYS_BEFORE_MONTH (m : Z) : Z :=
  match m with
  | 1 => 0 | 2 => 31 | 3 => 59 | 4 => 90 | 5 => 120 | 6 => 151
  | 7 => 181 | 8 => 212 | 9 => 243 | 10 => 273 | 11 => 304 | 12 => 334
  | _ => 0
  end.

Definition days_in_month (y m : Z) : Z :=
  if (m =? 2) && is_leap y then 29 else DAYS_IN_MONTH m.

(** A date of the supported years. *)
Definition date_ok (y m d : Z) : Prop :=
  1 <= y <= 9999 /\ 1 <= m <= 12 /\ 1 <= d <= days_in_month y m.

Definition days_before_month (y m : Z) : Z :=
  DAYS_BEFORE_MONTH m + (if (2 <? m) && is_leap y then 1 else 0).

Definition days_before_year (y : Z) : Z :=
  let y' := y - 1 in y' * 365 + y' / 4 - y' / 100 + y' / 400.

(** [_ymd2ord]: 0001-01-01 is day 1. *)
Definition ymd2ord (y m d : Z) : Z :=
  days_before_year y + days_before_month y m + d.

(** The end of [_ord2ymd]: month and day of the [n]-th day (from 0) of a
    year, from an estimate of the month that is exact or one too large. *)
Definition month_day (leapyear : bool) (n : Z) : Z * Z :=
  let month := Z.shiftr (n + 50) 5 in
  let preceding :=
    DAYS_BEFORE_MONTH month + (if (2 <? month) && leapyear then 1 else 0) in
  if n <? preceding then
    let month := month - 1 in
    let preceding :=
      preceding
      - (DAYS_IN_MONTH month + (if (month =? 2) && leapyear then 1 else 0)) in
    (month, n - preceding + 1)
  else (month, n - preceding + 1).

(** [_ord2ymd] *)
Definition ord2ymd (n : Z) : Z * Z * Z :=
  let n := n - 1 in
  let n400 := n / 146097 in
  let n := n mod 146097 in
  let year := n400 * 400 + 1 in
  let n100 := n / 36524 in
  let n := n mod 36524 in
  let n4 := n / 1461 in
  let n := n mod 1461 in
  let n1 := n / 365 in
  let n := n mod 365 in
  let year := year + n100 * 100 + n4 * 4 + n1 in
  if (n1 =? 4) || (n100 =? 4) then (year - 1, 12, 31)
  else
    let leapyear := (n1 =? 3) && (negb (n4 =? 24) || (n100 =? 3)) in
    let '(month, day) := month_day leapyear n in
    (year, month, day).

(** The checks of the [datetime] constructor
    ([_check_date_fields], [_check_time_fields]). *)
Definition check_fields (dt : datetime) : bool :=
  (MINYEAR <=? year dt) && (year dt <=? MAXYEAR)
  && (1 <=? month dt) && (month dt <=? 12)
  && (1 <=? day dt) && (day dt <=? days_in_month (year dt) (month dt))
  && (0 <=? hour dt) && (hour dt <=? 23)
  && (0 <=? minute dt) && (minute dt <=? 59)
  && (0 <=? second dt) && (second dt <=? 59)
  && (0 <=? microsecond dt) && (microsecond dt <=? 999999).

(** Every [datetime] object satisfies the constructor's checks. *)
Definition valid (dt : datetime) : Prop := check_fields dt = true.

(** [dt.replace(tzinfo=None)] *)
Definition replace_tzinfo (dt : datetime) (tz : option Z) : datetime :=
  {| year := year dt; month := month dt; day := day dt; hour := hour dt;
     minute := minute dt; second := second dt;
     microsecond := microsecond dt; tzinfo := tz |}.

(** [dt.replace(field=v)] for the seven numeric fields: the new
    object goes through the constructor's checks. *)
Definition replace (dt : datetime) (field : string) (v : Z) : result datetime :=
  let mk y mo d h mi s us :=
    let r := {| year := y; month := mo; day := d; hour := h; minute := mi;
                second := s; microsecond := us; tzinfo := tzinfo dt |} in
    if check_fields r then Ok r else Raise ValueError in
  let '(y, mo, d) := (year dt, month dt, day dt) in
  let '(h, mi, s, us) := (hour dt, minute dt, second dt, microsecond dt) in
  if String.eqb field "year" then mk v mo d h mi s us
  else if String.eqb field "month" then mk y v d h mi s us
  else if String.eqb field "day" then mk y mo v h mi s us
  else if String.eqb field "hour" then mk y mo d v mi s us
  else if String.eqb field "minute" then mk y mo d h v s us
  else if String.eqb field "second" then mk y mo d h mi v us
  else if String.eqb field "microsecond" then mk y mo d h mi s v
  else Raise TypeError.

(** Comparison of two naive datetimes: the tuples of fields, compared
    lexicographically. *)
Definition fields (dt : datetime) : list Z :=
  [year dt; month dt; day dt; hour dt; minute dt; second dt; microsecond dt].

Fixpoint lex_compare (a b : list Z) : comparison :=
  match a, b with
  | x :: a', y :: b' =>
      match x ?= y with
      | Eq => lex_compare a' b'
      | c => c
      end
  | [], [] => Eq
  | [], _ :: _ => Lt
  | _ :: _, [] => Gt
  end.

Definition compare (a b : datetime) : comparison :=
  lex_compare (fields a) (fields b).

Definition le (a b : datetime) : bool :=
  match compare a b with Gt => false | _ => true end.

Definition lt (a b : datetime) : bool :=
  match compare a b with Lt => true | _ => false end.

(** A [timedelta] is its total number of microseconds. *)
Definition US_PER_SECOND : Z := 1000000.
Definition US_PER_DAY : Z := 86400 * US_PER_SECOND.

(** The [timedelta] that [datetime.__add__] starts from: the ordinal of
    the date as days, plus the time of day. *)
Definition to_us (dt : datetime) : Z :=
  ymd2ord (year dt) (month dt) (day dt) * US_PER_DAY
  + (hour dt * 3600 + minute dt * 60 + second dt) * US_PER_SECOND
  + microsecond dt.

(** [dt + timedelta(microseconds=delta)] *)
Definition add_timedelta (dt : datetime) (delta : Z) : result datetime :=
  let t := to_us dt + delta in
  let days := t / US_PER_DAY in
  let rest := t mod US_PER_DAY in
  let seconds := rest / US_PER_SECOND in
  let us := rest mod US_PER_SECOND in
  let hour := seconds / 3600 in
  let rem := seconds mod 3600 in
  if (0 <? days) && (days <=? MAXORDINAL) then
    let '(y, m, d) := ord2ymd days in
    Ok {| year := y; month := m; day := d; hour := hour;
          minute := rem / 60; second := rem mod 60; microsecond := us;
          tzinfo := tzinfo dt |}
  else Raise OverflowError.

(** [dt + relativedelta(years=years, months=months, leapdays=leapdays)]
    with [0 <= months <= 12]: the year and month move first, the day is
    clipped to the length of the target month, and the remaining
    [timedelta] (the leap days, if any) is added last. *)
Definition add_relativedelta (dt : datetime) (years months leapdays : Z)
  : result datetime :=
  let y := year dt + years in
  let m := month dt + months in
  let '(y, m) := if 12 <? m then (y + 1, m - 12) else (y, m) in
  let d := Z.min (days_in_month y m) (day dt) in
  let r := {| year := y; month := m; day := d; hour := hour dt;
              minute := minute dt; second := second dt;
              microsecond := microsecond dt; tzinfo := tzinfo dt |} in
  let days := if (2 <? m) && is_leap y then leapdays else 0 in
  if check_fields r then add_timedelta r (days * US_PER_DAY)
  else Raise ValueError.

Definition digit (n : Z) : ascii := Ascii.ascii_of_nat (48 + Z.to_nat (n mod 10)).

(** ["%02d" % n] and ["%04d" % n] for [0 <= n]. *)
Definition pad2 (n : Z) : string :=
  String (digit (n / 10)) (String (digit n) EmptyString).
Definition pad4 (n : Z) : string := pad2 (n / 100) ++ pad2 (n mod 100).
Definition pad6 (n : Z) : string := pad2 (n / 10000) ++ pad4 (n mod 10000).

(** [dt.isoformat()] *)
Definition isoformat (dt : datetime) : string :=
  pad4 (year dt) ++ "-" ++ pad2 (month dt) ++ "-" ++ pad2 (day dt) ++ "T"
  ++ pad2 (hour dt) ++ ":" ++ pad2 (minute dt) ++ ":" ++ pad2 (second dt)
  ++ (if microsecond dt =? 0 then EmptyString else "." ++ pad6 (microsecond dt))
  ++ match tzinfo dt with
     | None => EmptyString
     | Some off =>
         (if off <? 0 then "-" else "+")
         ++ pad2 (Z.abs off / 60) ++ ":" ++ pad2 (Z.abs off mod 60)
     end.

End PyDatetime.

(** ** JSON values, as produced by [json.loads] *)

Section Json.
Context {float : Type}.

#[warnings="-register-all"]
Inductive json : Type :=
  | JNull
  | JBool (b : bool)
  | JInt (n : Z)
  | JFloat (x : float)
  | JStr (s : string)
  | JArr (l : list json)
  | JObj (l : list (string * json)).

Fixpoint assoc {A} (k : string) (l : list (string * A)) : option A :=
  match l with
  | [] => None
  | (k', v) :: l' => if String.eqb k k' then Some v else assoc k l'
  end.

(** [d[k] = v] on a dict: an existing key keeps its place. *)
Fixpoint assoc_set {A} (k : string) (v : A) (l : list (string * A))
  : list (string * A) :=
  match l with
  | [] => [(k, v)]
  | (k', v') :: l' =>
      if String.eqb k k' then (k, v) :: l' else (k', v') :: assoc_set k v l'
  end.

(** [list(j.keys())] *)
Definition json_keys (j : json) : result (list string) :=
  match j with
  | JObj l => Ok (map fst l)
  | _ => Raise AttributeError
  end.

(** [j[k]] for a string key *)
Definition json_getitem (j : json) (k : string) : result json :=
  match j with
  | JObj l => match assoc k l with
              | Some v => Ok v
              | None => Raise KeyError
              end
  | _ => Raise TypeError
  end.

(** [j[0]] *)
Definition json_item0 (j : json) : result json :=
  match j with
  | JArr (x :: _) => Ok x
  | JArr [] => Raise IndexError
  | JStr (String c _) => Ok (JStr (String c EmptyString))
  | JStr EmptyString => Raise IndexError
  | JObj _ => Raise KeyError
  | _ => Raise TypeError
  end.

(** [j[k] = v] *)
Definition json_setitem (j : json) (k : string) (v : json) : result json :=
  match j with
  | JObj l => Ok (JObj (assoc_set k v l))
  | _ => Raise TypeError
  end.

Definition json_is_str (j : json) (s : string) : bool :=
  match j with
  | JStr s' => String.eqb s' s
  | _ => false
  end.

End Json.
Arguments json : clear implicits.

(** ** plenario/api/sensor.py: [make_query] *)

Module Sensor.
Section MakeQuery.

(** The libraries [make_query] calls into: the JSON parser, shapely, the
    attribute table of SQLAlchemy column objects, and the repository's
    helper [get_size_in_degrees] (plenario/utils/helpers.py). *)
Context {float shape : Type}.
Variable json_loads : string -> result (json float).
Variable asShape : json float -> result shape.
Variable centroid_y : shape -> result float.
Variable get_size_in_degrees : Z -> float -> float * float.
Variable buffer : shape -> float -> shape.
Variable geo_interface : shape -> json float.
(** [hasattr(column, name)], the column given by its name *)
Variable hasattr : string -> string -> bool.
(** [getattr(column, attr)(query_value)] for an attribute the column has,
    as far as the scan sees it: the call returns, or it raises ([TypeError]
    when the attribute is not callable or does not take one argument). *)
Variable getattr_call : string -> string -> option string -> result unit.
(** [column.ST_Within(...)]: it returns, or raises ([AttributeError] on a
    column that is not a geometry). *)
Variable st_within : string -> result unit.

(** The predicate an entry of [query_clauses] stands for. *)
Inductive clause : Type :=
  | In_ (column : string) (values : list string)
  | ST_Within (column : string) (geojson : json float)
  | HourGe (column : string) (value : string)
  | HourLe (column : string) (value : string)
  | GetattrCall (column : string) (attr : string) (value : option string).

Record resp : Type := {
  meta_status : string;
  meta_message : string;
  objects : list (json float)
}.

(** The variables the loop of [make_query] updates. *)
Record state : Type := {
  valid_query : bool;
  query_clauses : list (option clause);
  message : string;
  status_code : Z
}.

Inductive flow : Type :=
  | Next (st : state)
  | Break (st : state).

(** [raw_query_params.keys()]: every key once, in order of first arrival. *)
Fixpoint keys (raw_query_params : list (string * string)) : list string :=
  match raw_query_params with
  | [] => []
  | (k, _) :: l =>
      k :: filter (fun k' => negb (String.eqb k k')) (keys l)
  end.

(** [raw_query_params.get(k)]: the first value stored for the key *)
Definition get (raw_query_params : list (string * string)) (k : string)
  : option string := assoc k raw_query_params.

(** [field, operator = query_param.split('__')], falling back to
    [(query_param, 'eq')] when the unpacking raises [ValueError]. *)
Definition split_param (query_param : string) : string * string :=
  match PyStr.split query_param "__" with
  | [field; operator] => (field, operator)
  | _ => (query_param, "eq")
  end.

(** The geometry the [within] branch takes from the parsed document:
    that of its first feature, its [geometry] member, or the document
    itself. *)
Definition geometry_of (geo : json float) : result (json float) :=
  ks ← json_keys geo;
  if PyStr.mem "features" ks then
    fs ← json_getitem geo "features";
    f ← json_item0 fs;
    json_getitem f "geometry"
  else if PyStr.mem "geometry" ks then json_getitem geo "geometry"
  else Ok geo.

(** The [crs] member set on the geometry. *)
Definition crs_4326 : json float :=
  JObj [("type", JStr "name");
        ("properties", JObj [("name", JStr "EPSG:4326")])].

(** The geometry the [within] branch hands to [ST_GeomFromGeoJSON]. *)
Definition within_geometry (query_value : string) : result (json float) :=
  geo ← json_loads query_value;
  ks ← json_keys geo;
  val ← (if PyStr.mem "features" ks then
           fs ← json_getitem geo "features";
           f ← json_item0 fs;
           json_getitem f "geometry"
         else if PyStr.mem "geometry" ks then json_getitem geo "geometry"
         else Ok geo);
  ty ← json_getitem val "type";
  val ← (if json_is_str ty "LineString" then
           sh ← asShape val;
           lat ← centroid_y sh;
           let '(x, y) := get_size_in_degrees 100 lat in
           Ok (geo_interface (buffer sh y))
         else Ok val);
  json_setitem val "crs"
    (JObj [("type", JStr "name");
           ("properties", JObj [("name", JStr "EPSG:4326")])]).

(** [[e for e in ['%s', '%s_', '__%s__'] if hasattr(column, e % operator)]] *)
Definition attr_candidates (column operator : string) : list string :=
  filter (fun a => hasattr column a)
         [operator; operator ++ "_"; "__" ++ operator ++ "__"].

(** The rich comparison methods: every object has them and each takes one
    argument, so calling one of them on the column returns. *)
Definition rich_comparisons : list string :=
  ["__eq__"; "__ne__"; "__lt__"; "__le__"; "__gt__"; "__ge__"].

(** [getattr(column, attr)(query_value)] *)
Definition call_attr (column attr : string) (query_value : option string)
  : result unit :=
  if PyStr.mem attr rich_comparisons then Ok tt
  else getattr_call column attr query_value.

(** One iteration of [for query_param in args_keys]. *)
Definition step (table_keys : list string)
    (raw_query_params : list (string * string))
    (query_param : string) (st : state) : result flow :=
  let '(field, operator) := split_param query_param in
  let query_value := default EmptyString (get raw_query_params query_param) in
  let column := field in
  if negb (PyStr.mem field table_keys) then
    Ok (Next {| valid_query := false;
                query_clauses := query_clauses st;
                message := PyStr.repr field ++ " is not a valid field name";
                status_code := 400 |})
  else if String.eqb operator "in" then
    Ok (Next {| valid_query := valid_query st;
                query_clauses :=
                  query_clauses st
                  ++ [Some (In_ column (PyStr.split query_value ","))];
                message := message st;
                status_code := status_code st |})
  else if String.eqb operator "within" then
    val ← within_geometry query_value;
    _ ← st_within column;
    Ok (Next {| valid_query := valid_query st;
                query_clauses := query_clauses st ++ [Some (ST_Within column val)];
                message := message st;
                status_code := status_code st |})
  else if PyStr.startswith operator "time_of_day" then
    let query :=
      if PyStr.endswith operator "ge" then Some (HourGe column query_value)
      else if PyStr.endswith operator "le" then Some (HourLe column query_value)
      else None in
    Ok (Next {| valid_query := valid_query st;
                query_clauses := query_clauses st ++ [query];
                message := message st;
                status_code := status_code st |})
  else
    match attr_candidates column operator with
    | [] =>
        Ok (Break {| valid_query := false;
                     query_clauses := query_clauses st;
                     message := PyStr.repr operator
                                ++ " is not a valid query operator";
                     status_code := 400 |})
    | attr :: _ =>
        let query_value :=
          if String.eqb query_value "null" then None else Some query_value in
        _ ← call_attr column attr query_value;
        Ok (Next {| valid_query := valid_query st;
                    query_clauses :=
                      query_clauses st
                      ++ [Some (GetattrCall column attr query_value)];
                    message := message st;
                    status_code := status_code st |})
    end.

(** A parameter after which the loop goes on to the next one. *)
Definition keeps_going (table_keys : list string)
    (raw_query_params : list (string * string)) (query_param : string) : Prop :=
  forall st, exists st', step table_keys raw_query_params query_param st
                         = Ok (Next st').

(** A parameter that names a column of the table and is translated. *)
Definition translates (table_keys : list string)
    (raw_query_params : list (string * string)) (query_param : string) : Prop :=
  PyStr.mem (fst (split_param query_param)) table_keys = true
  /\ keeps_going table_keys raw_query_params query_param.

Fixpoint scan (table_keys : list string)
    (raw_query_params : list (string * string))
    (args_keys : list string) (st : state) : result state :=
  match args_keys with
  | [] => Ok st
  | query_param :: rest =>
      o ← step table_keys raw_query_params query_param st;
      match o with
      | Next st' => scan table_keys raw_query_params rest st'
      | Break st' => Ok st'
      end
  end.

Definition reserved : list string := ["offset"; "limit"; "order_by"; "weather"].

Definition args_keys_of (raw_query_params : list (string * string))
  : list string :=
  fold_left (fun l k => PyStr.remove k l) reserved (keys raw_query_params).

Definition init : state :=
  {| valid_query := true; query_clauses := [];
     message := EmptyString; status_code := 200 |}.

(** [make_query(table, raw_query_params)], the table given by
    [list(table.columns.keys())]; the result is
    [(valid_query, query_clauses, resp, status_code)]. *)
Definition make_query (table_keys : list string)
    (raw_query_params : list (string * string))
  : result (bool * list (option clause) * resp * Z) :=
  st ← scan table_keys raw_query_params (args_keys_of raw_query_params) init;
  Ok (valid_query st, query_clauses st,
      {| meta_status := "error"; meta_message := message st; objects := [] |},
      status_code st).

End MakeQuery.
End Sensor.

(** ** plenario/api/sensor.py: the weather endpoints *)

Module Weather.

(** What [wban_is_valid] does to the database session. *)
Inductive event : Type :=
  | ReflectStations
  | Execute (wban : string)
  | Rollback.

(** What [weather_fill] answers: [make_error(msg, status)], or the
    confirmation that [update_weather.delay(month, year, wbans)] was
    queued. *)
Inductive response : Type :=
  | make_error (msg : string) (status : Z)
  | queued (month year : Z) (wbans : list string).

Section Validators.

(** [int(s)] on a string: the integer, or the exception raised. *)
Variable int : string -> result Z.
(** Whether reflecting [weather_stations] returns, in the call for this
    code; otherwise it raises [SQLAlchemyError]. *)
Variable reflect_stations : string -> bool.
(** The rows of
    [select wban_code from weather_stations where wban_code = wban];
    [None] when running the query raises [SQLAlchemyError]. *)
Variable select_wban : string -> option (list string).

(** [x in int_range] *)
Definition in_range (x : Z) (int_range : list Z) : bool :=
  existsb (Z.eqb x) int_range.

(** [_string_in_int_range(maybe_int, int_range)]: the argument is a string
    or [None]; the value returned is an integer or [False] (here [None]). *)
Definition _string_in_int_range (maybe_int : option string)
    (int_range : list Z) : result (option Z) :=
  match maybe_int with
  | None => Ok None
  | Some EmptyString => Ok None
  | Some s =>
      match int s with
      | Ok as_int => Ok (if in_range as_int int_range then Some as_int else None)
      | Raise ValueError => Ok None
      | Raise e => Raise e
      end
  end.

(** [[n + k for n in range(len)]] *)
Definition range_from (k : Z) (len : nat) : list Z :=
  map (fun n => Z.of_nat n + k) (seq 0 len).

Definition year_if_valid (year_str : option string) : result (option Z) :=
  let valid_years := range_from 2000 20 in
  _string_in_int_range year_str valid_years.

Definition month_if_valid (month_str : option string) : result (option Z) :=
  let valid_months := range_from 1 12 in
  _string_in_int_range month_str valid_months.

(** [wban_is_valid(wban)], with what it did to the session. *)
Definition wban_is_valid (wban : option string) : bool * list event :=
  match wban with
  | None => (false, [])
  | Some EmptyString => (false, [])
  | Some w =>
      if negb (reflect_stations w) then (false, [ReflectStations; Rollback])
      else
        match select_wban w with
        | None => (false, [ReflectStations; Execute w; Rollback])
        | Some [] => (false, [ReflectStations; Execute w])
        | Some (_ :: _) => (true, [ReflectStations; Execute w])
        end
  end.

(** [[w for w in wban_candidate_list if wban_is_valid(w)]] *)
Fixpoint valid_wbans (wban_candidate_list : list string)
  : list string * list event :=
  match wban_candidate_list with
  | [] => ([], [])
  | w :: rest =>
      let '(ok, ev) := wban_is_valid (Some w) in
      let '(l, ev') := valid_wbans rest in
      (if ok then w :: l else l, (ev ++ ev')%list)
  end.

(** [wban_list_if_valid(wban_list_str)]: a list, or [False] (here
    [None]). *)
Definition wban_list_if_valid (wban_list_str : option string)
  : option (list string) * list event :=
  match wban_list_str with
  | None => (None, [])
  | Some EmptyString => (None, [])
  | Some s =>
      let wban_candidate_list := PyStr.split s "," in
      let '(l, ev) := valid_wbans wban_candidate_list in
      (Some l, ev)
  end.

(** Truth value of an integer-or-[False]. *)
Definition truthy_int (o : option Z) : bool :=
  match o with
  | Some n => negb (n =? 0)
  | None => false
  end.

(** [weather_fill()], the request given by its query arguments. *)
Definition weather_fill (args : list (string * string))
  : result (response * list event) :=
  year ← year_if_valid (Sensor.get args "year");
  if negb (truthy_int year) then
    Ok (make_error "Must supply a year between 2000 and 2019" 400, [])
  else
    month ← month_if_valid (Sensor.get args "month");
    if negb (truthy_int month) then
      Ok (make_error "Must supply month as number between 1 and 12" 400, [])
    else
      let '(wbans, ev) := wban_list_if_valid (Sensor.get args "wbans") in
      match wbans with
      | Some (w :: l) => Ok (queued (default 0 month) (default 0 year) (w :: l), ev)
      | _ =>
          Ok (make_error
                ("WBAN list misformatted or no WBANS provided are "
                 ++ "available. Check /weather-stations") 400, ev)
      end.

End Validators.

Section Grouping.

(** The dicts [wd] and [sd] that [weather] builds from a row's weather
    fields and station fields. *)
Context {WD SD : Type}.

(** The body of [for value in values], the row given by its [wban_code]
    and its two dicts. *)
Definition add_value
    (st : list (string * list WD) * list (string * SD))
    (value : string * WD * SD)
  : list (string * list WD) * list (string * SD) :=
  let '(weather_data, station_data) := st in
  let '(wban_code, wd, sd) := value in
  (match assoc wban_code weather_data with
   | Some (o :: l) => assoc_set wban_code ((o :: l) ++ [wd])%list weather_data
   | _ => assoc_set wban_code [wd] weather_data
   end,
   assoc_set wban_code sd station_data).

(** The body of [for station_id in list(weather_data.keys())]:
    the pair [(station_info, observations)]. *)
Fixpoint station_objects (weather_data : list (string * list WD))
    (station_data : list (string * SD)) (station_ids : list string)
  : result (list (SD * list WD)) :=
  match station_ids with
  | [] => Ok []
  | station_id :: rest =>
      match assoc station_id station_data, assoc station_id weather_data with
      | Some info, Some observations =>
          l ← station_objects weather_data station_data rest;
          Ok ((info, observations) :: l)
      | _, _ => Raise KeyError
      end
  end.

(** The station codes of the rows, each once, in order of first
    appearance. *)
Fixpoint station_ids (values : list (string * WD * SD)) : list string :=
  match values with
  | [] => []
  | (wban_code, _, _) :: rest =>
      wban_code
      :: List.filter (fun c => negb (String.eqb wban_code c)) (station_ids rest)
  end.

(** The rows of a station. *)
Definition rows_of (station_id : string) (values : list (string * WD * SD))
  : list (string * WD * SD) :=
  List.filter (fun v => String.eqb (fst (fst v)) station_id) values.

(** The part of [weather] that turns the rows into [resp['objects']] and
    [resp['meta']['total']]. *)
Definition group_values (values : list (string * WD * SD))
  : result (list (SD * list WD) * Z) :=
  let '(weather_data, station_data) := fold_left add_value values ([], []) in
  objects ← station_objects weather_data station_data (map fst weather_data);
  Ok (objects, fold_right Z.add 0 (map (fun r => Z.of_nat (length (snd r))) objects)).

End Grouping.
End Weather.

(** ** plenario/sensor_network/api/sensor_aggregate_functions.py *)

Module SensorAggregate.
Import PyDatetime.

(** *** [_zero_out_datetime] *)

Definition units : list string :=
  ["year"; "month"; "day"; "hour"; "minute"; "second"; "microsecond"].

(** [l.index(x)] *)
Fixpoint index (x : string) (l : list string) : result nat :=
  match l with
  | [] => Raise ValueError
  | y :: l' => if String.eqb x y then Ok O else S <$> index x l'
  end.

(** The body of the loop: [try: dt = dt.replace(zeroing_unit=0)] with
    [except ValueError: pass]. *)
Definition zero_unit (dt : datetime) (zeroing_unit : string) : result datetime :=
  match replace dt zeroing_unit 0 with
  | Ok dt' => Ok dt'
  | Raise ValueError => Ok dt
  | Raise e => Raise e
  end.

Fixpoint zero_units (dt : datetime) (zeroing_units : list string)
  : result datetime :=
  match zeroing_units with
  | [] => Ok dt
  | u :: rest => dt' ← zero_unit dt u; zero_units dt' rest
  end.

Definition _zero_out_datetime (dt : datetime) (unit : string) : result datetime :=
  i ← index unit units;
  zero_units dt (drop (i + 1)%nat units).

(** *** [_generate_datetime_range] *)

(** [timedelta(kw=1)] in microseconds; [None] when the constructor
    rejects the keyword with [TypeError]. *)
Definition timedelta_kw (kw : string) : option Z :=
  if String.eqb kw "days" then Some US_PER_DAY
  else if String.eqb kw "seconds" then Some US_PER_SECOND
  else if String.eqb kw "microseconds" then Some 1
  else if String.eqb kw "milliseconds" then Some 1000
  else if String.eqb kw "minutes" then Some (60 * US_PER_SECOND)
  else if String.eqb kw "hours" then Some (3600 * US_PER_SECOND)
  else if String.eqb kw "weeks" then Some (7 * US_PER_DAY)
  else None.

(** [relativedelta(kw=1)] as (years, months, leapdays), for the keywords
    that [timedelta] has not already accepted; [None] is [TypeError]. *)
Definition relativedelta_kw (kw : string) : option (Z * Z * Z) :=
  if String.eqb kw "years" then Some (1, 0, 0)
  else if String.eqb kw "months" then Some (0, 1, 0)
  else if String.eqb kw "leapdays" then Some (0, 0, 1)
  else None.

(** One pass through the [try]/[except TypeError] of the loop, after
    the append: the next value of [current_datetime]. *)
Definition advance (current_datetime : datetime) (unit : string)
  : result datetime :=
  match timedelta_kw (unit ++ "s") with
  | Some us => add_timedelta current_datetime us
  | None =>
      match relativedelta_kw (unit ++ "s") with
      | Some (y, m, l) => add_relativedelta current_datetime y m l
      | None => Raise TypeError
      end
  end.

(** The [while current_datetime <= end_datetime] loop; [None] when
    [fuel] iterations were not enough. *)
Fixpoint range_loop (fuel : nat) (unit : string)
    (current_datetime end_datetime : datetime)
  : option (result (list datetime)) :=
  match fuel with
  | O => None
  | S fuel' =>
      if le current_datetime end_datetime then
        match advance current_datetime unit with
        | Raise e => Some (Raise e)
        | Ok next =>
            match range_loop fuel' unit next end_datetime with
            | Some (Ok dt_range) => Some (Ok (current_datetime :: dt_range))
            | other => other
            end
        end
      else Some (Ok [])
  end.

Definition _generate_datetime_range (fuel : nat)
    (start_datetime end_datetime : datetime) (unit : string)
  : option (result (list datetime)) :=
  let start_datetime := replace_tzinfo start_datetime None in
  let end_datetime := replace_tzinfo end_datetime None in
  range_loop fuel unit start_datetime end_datetime.

(** The units whose plural is a keyword of [timedelta] or of
    [relativedelta] and moves every datetime forward. *)
Definition supported_units : list string :=
  ["microsecond"; "millisecond"; "second"; "minute"; "hour"; "day"; "week";
   "month"; "year"].

(** Each element is earlier than the next. *)
Fixpoint increasing (l : list datetime) : Prop :=
  match l with
  | [] => True
  | a :: rest =>
      match rest with
      | [] => True
      | b :: _ => lt a b = true /\ increasing rest
      end
  end.

(** *** [_valid_columns] *)

(** [sensor_models.Sensor] and [sensor_models.NodeMeta]: the columns the
    resolver reads.  [observed_properties] lists the JSON object's
    entries in iteration order. *)
Record Sensor : Type := {
  name : string;
  observed_properties : list (string * string)
}.

Record NodeMeta : Type := {
  id : string;
  sensors : list Sensor
}.

Definition lower_char (c : ascii) : ascii :=
  let n := Ascii.nat_of_ascii c in
  if ((65 <=? n) && (n <=? 90))%nat then Ascii.ascii_of_nat (n + 32) else c.

(** [s.lower()] on ASCII text; statements about the columns it yields
    carry [ascii_properties]. *)
Fixpoint lower (s : string) : string :=
  match s with
  | EmptyString => EmptyString
  | String c s' => String (lower_char c) (lower s')
  end.

(** [l[i]] *)
Definition getitem {A} (l : list A) (i : nat) : result A :=
  match l !! i with
  | Some x => Ok x
  | None => Raise IndexError
  end.

(** Truth value of an optional list: [None] and [[]] are falsy. *)
Definition truthy {A} (o : option (list A)) : bool :=
  match o with
  | Some (_ :: _) => true
  | _ => false
  end.

(** The body of [for val in sensor.observed_properties.values()]. *)
Definition visit_property
    (target_feature_properties : gmap string (option (list string)))
    (columns : gset string) (val : string) : result (gset string) :=
  current_feature ← getitem (PyStr.split val ".") 0;
  current_property ← getitem (PyStr.split val ".") 1;
  match target_feature_properties !! current_feature with
  | None => Ok columns
  | Some props =>
      if truthy props
         && negb (PyStr.mem current_property (default [] props))
      then Ok columns
      else
        p ← getitem (PyStr.split val ".") 1;
        Ok ({[ lower p ]} ∪ columns)
  end.

Fixpoint visit_properties
    (target_feature_properties : gmap string (option (list string)))
    (columns : gset string) (vals : list string) : result (gset string) :=
  match vals with
  | [] => Ok columns
  | val :: rest =>
      columns' ← visit_property target_feature_properties columns val;
      visit_properties target_feature_properties columns' rest
  end.

(** The body of [for sensor in sensors]. *)
Definition visit_sensor (target_sensors : option (list string))
    (target_feature_properties : gmap string (option (list string)))
    (columns : gset string) (sensor : Sensor) : result (gset string) :=
  if truthy target_sensors
     && negb (PyStr.mem (name sensor) (default [] target_sensors))
  then Ok columns
  else visit_properties target_feature_properties columns
         (map snd (observed_properties sensor)).

Fixpoint visit_sensors (target_sensors : option (list string))
    (target_feature_properties : gmap string (option (list string)))
    (columns : gset string) (l : list Sensor) : result (gset string) :=
  match l with
  | [] => Ok columns
  | sensor :: rest =>
      columns' ← visit_sensor target_sensors target_feature_properties
                   columns sensor;
      visit_sensors target_sensors target_feature_properties columns' rest
  end.

(** [session.query(NodeMeta).filter(NodeMeta.id == node).first()] *)
Definition first_node (node_meta : list NodeMeta) (node : string)
  : option NodeMeta :=
  find (fun n => String.eqb (id n) node) node_meta.

(** [_valid_columns], given the node the query found (if any);
    reading [.sensors] of [None] raises [AttributeError]. *)
Definition valid_columns_of (target_node : option NodeMeta)
    (target_sensors : option (list string))
    (target_feature_properties : gmap string (option (list string)))
  : result (gset string) :=
  match target_node with
  | None => Raise AttributeError
  | Some n =>
      visit_sensors target_sensors target_feature_properties ∅ (sensors n)
  end.

(** The observed properties of the node's sensors are ASCII text. *)
Definition ascii_properties (node : NodeMeta) : Prop :=
  Forall (fun sensor =>
            Forall (fun kv => PyStr.is_ascii (snd kv) = true)
                   (observed_properties sensor))
         (sensors node).

(** A sensor the sensor filter skips. *)
Definition excluded (target_sensors : option (list string)) (sensor : Sensor)
  : Prop :=
  truthy target_sensors
  && negb (PyStr.mem (name sensor) (default [] target_sensors)) = true.

(** An observed-property value [feature.property...] that maps into no
    requested feature: its feature is not among the requested ones, or
    properties were requested for that feature and its property is not one
    of them. *)
Definition unrequested
    (target_feature_properties : gmap string (option (list string)))
    (val : string) : Prop :=
  exists f p rest,
    PyStr.split val "." = f :: p :: rest
    /\ (target_feature_properties !! f = None
        \/ exists props,
             target_feature_properties !! f = Some props
             /\ truthy props && negb (PyStr.mem p (default [] props)) = true).

(** No sensor of the node that passes the sensor filter declares a mapping
    into a requested feature. *)
Definition no_requested_feature (target_sensors : option (list string))
    (target_feature_properties : gmap string (option (list string)))
    (node : NodeMeta) : Prop :=
  Forall (fun sensor =>
            excluded target_sensors sensor
            \/ Forall (fun kv => unrequested target_feature_properties (snd kv))
                 (observed_properties sensor))
         (sensors node).

(** [sensors.split(",") if sensors else None] *)
Definition split_sensors (sensors : option string) : option (list string) :=
  match sensors with
  | Some (String c s) => Some (PyStr.split (String c s) ",")
  | _ => None
  end.

(** *** The storage the aggregation reads and the queries it sends *)

(** An item of the select list built by [_generate_aggregate_selects]:
    [date_trunc(agg_unit, datetime)] labelled [time_bucket],
    [agg_fn(col)] labelled [col], [count(col)] labelled [col_count]. *)
Inductive select : Type :=
  | DateTrunc (agg_unit : string)
  | AggFn (col : string)
  | CountOf (col : string).

Inductive query : Type :=
  | SelectNodeMeta (node : string)
  | Reflect (table_name : string)
  | SelectAggregates (selects : list select) (lo hi : datetime).

(** Computations that talk to the storage: they extend the log of
    queries sent, and end in a value, in an exception, or (with [None])
    in a loop that [fuel] iterations did not finish. *)
Definition M (A : Type) : Type :=
  list query -> option (result A * list query).

#[global] Instance M_ret : MRet M := fun A a log => Some (Ok a, log).

#[global] Instance M_bind : MBind M := fun A B k m log =>
  match m log with
  | Some (Ok a, log') => k a log'
  | Some (Raise e, log') => Some (Raise e, log')
  | None => None
  end.

Definition lift {A} (r : result A) : M A := fun log => Some (r, log).
Definition raise {A} (e : exn) : M A := lift (Raise e).
Definition send (q : query) : M unit := fun log => Some (Ok tt, (log ++ [q])%list).
Definition run_loop {A} (o : option (result A)) : M A := fun log =>
  match o with
  | Some r => Some (r, log)
  | None => None
  end.

Section Aggregate.

(** [V] are the DOUBLE PRECISION values; [agg_fn] is the SQL aggregate
    (avg, stddev, variance) over the non-null values of a group, NULL
    ([None]) when it has no value to give; [date_parse] is dateutil's
    parser. *)
Context {V : Type}.
Variable date_parse : string -> result datetime.
Variable agg_fn : list V -> option V.

Record column : Type := {
  col_name : string;
  col_type : string
}.

(** A row of a feature-of-interest table: its [datetime] and, by column
    name, the other values ([None] is NULL). *)
Record observation : Type := {
  obs_datetime : datetime;
  obs_values : list (string * option V)
}.

(** A feature-of-interest table of the database; [reflected] tells
    whether [RBase.metadata] already holds it from an earlier reflection in
    this process (a table that is not in the database is never held). *)
Record table : Type := {
  columns : list column;
  rows : list observation;
  reflected : bool
}.

Record database : Type := {
  node_metadata : list NodeMeta;
  feature_tables : list (string * table)
}.

(** A value of a result row. *)
Inductive cell : Type :=
  | CTime (dt : datetime)
  | CStr (s : string)
  | CInt (n : Z)
  | CVal (v : option V).

(** A result row (or the dict standing in for one): label to value. *)
Definition row : Type := list (string * cell).

(** [date_trunc(unit, dt)] of the database, for the units of [units]. *)
Definition date_trunc (unit : string) (dt : datetime) : result datetime :=
  match index unit units with
  | Raise _ => Raise DatabaseError
  | Ok i =>
      let keep (pos : nat) (v low : Z) := if (pos <=? i)%nat then v else low in
      Ok {| year := year dt;
            month := keep 1%nat (month dt) 1;
            day := keep 2%nat (day dt) 1;
            hour := keep 3%nat (hour dt) 0;
            minute := keep 4%nat (minute dt) 0;
            second := keep 5%nat (second dt) 0;
            microsecond := keep 6%nat (microsecond dt) 0;
            tzinfo := None |}
  end.

Definition dt_eqb (a b : datetime) : bool :=
  match compare a b with Eq => true | _ => false end.

(** The rows of the window [lo <= datetime < hi], each with its bucket. *)
Fixpoint bucketed (agg_unit : string) (lo hi : datetime)
    (l : list observation) : result (list (datetime * observation)) :=
  match l with
  | [] => Ok []
  | o :: rest =>
      if le lo (obs_datetime o) && lt (obs_datetime o) hi then
        b ← date_trunc agg_unit (obs_datetime o);
        tl ← bucketed agg_unit lo hi rest;
        Ok ((b, o) :: tl)
      else bucketed agg_unit lo hi rest
  end.

(** The distinct buckets, in order of first appearance. *)
Fixpoint buckets (l : list (datetime * observation)) : list datetime :=
  match l with
  | [] => []
  | (b, _) :: rest => b :: filter (fun b' => negb (dt_eqb b b')) (buckets rest)
  end.

Definition non_null (col : string) (group : list observation) : list V :=
  omap (fun o => mjoin (assoc col (obs_values o))) group.

Definition select_cell (bucket : datetime) (group : list observation)
    (s : select) : string * cell :=
  match s with
  | DateTrunc _ => ("time_bucket", CTime bucket)
  | AggFn col => (col, CVal (agg_fn (non_null col group)))
  | CountOf col => (col ++ "_count", CInt (Z.of_nat (length (non_null col group))))
  end.

(** What the database answers to
    [select(selects).where(and_(datetime >= lo, datetime < hi))
       .group_by("time_bucket")]: one row per bucket of the window. *)
Definition run_query (t : table) (selects : list select) (lo hi : datetime)
  : result (list row) :=
  match selects with
  | DateTrunc agg_unit :: _ =>
      l ← bucketed agg_unit lo hi (rows t);
      Ok (map (fun b =>
                 let group := map snd (filter (fun p => dt_eqb b (fst p)) l) in
                 map (select_cell b group) selects)
              (buckets l))
  | _ => Raise DatabaseError
  end.

(** [r_session.execute(query).fetchall()] *)
Definition execute (t : table) (selects : list select) (lo hi : datetime)
  : M (list row) :=
  _ ← send (SelectAggregates selects lo hi);
  lift (run_query t selects lo hi).

(** *** [_apply_aggregates] *)

Definition empty_placeholder (lo : datetime) : result (list row) :=
  label ← getitem (PyStr.split (isoformat lo) "+") 0;
  Ok [[("time_bucket", CStr label); ("count", CInt 0)]].

(** The loop [for i in range(0, len(datetimes) - 1)], over its indices. *)
Fixpoint apply_windows (t : table) (selects : list select)
    (datetimes : list datetime) (indices : list nat) (aggregates : list row)
  : M (list row) :=
  match indices with
  | [] => mret aggregates
  | i :: rest =>
      lo ← lift (getitem datetimes i);
      hi ← lift (getitem datetimes (i + 1));
      payload ← execute t selects lo hi;
      placeholder ← lift (empty_placeholder lo);
      apply_windows t selects datetimes rest
        (aggregates ++ match payload with
                       | [] => placeholder
                       | _ :: _ => payload
                       end)
  end.

Definition _apply_aggregates (t : table) (selects : list select)
    (datetimes : list datetime) : M (list row) :=
  apply_windows t selects datetimes (seq 0 (length datetimes - 1)) [].

(** The windows the loop visits: each delimiter with its successor. *)
Fixpoint windows (datetimes : list datetime) : list (datetime * datetime) :=
  match datetimes with
  | [] => []
  | lo :: rest =>
      match rest with
      | [] => []
      | hi :: _ => (lo, hi) :: windows rest
      end
  end.

(** The record standing in for a window without rows, when the
    delimiter's text has no ["+"] to cut at. *)
Definition placeholder_row (lo : datetime) : row :=
  [("time_bucket", CStr (isoformat lo)); ("count", CInt 0)].

(** What a window adds to [aggregates]: the rows of its grouped query
    or, when there are none, the one placeholder. *)
Definition window_records (t : table) (selects : list select)
    (w : datetime * datetime) : list row :=
  match run_query t selects (fst w) (snd w) with
  | Ok [] => [placeholder_row (fst w)]
  | Ok payload => payload
  | Raise _ => []
  end.

Definition window_query (selects : list select) (w : datetime * datetime)
  : query :=
  SelectAggregates selects (fst w) (snd w).

(** *** [_format_aggregates] *)

(** A value of the formatted record: kept at the top level, or a dict
    nested under a column name. *)
Inductive entry : Type :=
  | Top (c : cell)
  | Nested (d : list (string * cell)).

(** [aggregate_json[k1][k2] = c] on a [defaultdict(dict)]. *)
Definition set_nested (aggregate_json : list (string * entry))
    (k1 k2 : string) (c : cell) : result (list (string * entry)) :=
  match assoc k1 aggregate_json with
  | None => Ok (assoc_set k1 (Nested [(k2, c)]) aggregate_json)
  | Some (Nested d) => Ok (assoc_set k1 (Nested (assoc_set k2 c d)) aggregate_json)
  | Some (Top _) => Raise TypeError
  end.

(** The body of [for key in agg.keys()]. *)
Definition format_key (agg_label : string)
    (aggregate_json : list (string * entry)) (kv : string * cell)
  : result (list (string * entry)) :=
  let '(key, v) := kv in
  if String.eqb key "time_bucket" then
    Ok (assoc_set "time_bucket" (Top v) aggregate_json)
  else if String.eqb key "count" then
    Ok (assoc_set "count" (Top v) aggregate_json)
  else if PyStr.contains key "count" then
    k ← getitem (PyStr.split key "_") 0;
    set_nested aggregate_json k "count" v
  else set_nested aggregate_json key agg_label v.

Fixpoint format_keys (agg_label : string)
    (aggregate_json : list (string * entry)) (agg : row)
  : result (list (string * entry)) :=
  match agg with
  | [] => Ok aggregate_json
  | kv :: rest =>
      j ← format_key agg_label aggregate_json kv;
      format_keys agg_label j rest
  end.

Fixpoint _format_aggregates (aggregates : list row) (agg_label : string)
  : result (list (list (string * entry))) :=
  match aggregates with
  | [] => Ok []
  | agg :: rest =>
      aggregate_json ← format_keys agg_label [] agg;
      results ← _format_aggregates rest agg_label;
      Ok (aggregate_json :: results)
  end.

(** *** [_generate_aggregate_selects] *)

Definition meta_columns : list string :=
  ["node_id"; "datetime"; "meta_id"; "sensor"].

Definition type_name (c : column) : string :=
  match PyStr.split (col_type c) "(" with
  | h :: _ => h
  | [] => EmptyString
  end.

Definition _generate_aggregate_selects (t : table)
    (target_columns : gset string) (agg_unit : string) : list select :=
  DateTrunc agg_unit
  :: flat_map (fun col =>
       if PyStr.mem (col_name col) meta_columns then []
       else if negb (bool_decide (col_name col ∈ target_columns)) then []
       else if negb (String.eqb (type_name col) "DOUBLE PRECISION") then []
       else [AggFn (col_name col); CountOf (col_name col)])
     (columns t).

(** *** [_reflect] and [_valid_columns], against the storage *)

(** [Table(table_name, metadata, autoload=True, autoload_with=engine)]
    returns the table that the metadata already holds without asking the
    database, and reflects it otherwise. *)
Definition _reflect (db : database) (table_name : string) : M table :=
  match assoc table_name (feature_tables db) with
  | Some t =>
      if reflected t then mret t
      else _ ← send (Reflect table_name); mret t
  | None =>
      _ ← send (Reflect table_name);
      raise NoSuchTableError
  end.

Definition _valid_columns (db : database) (node : string)
    (target_sensors : option (list string))
    (target_feature_properties : gmap string (option (list string)))
  : M (gset string) :=
  _ ← send (SelectNodeMeta node);
  lift (valid_columns_of (first_node (node_metadata db) node)
          target_sensors target_feature_properties).

(** *** [aggregate] *)

(** The validated request parameters read from [args.data]. *)
Record args : Type := {
  node_id : string;
  feature : string;
  start_datetime : string;
  end_datetime : string;
  arg_sensors : option string;
  agg_unit : string
}.

(** The loop [for feature in target_features]: it rebinds [feature] and
    fills the map of target features and properties. *)
Fixpoint feature_properties (feature : string) (target_features : list string)
    (tfp : gmap string (option (list string)))
  : result (string * gmap string (option (list string))) :=
  match target_features with
  | [] => Ok (feature, tfp)
  | f :: rest =>
      match PyStr.split f "." with
      | [feature'; f_property] =>
          match tfp !! feature' with
          | None =>
              feature_properties feature' rest
                (<[feature' := Some [f_property]]> tfp)
          | Some (Some l) =>
              feature_properties feature' rest
                (<[feature' := Some (l ++ [f_property])%list]> tfp)
          | Some None => Raise AttributeError
          end
      | _ => feature_properties f rest (<[f := None]> tfp)
      end
  end.

Definition aggregate (fuel : nat) (db : database) (a : args)
    (agg_label : string) : M (list (list (string * entry))) :=
  start_dt ← lift (date_parse (start_datetime a));
  start_dt ← lift (_zero_out_datetime start_dt (agg_unit a));
  end_dt ← lift (date_parse (end_datetime a));
  let target_features := PyStr.split (feature a) "," in
  let target_sensors := split_sensors (arg_sensors a) in
  '(feature, target_feature_properties) ←
    lift (feature_properties (feature a) target_features ∅);
  valid_columns ← _valid_columns db (node_id a) target_sensors
                    target_feature_properties;
  if bool_decide (valid_columns = ∅) then raise ContradictoryFilters
  else
    table_name ← lift (getitem (PyStr.split feature ".") 0);
    obs_table ← _reflect db table_name;
    let selects :=
      _generate_aggregate_selects obs_table valid_columns (agg_unit a) in
    datetimes ← run_loop (_generate_datetime_range fuel start_dt end_dt
                            (agg_unit a));
    results ← _apply_aggregates obs_table selects datetimes;
    lift (_format_aggregates results agg_label).

End Aggregate.
End SensorAggregate.

(** ** Sample environments, used to run the definitions on concrete inputs *)

Module Samples.
Import PyDatetime SensorAggregate.

(** Names that a SQLAlchemy column object answers to, among them the
    comparison methods the API's operators resolve to
    ([eq] to [__eq__], ...) and the other column operators
    ([like], [ilike], [is_], ...). *)
Definition column_attrs : list string :=
  ["__eq__"; "__ne__"; "__lt__"; "__le__"; "__gt__"; "__ge__";
   "in_"; "notin_"; "like"; "notlike"; "ilike"; "notilike"; "is_"; "isnot";
   "startswith"; "endswith"; "contains"; "match"; "between"; "distinct";
   "asc"; "desc"; "label"; "cast"; "op"; "name"; "key"].

Definition column_hasattr (column attr : string) : bool :=
  PyStr.mem attr column_attrs.

(** Calling an attribute of a column with one argument: [between] wants
    two, [distinct], [asc] and [desc] none, [name] and [key] are strings;
    the other attributes listed are methods of one argument. *)
Definition column_call (column attr : string) (query_value : option string)
  : result unit :=
  if PyStr.mem attr ["between"; "distinct"; "asc"; "desc"; "name"; "key"]
  then Raise TypeError else Ok tt.

(** Every sample column is taken to be a geometry. *)
Definition column_st_within (column : string) : result unit := Ok tt.

(** [make_query] where no [within] filter can be parsed. *)
Definition make_query_plain :=
  Sensor.make_query (float := Z) (shape := unit)
    (fun _ => Raise ValueError) (fun _ => Raise ValueError)
    (fun _ => Raise ValueError) (fun _ _ => (0, 0)) (fun s _ => s)
    (fun _ => JNull) column_hasattr column_call column_st_within.

Definition step_plain :=
  Sensor.step (float := Z) (shape := unit)
    (fun _ => Raise ValueError) (fun _ => Raise ValueError)
    (fun _ => Raise ValueError) (fun _ _ => (0, 0)) (fun s _ => s)
    (fun _ => JNull) column_hasattr column_call column_st_within.

Definition naive (y mo d h mi s us : Z) : datetime :=
  {| year := y; month := mo; day := d; hour := h; minute := mi;
     second := s; microsecond := us; tzinfo := None |}.

(** A node with one sensor observing temperature and humidity, and the
    temperature table with two observations. *)
Definition node_n1 : NodeMeta :=
  {| id := "n1";
     sensors :=
       [ {| name := "s1";
            observed_properties :=
              [("t", "temperature.temperature"); ("h", "humidity.humidity")] |} ] |}.

Definition temperature_table : table (V := Z) :=
  {| columns := [ {| col_name := "node_id"; col_type := "VARCHAR" |};
                  {| col_name := "temperature"; col_type := "DOUBLE PRECISION" |} ];
     rows := [ {| obs_datetime := naive 2016 1 20 3 0 0 0;
                  obs_values := [("temperature", Some 5)] |};
               {| obs_datetime := naive 2016 2 5 3 0 0 0;
                  obs_values := [("temperature", Some 7)] |} ];
     reflected := false |}.

Definition db : database (V := Z) :=
  {| node_metadata := [node_n1];
     feature_tables := [("temperature", temperature_table)] |}.

(** A parser that knows two timestamps. *)
Definition date_parse (s : string) : result datetime :=
  if String.eqb s "2016-01-15T10:00:00" then Ok (naive 2016 1 15 10 0 0 0)
  else if String.eqb s "2016-03-20T00:00:00" then Ok (naive 2016 3 20 0 0 0 0)
  else Raise ValueError.

(** Sum of the values, standing in for the SQL aggregate. *)
Definition agg_sum (l : list Z) : option Z :=
  match l with
  | [] => None
  | _ => Some (fold_right Z.add 0 l)
  end.

(** The monthly select list on the temperature column and the monthly
    delimiters from 15 January to 15 March 2016. *)
Definition month_selects : list select :=
  [DateTrunc "month"; AggFn "temperature"; CountOf "temperature"].

Definition month_delimiters : list datetime :=
  [naive 2016 1 15 0 0 0 0; naive 2016 2 15 0 0 0 0; naive 2016 3 15 0 0 0 0].

(** A reader of unsigned decimal numerals, standing in for [int]. *)
Fixpoint digits_value (acc : Z) (s : string) : option Z :=
  match s with
  | EmptyString => Some acc
  | String c s' =>
      let n := Ascii.nat_of_ascii c in
      if ((48 <=? n) && (n <=? 57))%nat
      then digits_value (acc * 10 + Z.of_nat (n - 48)) s'
      else None
  end.

Definition int_digits (s : string) : result Z :=
  match s with
  | EmptyString => Raise ValueError
  | String _ _ =>
      match digits_value 0 s with
      | Some n => Ok n
      | None => Raise ValueError
      end
  end.

(** A stations table with two codes. *)
Definition stations : list string := ["14819"; "94846"].

Definition select_wban (wban : string) : option (list string) :=
  Some (List.filter (String.eqb wban) stations).

Definition reflect_stations (wban : string) : bool := true.

(** A parser that answers every text with the same line, and a shape
    library whose buffers are polygons. *)
Definition json_loads_line (s : string) : result (json Z) :=
  Ok (JObj [("type", JStr "LineString");
            ("coordinates", JArr [JArr [JInt 0; JInt 41]; JArr [JInt 1; JInt 41]])]).

Definition polygon_interface (sh : unit) : json Z :=
  JObj [("type", JStr "Polygon"); ("coordinates", JArr [])].

Definition size_in_degrees (meters lat : Z) : Z * Z := (meters, meters).

(** A parser that answers every text with the same point. *)
Definition json_loads_point (s : string) : result (json Z) :=
  Ok (JObj [("type", JStr "Point"); ("coordinates", JArr [JInt 1; JInt 2])]).

Definition within_geometry_point :=
  Sensor.within_geometry (float := Z) (shape := unit)
    json_loads_point (fun _ => Raise ValueError)
    (fun _ => Raise ValueError) (fun _ _ => (0, 0)) (fun s _ => s)
    (fun _ => JNull).

Definition request (feature agg_unit : string) : args :=
  {| node_id := "n1"; feature := feature;
     start_datetime := "2016-01-15T10:00:00";
     end_datetime := "2016-03-20T00:00:00";
     arg_sensors := None; agg_unit := agg_unit |}.

End Samples.

(** * Properties of [make_query] *)

Section MakeQueryFacts.
Import Sensor.
Context {float shape : Type}.
Variable json_loads : string -> result (json float).
Variable asShape : json float -> result shape.
Variable centroid_y : shape -> result float.
Variable get_size_in_degrees : Z -> float -> float * float.
Variable buffer : shape -> float -> shape.
Variable geo_interface : shape -> json float.
Variable hasattr : string -> string -> bool.
Variable getattr_call : string -> string -> option string -> result unit.
Variable st_within : string -> result unit.

Local Abbreviation step' :=
  (step json_loads asShape centroid_y get_size_in_degrees buffer
     geo_interface hasattr getattr_call st_within).
Local Abbreviation scan' :=
  (scan json_loads asShape centroid_y get_size_in_degrees buffer
     geo_interface hasattr getattr_call st_within).
Local Abbreviation make_query' :=
  (make_query json_loads asShape centroid_y get_size_in_degrees buffer
     geo_interface hasattr getattr_call st_within).

Variable table_keys : list string.
Variable raw_query_params : list (string * string).

Local Abbreviation keeps_going' :=
  (keeps_going json_loads asShape centroid_y get_size_in_degrees buffer
     geo_interface hasattr getattr_call st_within table_keys
     raw_query_params).
Local Abbreviation translates' :=
  (translates json_loads asShape centroid_y get_size_in_degrees buffer
     geo_interface hasattr getattr_call st_within table_keys
     raw_query_params).

Lemma step_invalid_field query_param field operator st :
  split_param query_param = (field, operator) ->
  PyStr.mem field table_keys = false ->
  step' table_keys raw_query_params query_param st
  = Ok (Next {| valid_query := false;
                query_clauses := query_clauses st;
                message := PyStr.repr field ++ " is not a valid field name";
                status_code := 400 |}).
Proof.
  intros Hs Hf. unfold step. rewrite Hs, Hf. reflexivity.
Qed.

Lemma step_invalid_operator query_param field operator st :
  split_param query_param = (field, operator) ->
  PyStr.mem field table_keys = true ->
  String.eqb operator "in" = false ->
  String.eqb operator "within" = false ->
  PyStr.startswith operator "time_of_day" = false ->
  attr_candidates hasattr field operator = [] ->
  step' table_keys raw_query_params query_param st
  = Ok (Break {| valid_query := false;
                 query_clauses := query_clauses st;
                 message := PyStr.repr operator
                            ++ " is not a valid query operator";
                 status_code := 400 |}).
Proof.
  intros Hs Hf Hin Hw Ht Ha. unfold step.
  rewrite Hs, Hf, Hin, Hw, Ht, Ha. reflexivity.
Qed.

(** A translated parameter leaves the error report as it found it. *)
Lemma step_translates_report query_param st st' :
  PyStr.mem (fst (split_param query_param)) table_keys = true ->
  step' table_keys raw_query_params query_param st = Ok (Next st') ->
  valid_query st' = valid_query st
  /\ message st' = message st
  /\ status_code st' = status_code st.
Proof.
  unfold step. destruct (split_param query_param) as [field operator].
  simpl. intros ->. simpl.
  destruct (String.eqb operator "in"); [intros [= <-]; auto|].
  destruct (String.eqb operator "within").
  { destruct (within_geometry _ _ _ _ _ _ _) as [val|e]; simpl;
      [|discriminate].
    destruct (st_within field) as [[]|e]; simpl;
      [intros [= <-]; auto | discriminate]. }
  destruct (PyStr.startswith operator "time_of_day"); [intros [= <-]; auto|].
  destruct (attr_candidates hasattr field operator); [discriminate|].
  destruct (call_attr _ _ _ _) as [[]|e]; simpl;
    [intros [= <-]; auto | discriminate].
Qed.

Lemma time_of_day_not_in_within operator :
  PyStr.startswith operator "time_of_day" = true ->
  String.eqb operator "in" = false /\ String.eqb operator "within" = false.
Proof.
  destruct operator as [|c o]; [discriminate|]. cbn [PyStr.startswith].
  destruct (Ascii.eqb "t" c) eqn:E; [|discriminate].
  apply Ascii.eqb_eq in E. subst c. intros _. split; reflexivity.
Qed.

Lemma scan_keeps_going pre rest st :
  Forall keeps_going' pre ->
  exists st', scan' table_keys raw_query_params (pre ++ rest) st
              = scan' table_keys raw_query_params rest st'.
Proof.
  intros H. revert st. induction H as [|q pre Hq _ IH]; intros st.
  - exists st. reflexivity.
  - destruct (Hq st) as [st1 E]. destruct (IH st1) as [st2 E2].
    exists st2. simpl. rewrite E. simpl. exact E2.
Qed.

Lemma scan_translates post st :
  Forall translates' post ->
  exists st', scan' table_keys raw_query_params post st = Ok st'
              /\ valid_query st' = valid_query st
              /\ message st' = message st
              /\ status_code st' = status_code st.
Proof.
  intros H. revert st. induction H as [|q post [Hf Hq] _ IH]; intros st.
  - exists st. auto.
  - destruct (Hq st) as [st1 E].
    destruct (step_translates_report _ _ _ Hf E) as (Hv & Hm & Hc).
    destruct (IH st1) as (st2 & E2 & Hv2 & Hm2 & Hc2).
    exists st2. simpl. rewrite E. simpl. rewrite E2.
    repeat split; congruence.
Qed.



(** C5 (as amended).  A parameter on a column of the table with operator
    [in] and an empty operand is translated, without an error, into a
    membership predicate over the one-element list holding the empty
    string. *)
Theorem in_empty_operand query_param field st :
  get raw_query_params query_param = Some EmptyString ->
  split_param query_param = (field, "in") ->
  PyStr.mem field table_keys = true ->
  step' table_keys raw_query_params query_param st
  = Ok (Next {| valid_query := valid_query st;
                query_clauses :=
                  query_clauses st ++ [Some (In_ field [EmptyString])];
                message := message st;
                status_code := status_code st |}).
Proof.
  intros Hg Hs Hf. unfold step. rewrite Hs, Hf, Hg. reflexivity.
Qed.

(** C10.  A parameter on a column of the table whose operator starts with
    [time_of_day] and ends with neither [ge] nor [le] appends [None] to the
    clause list and leaves the validity flag, the message and the status
    code untouched. *)
Theorem time_of_day_appends_none query_param field operator st :
  split_param query_param = (field, operator) ->
  PyStr.mem field table_keys = true ->
  PyStr.startswith operator "time_of_day" = true ->
  PyStr.endswith operator "ge" = false ->
  PyStr.endswith operator "le" = false ->
  step' table_keys raw_query_params query_param st
  = Ok (Next {| valid_query := valid_query st;
                query_clauses := query_clauses st ++ [None];
                message := message st;
                status_code := status_code st |}).
Proof.
  intros Hs Hf Ht Hge Hle. unfold step.
  destruct (time_of_day_not_in_within _ Ht) as [Hin Hw].
  rewrite Hs, Hf, Hin, Hw, Ht, Hge, Hle. reflexivity.
Qed.

End MakeQueryFacts.





Lemma in_empty_operand_witness :
  Samples.step_plain ["a"] [("a__in", EmptyString)] "a__in" Sensor.init
  = Ok (Sensor.Next
          {| Sensor.valid_query := true;
             Sensor.query_clauses := [Some (Sensor.In_ "a" [EmptyString])];
             Sensor.message := EmptyString;
             Sensor.status_code := 200 |}).
Proof.
  apply (in_empty_operand _ _ _ _ _ _ Samples.column_hasattr Samples.column_call
           Samples.column_st_within
           ["a"] [("a__in", EmptyString)] "a__in" "a" Sensor.init);
    reflexivity.
Defined.

(** C5 as stated fails: the membership list built from an empty operand is
    not empty, it holds the empty string. *)
Lemma make_query_in_empty_operand_not_empty :
  Samples.make_query_plain ["a"] [("a__in", EmptyString)]
  = Ok (true, [Some (Sensor.In_ "a" [EmptyString])],
        {| Sensor.meta_status := "error"; Sensor.meta_message := EmptyString;
           Sensor.objects := [] |},
        200)
  /\ Samples.make_query_plain ["a"] [("a__in", EmptyString)]
     <> Ok (true, [Some (Sensor.In_ "a" [])],
            {| Sensor.meta_status := "error"; Sensor.meta_message := EmptyString;
               Sensor.objects := [] |},
            200).
Proof. split; [reflexivity | discriminate]. Qed.

Lemma time_of_day_appends_none_witness :
  Samples.step_plain ["a"] [("a__time_of_day_xx", "3")] "a__time_of_day_xx"
    Sensor.init
  = Ok (Sensor.Next
          {| Sensor.valid_query := true;
             Sensor.query_clauses := [None];
             Sensor.message := EmptyString;
             Sensor.status_code := 200 |}).
Proof.
  apply (time_of_day_appends_none _ _ _ _ _ _ Samples.column_hasattr Samples.column_call
           Samples.column_st_within
           ["a"] [("a__time_of_day_xx", "3")] "a__time_of_day_xx" "a"
           "time_of_day_xx" Sensor.init);
    reflexivity.
Defined.

(** An operator that resolves to an attribute that is not a method of one
    argument is not reported: the call raises and the exception leaves
    [make_query], whatever follows. *)
Example make_query_uncallable_attribute :
  Samples.make_query_plain ["a"] [("a__name", "5"); ("a__zz", "1")]
  = Raise TypeError.
Proof. reflexivity. Qed.

Example make_query_time_of_day_xx :
  Samples.make_query_plain ["a"] [("a__time_of_day_xx", "3")]
  = Ok (true, [None],
        {| Sensor.meta_status := "error"; Sensor.meta_message := EmptyString;
           Sensor.objects := [] |},
        200).
Proof. reflexivity. Qed.

(** * Properties of [str.split] and of the splitting of parameter keys *)

Section SplitFacts.
Import PyStr.

Lemma split_aux_nonempty sep skip s : split_aux sep skip s <> [].
Proof.
  revert skip. induction s as [|c s IH]; intros skip; cbn [split_aux]; [done|].
  destruct skip; [|apply IH].
  destruct (startswith (String c s) sep); [done|].
  destruct (split_aux sep 0 s); done.
Qed.

(** Without an occurrence of the separator the text is the only piece. *)
Lemma split_no_separator sep s :
  contains s sep = false -> split s sep = [s].
Proof.
  unfold split. induction s as [|c s IH]; [reflexivity|].
  cbn [contains split_aux]. intros H. apply orb_false_iff in H as [H1 H2].
  rewrite H1, (IH H2). reflexivity.
Qed.

(** With one, there are at least two pieces. *)
Lemma split_with_separator sep s :
  sep <> EmptyString -> contains s sep = true ->
  (2 <= length (split s sep))%nat.
Proof.
  intros Hsep. unfold split. induction s as [|c s IH].
  - destruct sep; [congruence | discriminate].
  - cbn [contains split_aux]. intros H.
    destruct (startswith (String c s) sep) eqn:E.
    + pose proof (split_aux_nonempty sep (String.length sep - 1) s) as Hne.
      destruct (split_aux sep (String.length sep - 1) s); [congruence|].
      simpl. lia.
    + simpl in H. specialize (IH H).
      destruct (split_aux sep 0 s) as [|h t]; simpl in *; lia.
Qed.

Lemma append_nil_l (s : string) : EmptyString ++ s = s.
Proof. reflexivity. Qed.

Lemma append_cons c (s t : string) : String c s ++ t = String c (s ++ t).
Proof. reflexivity. Qed.

Lemma startswith_empty s : startswith s EmptyString = true.
Proof. destruct s; reflexivity. Qed.

Lemma startswith_dunder_head c f rest1 rest2 :
  startswith (String c (f ++ String "_" rest1)) "__" = false ->
  startswith (String c (f ++ String "_" rest2)) "__" = false.
Proof.
  cbn [startswith]. destruct (Ascii.eqb "_" c); [|reflexivity].
  destruct f as [|d f]; rewrite ?append_nil_l, ?append_cons;
    cbn [startswith]; rewrite ?Ascii.eqb_refl, !startswith_empty;
    [discriminate|].
  destruct (Ascii.eqb "_" d); [discriminate | reflexivity].
Qed.

(** The first piece of [f ++ "__" ++ rest] is [f] when the separator does
    not occur earlier (neither inside [f] nor across its end). *)
Lemma split_dunder_first f rest :
  contains (f ++ "_") "__" = false ->
  split (f ++ "__" ++ rest) "__" = f :: split rest "__".
Proof.
  unfold split. induction f as [|c f IH]; intros H.
  - change (EmptyString ++ "__" ++ rest) with (String "_" (String "_" rest)).
    cbn [split_aux].
    assert (startswith (String "_" (String "_" rest)) "__" = true) as ->
      by (cbn [startswith]; rewrite startswith_empty; reflexivity).
    reflexivity.
  - change (String c f ++ "_") with (String c (f ++ "_")) in H.
    cbn [contains] in H. apply orb_false_iff in H as [H1 H2].
    change (String c f ++ "__" ++ rest)
      with (String c (f ++ String "_" (String "_" rest))).
    cbn [split_aux].
    rewrite (startswith_dunder_head c f EmptyString (String "_" rest) H1).
    change (f ++ String "_" (String "_" rest)) with (f ++ "__" ++ rest).
    rewrite (IH H2). reflexivity.
Qed.

(** C6 (as amended).  A key without separator is the field, with operator
    [eq]; a key with exactly one separator splits into the text before and
    the text after it; a key with two or more separators is not split at
    all, it is taken whole as the field, with operator [eq]. *)
Theorem split_param_cases :
  (forall key, contains key "__" = false ->
     Sensor.split_param key = (key, "eq"))
  /\ (forall field operator,
        contains (field ++ "_") "__" = false ->
        contains operator "__" = false ->
        Sensor.split_param (field ++ "__" ++ operator) = (field, operator))
  /\ (forall field rest,
        contains (field ++ "_") "__" = false ->
        contains rest "__" = true ->
        Sensor.split_param (field ++ "__" ++ rest)
        = (field ++ "__" ++ rest, "eq")).
Proof.
  unfold Sensor.split_param. repeat split.
  - intros key H. rewrite (split_no_separator _ _ H). reflexivity.
  - intros field operator Hf Ho.
    rewrite (split_dunder_first _ _ Hf), (split_no_separator _ _ Ho).
    reflexivity.
  - intros field rest Hf Hr. rewrite (split_dunder_first _ _ Hf).
    pose proof (split_with_separator "__" rest ltac:(discriminate) Hr) as Hl.
    destruct (split rest "__") as [|a [|b t]]; simpl in Hl; try lia.
    reflexivity.
Qed.

End SplitFacts.

Lemma split_param_cases_witness :
  Sensor.split_param "obs_date" = ("obs_date", "eq")
  /\ Sensor.split_param "obs_date__ge" = ("obs_date", "ge")
  /\ Sensor.split_param "a__b__c" = ("a__b__c", "eq").
Proof.
  destruct split_param_cases as (H1 & H2 & H3). split; [|split].
  - apply (H1 "obs_date"). reflexivity.
  - apply (H2 "obs_date" "ge"); reflexivity.
  - apply (H3 "a" "b__c"); reflexivity.
Defined.

(** C6 as stated fails: the field of a key with two separators is not the
    text before the first one. *)
Lemma split_param_two_separators :
  Sensor.split_param "a__b__c" = ("a__b__c", "eq")
  /\ fst (Sensor.split_param "a__b__c") <> "a".
Proof. split; [reflexivity | discriminate]. Qed.

(** * Properties of datetimes and of [_zero_out_datetime] *)

Section DatetimeFacts.
Import PyDatetime SensorAggregate.

Local Abbreviation with_time dt h mi s us :=
  {| year := year dt; month := month dt; day := day dt; hour := h;
     minute := mi; second := s; microsecond := us; tzinfo := tzinfo dt |}.

Lemma valid_bounds dt :
  valid dt ->
  (1 <= year dt <= 9999) /\ (1 <= month dt <= 12)
  /\ (1 <= day dt <= days_in_month (year dt) (month dt))
  /\ (0 <= hour dt <= 23) /\ (0 <= minute dt <= 59)
  /\ (0 <= second dt <= 59) /\ (0 <= microsecond dt <= 999999).
Proof.
  unfold valid, check_fields, MINYEAR, MAXYEAR. intros H.
  repeat (apply andb_true_iff in H as [H ?]).
  repeat match goal with
         | H : (_ <=? _) = true |- _ => apply Z.leb_le in H
         end.
  lia.
Qed.

Lemma valid_intro dt :
  (1 <= year dt <= 9999) -> (1 <= month dt <= 12) ->
  (1 <= day dt <= days_in_month (year dt) (month dt)) ->
  (0 <= hour dt <= 23) -> (0 <= minute dt <= 59) ->
  (0 <= second dt <= 59) -> (0 <= microsecond dt <= 999999) ->
  valid dt.
Proof.
  intros. unfold valid, check_fields, MINYEAR, MAXYEAR.
  repeat (apply andb_true_iff; split); apply Z.leb_le; lia.
Qed.

Lemma valid_with_time dt h mi s us :
  valid dt -> (0 <= h <= 23) -> (0 <= mi <= 59) -> (0 <= s <= 59) ->
  (0 <= us <= 999999) -> valid (with_time dt h mi s us).
Proof.
  intros Hv. apply valid_bounds in Hv. intros.
  apply valid_intro; cbn [year month day hour minute second microsecond]; lia.
Qed.

Lemma check_fields_month_0 dt : month dt = 0 -> check_fields dt = false.
Proof.
  unfold check_fields. intros ->.
  replace (1 <=? 0) with false by reflexivity.
  rewrite andb_false_r. reflexivity.
Qed.

Lemma check_fields_day_0 dt : day dt = 0 -> check_fields dt = false.
Proof.
  unfold check_fields. intros ->.
  replace (1 <=? 0) with false by reflexivity.
  rewrite andb_false_r. reflexivity.
Qed.

(** Months and days cannot be zero: the replacement raises [ValueError],
    which the loop swallows. *)
Lemma zero_unit_month dt : zero_unit dt "month" = Ok dt.
Proof.
  unfold zero_unit.
  change (replace dt "month" 0)
    with (let r := {| year := year dt; month := 0; day := day dt;
                      hour := hour dt; minute := minute dt;
                      second := second dt; microsecond := microsecond dt;
                      tzinfo := tzinfo dt |} in
          if check_fields r then Ok r else Raise ValueError).
  cbv zeta. rewrite check_fields_month_0 by reflexivity. reflexivity.
Qed.

Lemma zero_unit_day dt : zero_unit dt "day" = Ok dt.
Proof.
  unfold zero_unit.
  change (replace dt "day" 0)
    with (let r := {| year := year dt; month := month dt; day := 0;
                      hour := hour dt; minute := minute dt;
                      second := second dt; microsecond := microsecond dt;
                      tzinfo := tzinfo dt |} in
          if check_fields r then Ok r else Raise ValueError).
  cbv zeta. rewrite check_fields_day_0 by reflexivity. reflexivity.
Qed.

Ltac zero_time_field :=
  intros Hv; pose proof (valid_bounds _ Hv); unfold zero_unit;
  match goal with
  | |- context [replace ?dt ?f 0] =>
      match goal with
      | |- _ = Ok ?r =>
          change (replace dt f 0)
            with (if check_fields r then Ok r else Raise ValueError)
      end
  end;
  match goal with
  | |- context [check_fields ?r] =>
      assert (check_fields r = true) as ->
        by (apply valid_with_time; [assumption | lia..])
  end;
  reflexivity.

Lemma zero_unit_hour dt :
  valid dt ->
  zero_unit dt "hour"
  = Ok (with_time dt 0 (minute dt) (second dt) (microsecond dt)).
Proof. zero_time_field. Qed.

Lemma zero_unit_minute dt :
  valid dt ->
  zero_unit dt "minute"
  = Ok (with_time dt (hour dt) 0 (second dt) (microsecond dt)).
Proof. zero_time_field. Qed.

Lemma zero_unit_second dt :
  valid dt ->
  zero_unit dt "second"
  = Ok (with_time dt (hour dt) (minute dt) 0 (microsecond dt)).
Proof. zero_time_field. Qed.

Lemma zero_unit_microsecond dt :
  valid dt ->
  zero_unit dt "microsecond"
  = Ok (with_time dt (hour dt) (minute dt) (second dt) 0).
Proof. zero_time_field. Qed.

Lemma zero_out_unfold dt unit i :
  index unit units = Ok i ->
  _zero_out_datetime dt unit = zero_units dt (drop (i + 1) units).
Proof. unfold _zero_out_datetime. intros ->. reflexivity. Qed.

Ltac run_zero_units :=
  repeat (cbn [zero_units mbind result_bind
               year month day hour minute second microsecond tzinfo];
          first [ rewrite zero_unit_month
                | rewrite zero_unit_day
                | rewrite zero_unit_hour
                    by (apply valid_with_time; [assumption | lia..])
                | rewrite zero_unit_minute
                    by (apply valid_with_time; [assumption | lia..])
                | rewrite zero_unit_second
                    by (apply valid_with_time; [assumption | lia..])
                | rewrite zero_unit_microsecond
                    by (apply valid_with_time; [assumption | lia..])
                | rewrite zero_unit_hour by assumption
                | rewrite zero_unit_minute by assumption
                | rewrite zero_unit_second by assumption
                | rewrite zero_unit_microsecond by assumption ]).

(** What [_zero_out_datetime] returns. *)
Lemma zero_out_datetime_run dt unit :
  valid dt -> In unit units ->
  exists i,
    index unit units = Ok i
    /\ _zero_out_datetime dt unit
       = Ok (with_time dt
               (if (i <? 3)%nat then 0 else hour dt)
               (if (i <? 4)%nat then 0 else minute dt)
               (if (i <? 5)%nat then 0 else second dt)
               (if (i <? 6)%nat then 0 else microsecond dt)).
Proof.
  intros Hv Hin. pose proof (valid_bounds _ Hv) as Hb.
  unfold units in Hin. cbn [In] in Hin.
  destruct Hin as [<-|[<-|[<-|[<-|[<-|[<-|[<-|[]]]]]]]].
  all: match goal with
       | |- context [index ?u units] =>
           let r := eval vm_compute in (index u units) in
           match r with
           | Ok ?n =>
               assert (index u units = Ok n) as Hi by reflexivity;
               exists n; split; [exact Hi|];
               rewrite !(zero_out_unfold _ _ _ Hi)
           end
       end.
  all: cbn [drop Nat.add units].
  all: run_zero_units; cbn [zero_units]; try reflexivity.
  destruct dt; reflexivity.
Qed.

Lemma zero_out_datetime_valid dt unit dt' :
  valid dt -> In unit units -> _zero_out_datetime dt unit = Ok dt' ->
  valid dt' /\ tzinfo dt' = tzinfo dt /\ year dt' = year dt.
Proof.
  intros Hv Hin H. destruct (zero_out_datetime_run dt unit Hv Hin) as (i & _ & E).
  rewrite E in H. injection H as <-. pose proof (valid_bounds _ Hv).
  split; [|split; reflexivity].
  apply valid_with_time; [assumption|..];
    match goal with |- context [if ?b then _ else _] => destruct b end; lia.
Qed.


End DatetimeFacts.


(** ** Facts about column eligibility and the contradictory-filters error *)

Section EligibilityFacts.
Import PyDatetime SensorAggregate.

Context {V : Type}.
Variable date_parse : string -> result datetime.
Variable agg_fn : list V -> option V.

Lemma visit_property_unrequested tfp columns val :
  unrequested tfp val -> visit_property tfp columns val = Ok columns.
Proof.
  intros (f & p & rest & Hs & H). unfold visit_property. rewrite Hs.
  cbn [getitem lookup list_lookup mbind result_bind].
  destruct H as [-> | (props & -> & ->)]; reflexivity.
Qed.

Lemma visit_properties_unrequested tfp columns (kvs : list (string * string)) :
  Forall (fun kv => unrequested tfp (snd kv)) kvs ->
  visit_properties tfp columns (map snd kvs) = Ok columns.
Proof.
  induction 1 as [|kv kvs Hkv _ IH]; [reflexivity|].
  cbn [map visit_properties].
  rewrite (visit_property_unrequested _ _ _ Hkv). exact IH.
Qed.

Lemma visit_sensors_no_requested_feature target_sensors tfp columns l :
  Forall (fun sensor =>
            excluded target_sensors sensor
            \/ Forall (fun kv => unrequested tfp (snd kv))
                 (observed_properties sensor)) l ->
  visit_sensors target_sensors tfp columns l = Ok columns.
Proof.
  induction 1 as [|sensor l Hs _ IH]; [reflexivity|].
  cbn [visit_sensors].
  assert (visit_sensor target_sensors tfp columns sensor = Ok columns) as ->.
  { unfold visit_sensor. destruct Hs as [Hex | Hun].
    - unfold excluded in Hex. rewrite Hex. reflexivity.
    - rewrite (visit_properties_unrequested _ _ _ Hun).
      destruct (truthy target_sensors && _); reflexivity. }
  exact IH.
Qed.

Lemma valid_columns_of_empty target_sensors tfp n :
  no_requested_feature target_sensors tfp n ->
  valid_columns_of (Some n) target_sensors tfp = Ok ∅.
Proof. apply visit_sensors_no_requested_feature. Qed.

(** C9. When the node is found and none of its sensors that pass the sensor
    filter declares an observed property mapping into a requested feature
    (and property), [_valid_columns] sends the node lookup and returns the
    empty set, and [aggregate] then raises the contradictory-filters error
    whatever the iteration budget: the node lookup is the only query sent,
    no table is reflected and no aggregate query runs. *)
Theorem aggregate_contradictory_filters
    fuel (db : database (V := V)) a agg_label s e f tfp n log :
  date_parse (start_datetime a) = Ok s ->
  valid s ->
  In (agg_unit a) units ->
  date_parse (end_datetime a) = Ok e ->
  feature_properties (feature a) (PyStr.split (feature a) ",") ∅ = Ok (f, tfp) ->
  first_node (node_metadata db) (node_id a) = Some n ->
  no_requested_feature (split_sensors (arg_sensors a)) tfp n ->
  _valid_columns db (node_id a) (split_sensors (arg_sensors a)) tfp log
  = Some (Ok ∅, (log ++ [SelectNodeMeta (node_id a)])%list)
  /\ aggregate date_parse agg_fn fuel db a agg_label log
     = Some (Raise ContradictoryFilters,
             (log ++ [SelectNodeMeta (node_id a)])%list).
Proof.
  intros Hs Hv Hu He Hf Hn Hno.
  assert (_valid_columns db (node_id a) (split_sensors (arg_sensors a)) tfp log
          = Some (Ok ∅, (log ++ [SelectNodeMeta (node_id a)])%list)) as Hcols.
  { unfold _valid_columns, send, lift, mbind, M_bind.
    rewrite Hn, (valid_columns_of_empty _ _ _ Hno). reflexivity. }
  split; [exact Hcols|].
  destruct (zero_out_datetime_run s (agg_unit a) Hv Hu) as (i & _ & Hz).
  unfold aggregate.
  unfold mbind at 1, M_bind at 1, lift at 1. rewrite Hs.
  unfold mbind at 1, M_bind at 1, lift at 1. rewrite Hz.
  unfold mbind at 1, M_bind at 1, lift at 1. rewrite He.
  unfold mbind at 1, M_bind at 1, lift at 1. rewrite Hf.
  unfold mbind at 1, M_bind at 1. rewrite Hcols.
  rewrite bool_decide_eq_true_2 by reflexivity. reflexivity.
Qed.

End EligibilityFacts.

Lemma aggregate_contradictory_filters_witness :
  SensorAggregate._valid_columns Samples.db "n1" None {["pressure" := None]} []
  = Some (Ok ∅, [SensorAggregate.SelectNodeMeta "n1"])
  /\ SensorAggregate.aggregate Samples.date_parse Samples.agg_sum 0 Samples.db
       (Samples.request "pressure" "month") "avg" []
     = Some (Raise ContradictoryFilters, [SensorAggregate.SelectNodeMeta "n1"]).
Proof.
  apply (aggregate_contradictory_filters Samples.date_parse Samples.agg_sum 0
           Samples.db (Samples.request "pressure" "month") "avg"
           (Samples.naive 2016 1 15 10 0 0 0) (Samples.naive 2016 3 20 0 0 0 0)
           "pressure" {["pressure" := None]} Samples.node_n1 []).
  - reflexivity.
  - reflexivity.
  - simpl; tauto.
  - reflexivity.
  - reflexivity.
  - reflexivity.
  - constructor; [|constructor]. right.
    constructor; [|constructor; [|constructor]].
    + exists "temperature", "temperature", []. split; [reflexivity|].
      left. reflexivity.
    + exists "humidity", "humidity", []. split; [reflexivity|].
      left. reflexivity.
Defined.

(** ** Facts about [_apply_aggregates] *)

Section WindowFacts.
Import PyDatetime SensorAggregate.

Context {V : Type}.
Variable agg_fn : list V -> option V.

Local Abbreviation plus := "+"%string.

Lemma contains_plus_cons c s :
  PyStr.contains (String c s) plus
  = Ascii.eqb "+"%char c || PyStr.contains s plus.
Proof.
  cbn [PyStr.contains PyStr.startswith].
  destruct (Ascii.eqb "+"%char c);
    rewrite ?startswith_empty; reflexivity.
Qed.

Lemma contains_plus_app a b :
  PyStr.contains (a ++ b) plus = PyStr.contains a plus || PyStr.contains b plus.
Proof.
  induction a as [|c a IH].
  - rewrite append_nil_l. destruct b; reflexivity.
  - rewrite append_cons, !contains_plus_cons, IH. apply orb_assoc.
Qed.

Lemma digit_not_plus n : Ascii.eqb "+"%char (digit n) = false.
Proof.
  unfold digit.
  assert (Z.to_nat (n mod 10) < 10)%nat as H
    by (pose proof (Z.mod_pos_bound n 10); lia).
  revert H. generalize (Z.to_nat (n mod 10)) as k. intros k H.
  do 10 (destruct k as [|k]; [reflexivity|]); lia.
Qed.

Lemma pad2_no_plus n : PyStr.contains (pad2 n) plus = false.
Proof.
  unfold pad2. rewrite !contains_plus_cons, !digit_not_plus. reflexivity.
Qed.

Lemma isoformat_naive_no_plus dt :
  tzinfo dt = None -> PyStr.contains (isoformat dt) plus = false.
Proof.
  intros Htz. unfold isoformat, pad6, pad4. rewrite Htz.
  destruct (microsecond dt =? 0);
    rewrite ?contains_plus_app, ?pad2_no_plus; reflexivity.
Qed.

Lemma empty_placeholder_naive lo :
  tzinfo lo = None ->
  empty_placeholder (V := V) lo = Ok [placeholder_row lo].
Proof.
  intros Htz. unfold empty_placeholder.
  rewrite (split_no_separator plus _ (isoformat_naive_no_plus _ Htz)).
  reflexivity.
Qed.

Lemma date_trunc_ok unit dt :
  In unit units -> exists b, date_trunc unit dt = Ok b.
Proof.
  intros Hin. unfold date_trunc.
  destruct (index unit units) as [i|e] eqn:E; [eexists; reflexivity|].
  exfalso. unfold units in Hin, E. cbn [In] in Hin.
  destruct Hin as [<-|[<-|[<-|[<-|[<-|[<-|[<-|[]]]]]]]]; discriminate E.
Qed.

Lemma bucketed_ok unit lo hi (l : list (observation (V := V))) :
  In unit units -> exists r, bucketed unit lo hi l = Ok r.
Proof.
  intros Hin. induction l as [|o l [r IH]]; [eexists; reflexivity|].
  cbn [bucketed]. destruct (le lo (obs_datetime o) && lt (obs_datetime o) hi).
  - destruct (date_trunc_ok unit (obs_datetime o) Hin) as [b ->].
    rewrite IH. eexists; reflexivity.
  - rewrite IH. eexists; reflexivity.
Qed.

Lemma run_query_ok (t : table (V := V)) unit rest lo hi :
  In unit units ->
  exists payload, run_query agg_fn t (DateTrunc unit :: rest) lo hi = Ok payload.
Proof.
  intros Hin. unfold run_query.
  destruct (bucketed_ok unit lo hi (rows t) Hin) as [r ->].
  eexists; reflexivity.
Qed.

Lemma windows_length datetimes :
  length (windows datetimes) = (length datetimes - 1)%nat.
Proof.
  induction datetimes as [|lo [|hi rest] IH]; [reflexivity..|].
  change (windows (lo :: hi :: rest)) with ((lo, hi) :: windows (hi :: rest)).
  cbn [length] in *. lia.
Qed.

Lemma window_records_nonempty (t : table (V := V)) unit rest w :
  In unit units ->
  (1 <= length (window_records agg_fn t (DateTrunc unit :: rest) w))%nat.
Proof.
  intros Hin. unfold window_records.
  destruct (run_query_ok t unit rest (fst w) (snd w) Hin) as [[|r payload] ->];
    cbn [length]; lia.
Qed.

(** The loop over the indices of a suffix of the delimiters. *)
Lemma apply_windows_suffix (t : table (V := V)) unit rest suffix :
  In unit units ->
  Forall (fun dt => tzinfo dt = None) suffix ->
  forall pre aggregates log,
    apply_windows agg_fn t (DateTrunc unit :: rest) (pre ++ suffix)
      (seq (length pre) (length suffix - 1)) aggregates log
    = Some (Ok (aggregates
                ++ concat (map (window_records agg_fn t (DateTrunc unit :: rest))
                             (windows suffix))),
            log ++ map (window_query (DateTrunc unit :: rest)) (windows suffix))%list.
Proof.
  intros Hin. induction suffix as [|lo [|hi suffix] IH]; intros Hn pre aggregates log.
  - cbn. rewrite !app_nil_r. reflexivity.
  - cbn. rewrite !app_nil_r. reflexivity.
  - change (windows (lo :: hi :: suffix)) with ((lo, hi) :: windows (hi :: suffix)).
    replace (length (lo :: hi :: suffix) - 1)%nat
      with (S (length (hi :: suffix) - 1)) by (cbn [length]; lia).
    cbn [seq apply_windows map concat].
    assert (getitem (pre ++ lo :: hi :: suffix) (length pre) = Ok lo) as Hlo.
    { unfold getitem. rewrite lookup_app_r by lia.
      replace (length pre - length pre)%nat with 0%nat by lia. reflexivity. }
    assert (getitem (pre ++ lo :: hi :: suffix) (length pre + 1) = Ok hi) as Hhi.
    { unfold getitem. rewrite lookup_app_r by lia.
      replace (length pre + 1 - length pre)%nat with 1%nat by lia. reflexivity. }
    inversion Hn as [|? ? Hlo_naive Hn']; subst.
    unfold mbind at 1, M_bind at 1, lift at 1. rewrite Hlo.
    unfold mbind at 1, M_bind at 1, lift at 1. rewrite Hhi.
    unfold mbind at 1, M_bind at 1, execute at 1.
    unfold mbind at 1, M_bind at 1, send at 1, lift at 1.
    unfold mbind at 1, M_bind at 1, lift at 1.
    rewrite (empty_placeholder_naive lo Hlo_naive).
    specialize (IH Hn' (pre ++ [lo])%list).
    rewrite <- app_assoc in IH. cbn [app] in IH.
    rewrite length_app in IH. cbn [length] in IH.
    replace (length pre + 1)%nat with (S (length pre)) in IH by lia.
    unfold window_records at 1. cbn [fst snd].
    destruct (run_query_ok t unit rest lo hi Hin) as [payload ->].
    rewrite IH. unfold window_query at 2. cbn [fst snd].
    rewrite <- !app_assoc. cbn [app].
    destruct payload; reflexivity.
Qed.

End WindowFacts.


(** ** Facts about the calendar: ordinals, order and steps *)

Ltac enum_month m :=
  let H := fresh in
  assert (m = 1 \/ m = 2 \/ m = 3 \/ m = 4 \/ m = 5 \/ m = 6 \/ m = 7
          \/ m = 8 \/ m = 9 \/ m = 10 \/ m = 11 \/ m = 12) as H by lia;
  destruct H as [->|[->|[->|[->|[->|[->|[->|[->|[->|[->|[->| ->]]]]]]]]]]].

Section CalendarFacts.
Import PyDatetime.

Lemma is_leap_mod y :
  is_leap y = true <-> (y mod 4 = 0 /\ (y mod 100 <> 0 \/ y mod 400 = 0)).
Proof.
  unfold is_leap. rewrite andb_true_iff, orb_true_iff, negb_true_iff.
  rewrite !Z.eqb_eq, Z.eqb_neq. tauto.
Qed.

Lemma days_before_year_succ y :
  days_before_year (y + 1)
  = days_before_year y + 365 + (if is_leap y then 1 else 0).
Proof.
  unfold days_before_year. cbv zeta.
  replace (y + 1 - 1) with y by lia.
  destruct (is_leap y) eqn:E.
  - apply is_leap_mod in E. Z.div_mod_to_equations. lia.
  - assert (~ (y mod 4 = 0 /\ (y mod 100 <> 0 \/ y mod 400 = 0))) as H
      by (rewrite <- is_leap_mod, E; discriminate).
    Z.div_mod_to_equations. lia.
Qed.

Lemma days_before_year_mono y y' :
  y <= y' -> days_before_year y + 365 * (y' - y) <= days_before_year y'.
Proof.
  intros H. replace y' with (y + Z.of_nat (Z.to_nat (y' - y))) by lia.
  induction (Z.to_nat (y' - y)) as [|k IH]; [rewrite Z.add_0_r; lia|].
  rewrite Nat2Z.inj_succ.
  replace (y + Z.succ (Z.of_nat k)) with (y + Z.of_nat k + 1) by lia.
  rewrite days_before_year_succ. destruct (is_leap _); lia.
Qed.

Lemma day_of_year_bounds y m d :
  1 <= m <= 12 -> 1 <= d <= days_in_month y m ->
  1 <= days_before_month y m + d <= 365 + (if is_leap y then 1 else 0).
Proof.
  intros Hm. unfold days_in_month, days_before_month.
  enum_month m; cbn; destruct (is_leap y); lia.
Qed.

Lemma day_of_year_month_lt y m d m' d' :
  1 <= m -> m < m' -> m' <= 12 -> d <= days_in_month y m -> 1 <= d' ->
  days_before_month y m + d < days_before_month y m' + d'.
Proof.
  intros H1 H2 H3. unfold days_in_month, days_before_month.
  enum_month m; enum_month m'; try lia; cbn; destruct (is_leap y); lia.
Qed.

Lemma ymd2ord_bounds y m d :
  date_ok y m d ->
  days_before_year y < ymd2ord y m d <= days_before_year (y + 1).
Proof.
  intros (Hy & Hm & Hd). unfold ymd2ord.
  pose proof (day_of_year_bounds y m d Hm Hd).
  rewrite days_before_year_succ. lia.
Qed.

Lemma ymd2ord_lex_lt y m d y' m' d' :
  date_ok y m d -> date_ok y' m' d' ->
  y < y' \/ (y = y' /\ (m < m' \/ (m = m' /\ d < d'))) ->
  ymd2ord y m d < ymd2ord y' m' d'.
Proof.
  intros H H' Hlt.
  destruct Hlt as [Hy | [<- [Hm | [<- Hd]]]].
  - pose proof (ymd2ord_bounds _ _ _ H). pose proof (ymd2ord_bounds _ _ _ H').
    pose proof (days_before_year_mono (y + 1) y'). lia.
  - destruct H as (_ & ? & ?), H' as (_ & ? & ?). unfold ymd2ord.
    pose proof (day_of_year_month_lt y m d m' d'). lia.
  - unfold ymd2ord. lia.
Qed.

Lemma ymd2ord_range y m d :
  date_ok y m d -> 1 <= ymd2ord y m d <= MAXORDINAL.
Proof.
  intros H. pose proof (ymd2ord_bounds _ _ _ H) as Hb.
  destruct H as (Hy & _).
  pose proof (days_before_year_mono 1 y).
  pose proof (days_before_year_mono (y + 1) 10000).
  change (days_before_year 1) with 0 in *.
  change (days_before_year 10000) with 3652059 in *.
  unfold MAXORDINAL. lia.
Qed.

(** The years of a 400-year cycle, by century, 4-year group and year. *)
Lemma days_before_year_decomp a b c d :
  0 <= b <= 3 -> 0 <= c <= 24 -> 0 <= d <= 3 ->
  days_before_year (400 * a + 100 * b + 4 * c + d + 1)
  = 146097 * a + 36524 * b + 1461 * c + 365 * d.
Proof.
  intros Hb Hc Hd. unfold days_before_year. cbv zeta.
  replace (400 * a + 100 * b + 4 * c + d + 1 - 1)
    with (400 * a + 100 * b + 4 * c + d) by lia.
  Z.div_mod_to_equations. lia.
Qed.

Lemma is_leap_decomp a b c d :
  0 <= b <= 3 -> 0 <= c <= 24 -> 0 <= d <= 3 ->
  is_leap (400 * a + 100 * b + 4 * c + d + 1)
  = (d =? 3) && (negb (c =? 24) || (b =? 3)).
Proof.
  intros Hb Hc Hd.
  destruct (is_leap _) eqn:E.
  - apply is_leap_mod in E. symmetry.
    rewrite andb_true_iff, orb_true_iff, negb_true_iff, !Z.eqb_eq, Z.eqb_neq.
    Z.div_mod_to_equations. lia.
  - symmetry. apply not_true_is_false. intros H.
    rewrite andb_true_iff, orb_true_iff, negb_true_iff, !Z.eqb_eq, Z.eqb_neq in H.
    assert (is_leap (400 * a + 100 * b + 4 * c + d + 1) = true) as E'.
    { apply is_leap_mod. Z.div_mod_to_equations. lia. }
    congruence.
Qed.

Lemma month_day_check (leapyear : bool) :
  forallb (fun n =>
             let '(m, d) := month_day leapyear n in
             (1 <=? m) && (m <=? 12) && (1 <=? d)
             && (d <=? DAYS_IN_MONTH m + (if (m =? 2) && leapyear then 1 else 0))
             && (DAYS_BEFORE_MONTH m + (if (2 <? m) && leapyear then 1 else 0) + d
                 =? n + 1))
          (map Z.of_nat (seq 0 365)) = true.
Proof. destruct leapyear; vm_compute; reflexivity. Qed.

Lemma month_day_spec y n m d :
  0 <= n < 365 -> month_day (is_leap y) n = (m, d) ->
  1 <= m <= 12 /\ 1 <= d <= days_in_month y m
  /\ days_before_month y m + d = n + 1.
Proof.
  intros Hn E. pose proof (month_day_check (is_leap y)) as H.
  rewrite forallb_forall in H. specialize (H n).
  rewrite E in H. unfold days_in_month, days_before_month.
  assert (In n (map Z.of_nat (seq 0 365))) as Hin.
  { apply in_map_iff. exists (Z.to_nat n). split; [lia|].
    apply in_seq. lia. }
  specialize (H Hin).
  rewrite !andb_true_iff, !Z.leb_le, Z.eqb_eq in H.
  destruct ((m =? 2) && is_leap y) eqn:E2.
  - apply andb_true_iff in E2 as [Em _]. apply Z.eqb_eq in Em. subst m.
    cbn in *. lia.
  - destruct ((m =? 2)) eqn:Em; [|cbn in *; lia].
    cbn in E2. rewrite E2 in *. cbn in *. lia.
Qed.

(** [_ord2ymd] inverts [_ymd2ord] on the ordinals of the supported years. *)
Lemma ord2ymd_spec n :
  1 <= n <= MAXORDINAL ->
  exists y m d, ord2ymd n = (y, m, d) /\ date_ok y m d /\ ymd2ord y m d = n.
Proof.
  unfold MAXORDINAL. intros Hn. unfold ord2ymd. cbv zeta.
  pose proof (Z.div_mod (n - 1) 146097 ltac:(lia)) as E400.
  pose proof (Z.mod_pos_bound (n - 1) 146097 ltac:(lia)) as B400.
  set (a := (n - 1) / 146097) in *. set (r400 := (n - 1) mod 146097) in *.
  pose proof (Z.div_mod r400 36524 ltac:(lia)) as E100.
  pose proof (Z.mod_pos_bound r400 36524 ltac:(lia)) as B100.
  set (b := r400 / 36524) in *. set (r100 := r400 mod 36524) in *.
  pose proof (Z.div_mod r100 1461 ltac:(lia)) as E4.
  pose proof (Z.mod_pos_bound r100 1461 ltac:(lia)) as B4.
  set (c := r100 / 1461) in *. set (r4 := r100 mod 1461) in *.
  pose proof (Z.div_mod r4 365 ltac:(lia)) as E1.
  pose proof (Z.mod_pos_bound r4 365 ltac:(lia)) as B1.
  set (d1 := r4 / 365) in *. set (r1 := r4 mod 365) in *.
  clearbody a r400 b r100 c r4 d1 r1.
  assert (0 <= a <= 24 /\ 0 <= b <= 4 /\ 0 <= c <= 24 /\ 0 <= d1 <= 4)
    as (Ha & Hb & Hc & Hd) by lia.
  destruct ((d1 =? 4) || (b =? 4)) eqn:Esp.
  - (* the last day of a leap year *)
    assert (exists b' c',
               0 <= b' <= 3 /\ 0 <= c' <= 24 /\ (c' <> 24 \/ b' = 3)
               /\ a * 400 + 1 + b * 100 + c * 4 + d1 - 1
                  = 400 * a + 100 * b' + 4 * c' + 3 + 1
               /\ n = 146097 * a + 36524 * b' + 1461 * c' + 365 * 3 + 366)
      as (b' & c' & Hb' & Hc' & Hleap & -> & ->).
    { apply orb_true_iff in Esp as [E | E]; apply Z.eqb_eq in E.
      - destruct (Z.eq_dec b 4) as [Eb|Eb].
        + exists 3, 24. lia.
        + exists b, c. lia.
      - exists 3, 24. lia. }
    eexists _, 12, 31. split; [reflexivity|].
    assert (is_leap (400 * a + 100 * b' + 4 * c' + 3 + 1) = true) as Hl.
    { rewrite is_leap_decomp by lia. apply andb_true_iff. split; [reflexivity|].
      apply orb_true_iff. rewrite negb_true_iff, Z.eqb_neq, Z.eqb_eq. exact Hleap. }
    split.
    + unfold date_ok. split; [lia|]. split; [lia|].
      change (1 <= 31 <= 31). lia.
    + unfold ymd2ord, days_before_month. rewrite Hl.
      rewrite days_before_year_decomp by lia. cbn. lia.
  - apply orb_false_iff in Esp as [E1' E2']. apply Z.eqb_neq in E1', E2'.
    replace (a * 400 + 1 + b * 100 + c * 4 + d1)
      with (400 * a + 100 * b + 4 * c + d1 + 1) by lia.
    rewrite <- (is_leap_decomp a b c d1) by lia.
    destruct (month_day _ r1) as [m d] eqn:Emd.
    apply month_day_spec in Emd as (Hm & Hd' & Hsum); [|lia].
    eexists _, m, d. split; [reflexivity|]. split.
    + unfold date_ok. lia.
    + unfold ymd2ord. rewrite days_before_year_decomp by lia. lia.
Qed.

(** [_ymd2ord] is injective on dates, so [_ord2ymd] undoes it. *)
Lemma ord2ymd_ymd2ord y m d :
  date_ok y m d -> ord2ymd (ymd2ord y m d) = (y, m, d).
Proof.
  intros H.
  destruct (ord2ymd_spec _ (ymd2ord_range _ _ _ H))
    as (y' & m' & d' & -> & H' & E).
  destruct (Z.lt_trichotomy y' y) as [Hy|[Hy|Hy]].
  - pose proof (ymd2ord_lex_lt _ _ _ _ _ _ H' H (or_introl Hy)). lia.
  - subst y'. destruct (Z.lt_trichotomy m' m) as [Hm|[Hm|Hm]].
    + pose proof (ymd2ord_lex_lt _ _ _ _ _ _ H' H
                    (or_intror (conj eq_refl (or_introl Hm)))). lia.
    + subst m'. unfold ymd2ord in E. f_equal. lia.
    + pose proof (ymd2ord_lex_lt _ _ _ _ _ _ H H'
                    (or_intror (conj eq_refl (or_introl Hm)))). lia.
  - pose proof (ymd2ord_lex_lt _ _ _ _ _ _ H H' (or_introl Hy)). lia.
Qed.

End CalendarFacts.

Section OrderFacts.
Import PyDatetime.

Lemma valid_date_ok dt : valid dt -> date_ok (year dt) (month dt) (day dt).
Proof. intros H. apply valid_bounds in H. unfold date_ok. tauto. Qed.

(** The order of naive datetimes is the order of their distances from
    the origin. *)
Lemma compare_to_us a b :
  valid a -> valid b ->
  match compare a b with
  | Eq => fields a = fields b
  | Lt => to_us a < to_us b
  | Gt => to_us b < to_us a
  end.
Proof.
  intros Ha Hb.
  pose proof (ymd2ord_lex_lt _ _ _ _ _ _ (valid_date_ok _ Ha) (valid_date_ok _ Hb))
    as Hab.
  pose proof (ymd2ord_lex_lt _ _ _ _ _ _ (valid_date_ok _ Hb) (valid_date_ok _ Ha))
    as Hba.
  apply valid_bounds in Ha, Hb.
  unfold compare, fields. cbn [lex_compare].
  unfold to_us, US_PER_DAY, US_PER_SECOND.
  set (oa := ymd2ord (year a) (month a) (day a)) in *.
  set (ob := ymd2ord (year b) (month b) (day b)) in *.
  destruct (Z.compare_spec (year a) (year b)) as [Ey|Ey|Ey];
    [|specialize (Hab ltac:(lia)); lia|specialize (Hba ltac:(lia)); lia].
  destruct (Z.compare_spec (month a) (month b)) as [Em|Em|Em];
    [|specialize (Hab ltac:(lia)); lia|specialize (Hba ltac:(lia)); lia].
  destruct (Z.compare_spec (day a) (day b)) as [Ed|Ed|Ed];
    [|specialize (Hab ltac:(lia)); lia|specialize (Hba ltac:(lia)); lia].
  assert (oa = ob) as Eo by (subst oa ob; congruence).
  clear Hab Hba. clearbody oa ob. subst ob.
  destruct (Z.compare_spec (hour a) (hour b)) as [Eh|Eh|Eh]; [|lia|lia].
  destruct (Z.compare_spec (minute a) (minute b)) as [Emi|Emi|Emi]; [|lia|lia].
  destruct (Z.compare_spec (second a) (second b)) as [Es|Es|Es]; [|lia|lia].
  destruct (Z.compare_spec (microsecond a) (microsecond b)) as [Eu|Eu|Eu];
    [|lia|lia].
  congruence.
Qed.

End OrderFacts.

Section StepFacts.
Import PyDatetime SensorAggregate.

Lemma to_us_bounds dt :
  valid dt ->
  US_PER_DAY <= to_us dt < (days_before_year (year dt + 1) + 1) * US_PER_DAY.
Proof.
  intros Hv. pose proof (ymd2ord_bounds _ _ _ (valid_date_ok _ Hv)) as Ho.
  apply valid_bounds in Hv. unfold to_us, US_PER_DAY, US_PER_SECOND in *.
  set (o := ymd2ord (year dt) (month dt) (day dt)) in *.
  pose proof (days_before_year_mono 1 (year dt)) as Hm.
  change (days_before_year 1) with 0 in Hm. lia.
Qed.

(** Adding a [timedelta] moves the distance from the origin by its
    length, as long as the date stays within the supported years. *)
Lemma add_timedelta_spec dt k :
  valid dt -> 0 <= k ->
  to_us dt + k < (MAXORDINAL + 1) * US_PER_DAY ->
  exists next,
    add_timedelta dt k = Ok next /\ valid next
    /\ to_us next = to_us dt + k /\ tzinfo next = tzinfo dt.
Proof.
  intros Hv Hk Hmax. pose proof (to_us_bounds dt Hv) as [Hlo _].
  unfold add_timedelta. cbv zeta.
  set (t := to_us dt + k) in *.
  unfold MAXORDINAL, US_PER_DAY, US_PER_SECOND in *.
  change (86400 * 1000000) with 86400000000 in *.
  assert (1 <= t / 86400000000 <= 3652059) as Hdays
    by (Z.div_mod_to_equations; lia).
  replace ((0 <? t / 86400000000) && (t / 86400000000 <=? 3652059))
    with true
    by (symmetry; apply andb_true_iff; split;
        [apply Z.ltb_lt | apply Z.leb_le]; lia).
  destruct (ord2ymd_spec (t / 86400000000) ltac:(unfold MAXORDINAL; lia))
    as (y & m & d & -> & (Hy & Hm & Hd) & Ho).
  eexists. split; [reflexivity|].
  split; [|split; [|reflexivity]].
  - apply valid_intro; cbn [year month day hour minute second microsecond];
      try assumption; Z.div_mod_to_equations; lia.
  - unfold to_us. cbn [year month day hour minute second microsecond].
    rewrite Ho. unfold US_PER_DAY, US_PER_SECOND.
    change (86400 * 1000000) with 86400000000.
    Z.div_mod_to_equations. lia.
Qed.

Lemma add_timedelta_zero dt : valid dt -> add_timedelta dt 0 = Ok dt.
Proof.
  intros Hv. pose proof (ord2ymd_ymd2ord _ _ _ (valid_date_ok _ Hv)) as Hrt.
  pose proof (ymd2ord_range _ _ _ (valid_date_ok _ Hv)) as Hr.
  apply valid_bounds in Hv. destruct dt as [y m d h mi s us tz].
  cbn [year month day hour minute second microsecond] in *.
  unfold add_timedelta, to_us. cbv zeta.
  cbn [year month day hour minute second microsecond tzinfo].
  unfold MAXORDINAL, US_PER_DAY, US_PER_SECOND in *.
  change (86400 * 1000000) with 86400000000.
  set (o := ymd2ord y m d) in *.
  set (t := o * 86400000000 + (h * 3600 + mi * 60 + s) * 1000000 + us + 0).
  assert (t / 86400000000 = o) as -> by (subst t; Z.div_mod_to_equations; lia).
  assert (t mod 86400000000 = (h * 3600 + mi * 60 + s) * 1000000 + us) as ->
    by (subst t; Z.div_mod_to_equations; lia).
  assert (((h * 3600 + mi * 60 + s) * 1000000 + us) / 1000000
          = h * 3600 + mi * 60 + s) as -> by (Z.div_mod_to_equations; lia).
  assert (((h * 3600 + mi * 60 + s) * 1000000 + us) mod 1000000 = us) as ->
    by (Z.div_mod_to_equations; lia).
  assert ((h * 3600 + mi * 60 + s) / 3600 = h) as ->
    by (Z.div_mod_to_equations; lia).
  assert ((h * 3600 + mi * 60 + s) mod 3600 = mi * 60 + s) as ->
    by (Z.div_mod_to_equations; lia).
  assert ((mi * 60 + s) / 60 = mi) as -> by (Z.div_mod_to_equations; lia).
  assert ((mi * 60 + s) mod 60 = s) as -> by (Z.div_mod_to_equations; lia).
  replace ((0 <? o) && (o <=? 3652059)) with true
    by (symmetry; apply andb_true_iff; split;
        [apply Z.ltb_lt | apply Z.leb_le]; lia).
  rewrite Hrt. reflexivity.
Qed.

Lemma days_in_month_bounds y m : 1 <= m <= 12 -> 28 <= days_in_month y m <= 31.
Proof.
  intros Hm. unfold days_in_month.
  enum_month m; cbn; destruct (is_leap y); cbn; lia.
Qed.

(** Adding one month or one year: the calendar month moves, the day is
    clipped to the target month, the time of day stays. *)
Lemma add_relativedelta_spec dt years months :
  valid dt -> year dt < MAXYEAR ->
  (years = 1 /\ months = 0) \/ (years = 0 /\ months = 1) ->
  exists next,
    add_relativedelta dt years months 0 = Ok next /\ valid next
    /\ tzinfo next = tzinfo dt
    /\ year next * 12 + month next
       = year dt * 12 + month dt + years * 12 + months.
Proof.
  intros Hv Hy Hkw. pose proof (valid_bounds _ Hv) as Hb.
  unfold MAXYEAR in Hy. unfold add_relativedelta. cbv zeta.
  destruct (12 <? month dt + months) eqn:Ewrap.
  all: match goal with
       | |- context [check_fields ?r] =>
           assert (valid r) as Hr;
           [ apply valid_intro;
             cbn [year month day hour minute second microsecond];
             try lia;
             match goal with
             | |- context [days_in_month ?y ?m] =>
                 pose proof (days_in_month_bounds y m ltac:(lia)); lia
             end
           | rewrite Hr ]
       end.
  all: match goal with
       | |- context [add_timedelta ?r (?k * _)] =>
           replace k with 0 by (destruct (_ && _); reflexivity)
       end.
  all: rewrite Z.mul_0_l, add_timedelta_zero by exact Hr.
  all: eexists; split; [reflexivity|]; split; [exact Hr|].
  all: split; [reflexivity|]; cbn [year month]; lia.
Qed.

Lemma lt_year_month a b :
  year a * 12 + month a < year b * 12 + month b ->
  1 <= month a <= 12 -> 1 <= month b <= 12 -> lt a b = true.
Proof.
  intros H Ha Hb. unfold lt, compare, fields. cbn [lex_compare].
  destruct (Z.compare_spec (year a) (year b)); [|reflexivity|lia].
  destruct (Z.compare_spec (month a) (month b)); [lia|reflexivity|lia].
Qed.

Lemma le_year_month a b :
  le a b = true -> 1 <= month a <= 12 -> 1 <= month b <= 12 ->
  year a * 12 + month a <= year b * 12 + month b.
Proof.
  unfold le, compare, fields. cbn [lex_compare]. intros H Ha Hb.
  destruct (Z.compare_spec (year a) (year b)); [|lia|discriminate].
  destruct (Z.compare_spec (month a) (month b)); [lia|lia|discriminate].
Qed.

End StepFacts.

Section RangeFacts.
Import PyDatetime SensorAggregate.

Lemma le_to_us a b :
  valid a -> valid b -> le a b = true -> to_us a <= to_us b.
Proof.
  intros Ha Hb. pose proof (compare_to_us a b Ha Hb) as H.
  unfold le. destruct (compare a b); [|lia|discriminate].
  intros _. unfold to_us. unfold fields in H.
  injection H as -> -> -> -> -> -> ->. lia.
Qed.

Lemma to_us_lt a b :
  valid a -> valid b -> to_us a < to_us b -> lt a b = true.
Proof.
  intros Ha Hb. pose proof (compare_to_us a b Ha Hb) as H.
  unfold lt. destruct (compare a b); [|reflexivity|lia].
  intros Hlt. exfalso. unfold to_us in Hlt. unfold fields in H.
  injection H as E1 E2 E3 E4 E5 E6 E7.
  rewrite E1, E2, E3, E4, E5, E6, E7 in Hlt. lia.
Qed.

Lemma lex_compare_antisym a b :
  length a = length b -> lex_compare b a = CompOpp (lex_compare a b).
Proof.
  revert b. induction a as [|x a IH]; intros [|y b] Hlen; try discriminate.
  - reflexivity.
  - cbn [lex_compare]. rewrite (Z.compare_antisym x y).
    destruct (x ?= y); cbn [CompOpp]; [|reflexivity..].
    apply IH. cbn in Hlen. lia.
Qed.

Lemma le_false_lt a b : le a b = false -> lt b a = true.
Proof.
  unfold le, lt, compare.
  rewrite (lex_compare_antisym (fields a) (fields b)) by reflexivity.
  destruct (lex_compare (fields a) (fields b)); cbn; congruence.
Qed.

Lemma valid_replace_tzinfo dt tz : valid dt -> valid (replace_tzinfo dt tz).
Proof. intros H. exact H. Qed.

(** The loop, for a step that moves forward and a measure of the distance
    left to the end. *)
Lemma range_loop_spec unit end_datetime (mu : datetime -> nat) :
  (forall cur, valid cur -> tzinfo cur = None -> le cur end_datetime = true ->
     exists next,
       advance cur unit = Ok next /\ valid next /\ tzinfo next = None
       /\ lt cur next = true /\ (mu next < mu cur)%nat) ->
  forall n cur, (mu cur < n)%nat -> valid cur -> tzinfo cur = None ->
    exists dt_range,
      (forall fuel, (n <= fuel)%nat ->
         range_loop fuel unit cur end_datetime = Some (Ok dt_range))
      /\ (le cur end_datetime = false -> dt_range = [])
      /\ (le cur end_datetime = true -> exists rest, dt_range = cur :: rest)
      /\ increasing dt_range
      /\ Forall (fun dt => tzinfo dt = None /\ le dt end_datetime = true) dt_range
      /\ (le cur end_datetime = true ->
          exists final next,
            last dt_range = Some final /\ advance final unit = Ok next
            /\ lt end_datetime next = true).
Proof.
  intros Hstep. induction n as [|n IH]; intros cur Hmu Hv Htz; [lia|].
  destruct (le cur end_datetime) eqn:Ele.
  - destruct (Hstep cur Hv Htz Ele) as (next & Hadv & Hvn & Htzn & Hlt & Hdec).
    destruct (IH next ltac:(lia) Hvn Htzn)
      as (l & Hrun & Hempty & Hhead & Hinc & Hall & Hlast).
    exists (cur :: l). split; [|split; [|split; [|split; [|split]]]].
    + intros [|fuel] Hfuel; [lia|]. cbn [range_loop].
      rewrite Ele, Hadv, (Hrun fuel ltac:(lia)). reflexivity.
    + discriminate.
    + intros _. eexists; reflexivity.
    + destruct (le next end_datetime) eqn:En.
      * destruct (Hhead eq_refl) as [rest ->]. cbn [increasing].
        split; [exact Hlt | exact Hinc].
      * rewrite (Hempty eq_refl). exact I.
    + constructor; [split; assumption | exact Hall].
    + intros _. destruct (le next end_datetime) eqn:En.
      * destruct (Hlast eq_refl) as (final & nx & Hl & Ha & Hgt).
        exists final, nx. split; [|split; assumption].
        rewrite last_cons, Hl. reflexivity.
      * rewrite (Hempty eq_refl). exists cur, next.
        split; [reflexivity|]. split; [exact Hadv|].
        apply le_false_lt. exact En.
  - exists []. split; [|split; [|split; [|split; [|split]]]].
    + intros [|fuel] Hfuel; [lia|]. cbn [range_loop]. rewrite Ele. reflexivity.
    + reflexivity.
    + discriminate.
    + exact I.
    + constructor.
    + discriminate.
Qed.

Lemma advance_timedelta_step unit k end_datetime cur :
  timedelta_kw (unit ++ "s") = Some k -> 0 < k <= 7 * US_PER_DAY ->
  valid end_datetime -> year end_datetime < MAXYEAR ->
  valid cur -> tzinfo cur = None -> le cur end_datetime = true ->
  exists next,
    advance cur unit = Ok next /\ valid next /\ tzinfo next = None
    /\ lt cur next = true
    /\ (Z.to_nat (to_us end_datetime - to_us next + 1)
        < Z.to_nat (to_us end_datetime - to_us cur + 1))%nat.
Proof.
  intros Hkw Hk Hve Hy Hv Htz Hle.
  pose proof (le_to_us _ _ Hv Hve Hle) as Hus.
  pose proof (to_us_bounds _ Hve) as [_ Hend].
  pose proof (days_before_year_mono (year end_datetime + 1) 9999
                ltac:(unfold MAXYEAR in Hy; lia)) as Hmono.
  change (days_before_year 9999) with 3651694 in Hmono.
  destruct (add_timedelta_spec cur k Hv ltac:(lia))
    as (next & Hadd & Hvn & Hun & Htzn).
  { unfold MAXYEAR, MAXORDINAL, US_PER_DAY, US_PER_SECOND in *. lia. }
  exists next. unfold advance. rewrite Hkw.
  split; [exact Hadd|]. split; [exact Hvn|]. split; [congruence|].
  split; [apply to_us_lt; [assumption..|lia] | lia].
Qed.

Lemma advance_relativedelta_step unit years months end_datetime cur :
  timedelta_kw (unit ++ "s") = None ->
  relativedelta_kw (unit ++ "s") = Some (years, months, 0) ->
  (years = 1 /\ months = 0) \/ (years = 0 /\ months = 1) ->
  valid end_datetime -> year end_datetime < MAXYEAR ->
  valid cur -> tzinfo cur = None -> le cur end_datetime = true ->
  exists next,
    advance cur unit = Ok next /\ valid next /\ tzinfo next = None
    /\ lt cur next = true
    /\ (Z.to_nat (year end_datetime * 12 + month end_datetime
                  - (year next * 12 + month next) + 1)
        < Z.to_nat (year end_datetime * 12 + month end_datetime
                    - (year cur * 12 + month cur) + 1))%nat.
Proof.
  intros Htd Hrd Hkw Hve Hy Hv Htz Hle.
  pose proof (valid_bounds _ Hv) as Hb. pose proof (valid_bounds _ Hve) as Hbe.
  pose proof (le_year_month _ _ Hle ltac:(lia) ltac:(lia)) as Hym.
  destruct (add_relativedelta_spec cur years months Hv ltac:(lia) Hkw)
    as (next & Hadd & Hvn & Htzn & Hnext).
  pose proof (valid_bounds _ Hvn) as Hbn.
  exists next. unfold advance. rewrite Htd, Hrd.
  split; [exact Hadd|]. split; [exact Hvn|]. split; [congruence|].
  split; [apply lt_year_month; lia | lia].
Qed.

(** C1. For valid start and end (the end before year 9999) and a supported
    unit, with enough iterations [_generate_datetime_range] returns the
    list that is empty when the start (without its offset) is after the
    end, and otherwise begins with the start, is strictly increasing and
    naive, has every element at or before the end, and stops at the last
    step that does not pass the end: the step after its last element is
    after the end. *)
Theorem generate_datetime_range_spec start_datetime end_datetime unit :
  valid start_datetime -> valid end_datetime ->
  year end_datetime < MAXYEAR -> In unit supported_units ->
  let start' := replace_tzinfo start_datetime None in
  let end' := replace_tzinfo end_datetime None in
  exists n dt_range,
    (forall fuel, (n <= fuel)%nat ->
       _generate_datetime_range fuel start_datetime end_datetime unit
       = Some (Ok dt_range))
    /\ (le start' end' = false -> dt_range = [])
    /\ (le start' end' = true -> exists rest, dt_range = start' :: rest)
    /\ increasing dt_range
    /\ Forall (fun dt => tzinfo dt = None /\ le dt end' = true) dt_range
    /\ (le start' end' = true ->
        exists final next,
          last dt_range = Some final /\ advance final unit = Ok next
          /\ lt end' next = true).
Proof.
  intros Hvs Hve Hy Hin start' end'.
  assert (valid start') as Hvs' by exact Hvs.
  assert (valid end') as Hve' by exact Hve.
  assert (year end' < MAXYEAR) as Hy' by exact Hy.
  unfold _generate_datetime_range. fold start' end'.
  unfold supported_units in Hin. cbn [In] in Hin.
  destruct Hin as [<-|[<-|[<-|[<-|[<-|[<-|[<-|[<-|[<-|[]]]]]]]]]].
  1-7: eexists (S _);
    apply (range_loop_spec _ end'
             (fun dt => Z.to_nat (to_us end' - to_us dt + 1)));
    [ intros cur Hv Htz Hle;
      eapply advance_timedelta_step;
        [reflexivity | unfold US_PER_DAY, US_PER_SECOND; lia | eassumption..]
    | apply Nat.lt_succ_diag_r | exact Hvs' | reflexivity ].
  all: eexists (S _);
    apply (range_loop_spec _ end'
             (fun dt => Z.to_nat (year end' * 12 + month end'
                                  - (year dt * 12 + month dt) + 1)));
    [ intros cur Hv Htz Hle;
      eapply advance_relativedelta_step;
        [reflexivity | reflexivity | lia | eassumption..]
    | apply Nat.lt_succ_diag_r | exact Hvs' | reflexivity ].
Qed.

End RangeFacts.

Lemma generate_datetime_range_spec_witness :
  exists n dt_range,
    (forall fuel, (n <= fuel)%nat ->
       SensorAggregate._generate_datetime_range fuel
         (Samples.naive 2021 1 1 0 0 0 0) (Samples.naive 2021 1 1 0 30 0 0) "hour"
       = Some (Ok dt_range))
    /\ dt_range <> []
    /\ SensorAggregate.increasing dt_range
    /\ Forall (fun dt => PyDatetime.le dt (Samples.naive 2021 1 1 0 30 0 0) = true)
         dt_range.
Proof.
  destruct (generate_datetime_range_spec
              (Samples.naive 2021 1 1 0 0 0 0) (Samples.naive 2021 1 1 0 30 0 0)
              "hour" eq_refl eq_refl eq_refl ltac:(simpl; tauto))
    as (n & dt_range & Hrun & _ & Hhead & Hinc & Hall & _).
  exists n, dt_range. split; [exact Hrun|].
  split; [destruct (Hhead eq_refl) as [rest ->]; discriminate|].
  split; [exact Hinc|].
  eapply Forall_impl; [exact Hall|]. intros dt [_ H]. exact H.
Defined.

(** The last delimiter is not at or after the end: from midnight to 00:30
    by the hour the only delimiter is midnight, before the end; and with
    the start after the end there is no delimiter at all. *)
Lemma generate_datetime_range_last_before_end :
  SensorAggregate._generate_datetime_range 10
    (Samples.naive 2021 1 1 0 0 0 0) (Samples.naive 2021 1 1 0 30 0 0) "hour"
  = Some (Ok [Samples.naive 2021 1 1 0 0 0 0])
  /\ PyDatetime.lt (Samples.naive 2021 1 1 0 0 0 0)
       (Samples.naive 2021 1 1 0 30 0 0) = true
  /\ SensorAggregate._generate_datetime_range 10
       (Samples.naive 2021 1 2 0 0 0 0) (Samples.naive 2021 1 1 0 0 0 0) "hour"
     = Some (Ok []).
Proof. split; [|split]; vm_compute; reflexivity. Qed.

(** ** One record per window *)

Section RequestWindowFacts.
Import PyDatetime SensorAggregate.
Context {V : Type}.
Variable date_parse : string -> result datetime.
Variable agg_fn : list V -> option V.

(** The units from the day down, each with the length of its step in
    microseconds. *)
Local Abbreviation fine_step unit k :=
  ((unit = "day" /\ k = US_PER_DAY)
   \/ (unit = "hour" /\ k = 3600 * US_PER_SECOND)
   \/ (unit = "minute" /\ k = 60 * US_PER_SECOND)
   \/ (unit = "second" /\ k = US_PER_SECOND)
   \/ (unit = "microsecond" /\ k = 1)).

Lemma fine_step_kw unit k :
  fine_step unit k ->
  timedelta_kw (unit ++ "s") = Some k /\ In unit units /\ 0 < k <= US_PER_DAY.
Proof.
  unfold US_PER_DAY, US_PER_SECOND.
  intros [[-> ->]|[[-> ->]|[[-> ->]|[[-> ->]|[-> ->]]]]];
    (split; [reflexivity|]); (split; [simpl; tauto | lia]).
Qed.

Lemma add_timedelta_Ok dt k next :
  valid dt -> 0 <= k -> add_timedelta dt k = Ok next ->
  valid next /\ to_us next = to_us dt + k /\ tzinfo next = tzinfo dt.
Proof.
  intros Hv Hk H.
  assert (to_us dt + k < (MAXORDINAL + 1) * US_PER_DAY) as Hmax.
  { unfold add_timedelta in H. cbv zeta in H.
    destruct ((0 <? _) && (_ <=? MAXORDINAL)) eqn:E; [|discriminate].
    apply andb_true_iff in E as [_ E]. apply Z.leb_le in E.
    unfold MAXORDINAL, US_PER_DAY, US_PER_SECOND in *.
    change (86400 * 1000000) with 86400000000 in *.
    Z.div_mod_to_equations. lia. }
  destruct (add_timedelta_spec dt k Hv Hk Hmax) as (n & Hn & Hvn & Hus & Htz).
  rewrite Hn in H. injection H as <-. tauto.
Qed.

(** A step from an aligned delimiter gives an aligned delimiter, one step
    further. *)
Lemma advance_aligned unit k cur next :
  fine_step unit k ->
  valid cur /\ tzinfo cur = None /\ to_us cur mod k = 0 ->
  advance cur unit = Ok next ->
  (valid next /\ tzinfo next = None /\ to_us next mod k = 0)
  /\ to_us next = to_us cur + k.
Proof.
  intros Hf (Hv & Htz & Hmod) H.
  destruct (fine_step_kw _ _ Hf) as (Hkw & _ & Hk).
  unfold advance in H. rewrite Hkw in H.
  destruct (add_timedelta_Ok cur k next Hv ltac:(lia) H) as (Hvn & Hus & Htzn).
  split; [|exact Hus]. split; [exact Hvn|]. split; [congruence|].
  rewrite Hus. replace (to_us cur + k) with (to_us cur + 1 * k) by lia.
  rewrite Z_mod_plus_full. exact Hmod.
Qed.

Lemma lt_to_us a b : valid a -> valid b -> lt a b = true -> to_us a < to_us b.
Proof.
  intros Ha Hb. pose proof (compare_to_us a b Ha Hb) as H.
  unfold lt. destruct (compare a b); [discriminate|tauto|discriminate].
Qed.

(** The database's truncation of a timestamp of the window that starts at
    an aligned delimiter and is one step long is that delimiter. *)
Lemma date_trunc_window unit k lo hi d :
  fine_step unit k ->
  valid lo -> tzinfo lo = None -> to_us lo mod k = 0 ->
  valid hi -> to_us hi = to_us lo + k ->
  valid d -> le lo d = true -> lt d hi = true ->
  date_trunc unit d = Ok lo.
Proof.
  intros Hf Hvlo Htz Hmod Hvhi Hhi Hvd Hle Hlt.
  apply (le_to_us _ _ Hvlo Hvd) in Hle.
  apply (lt_to_us _ _ Hvd Hvhi) in Hlt.
  rewrite Hhi in Hlt. clear Hhi Hvhi hi.
  pose proof (ord2ymd_ymd2ord _ _ _ (valid_date_ok _ Hvlo)) as Rlo.
  pose proof (ord2ymd_ymd2ord _ _ _ (valid_date_ok _ Hvd)) as Rd.
  apply valid_bounds in Hvlo, Hvd.
  destruct lo as [y m dd h mi s us tz], d as [y' m' dd' h' mi' s' us' tz'].
  cbn [year month day hour minute second microsecond tzinfo] in *.
  subst tz. unfold to_us in *.
  cbn [year month day hour minute second microsecond tzinfo] in *.
  set (ol := ymd2ord y m dd) in *. set (od := ymd2ord y' m' dd') in *.
  unfold US_PER_DAY, US_PER_SECOND in *.
  assert (od = ol -> y' = y /\ m' = m /\ dd' = dd) as Hdate.
  { intros E. rewrite E, Rlo in Rd. injection Rd as -> -> ->. tauto. }
  clearbody ol od. clear Rlo Rd.
  destruct Hf as [[-> ->]|[[-> ->]|[[-> ->]|[[-> ->]|[-> ->]]]]];
    unfold date_trunc;
    match goal with
    | |- context [index ?u units] =>
        let r := eval vm_compute in (index u units) in
        change (index u units) with r
    end;
    cbn [Nat.leb year month day hour minute second microsecond];
    rewrite ?Z.mod_1_r in Hmod;
    change (86400 * 1000000) with 86400000000 in *;
    change (3600 * 1000000) with 3600000000 in *;
    change (60 * 1000000) with 60000000 in *;
    (assert (od = ol) as Eo by (Z.div_mod_to_equations; lia));
    destruct (Hdate Eo) as (-> & -> & ->); subst od;
    f_equal; f_equal; Z.div_mod_to_equations; lia.
Qed.

Lemma lex_compare_refl l : lex_compare l l = Eq.
Proof.
  induction l as [|x l IH]; [reflexivity|].
  cbn [lex_compare]. rewrite Z.compare_refl. exact IH.
Qed.

Lemma dt_eqb_refl dt : dt_eqb dt dt = true.
Proof. unfold dt_eqb, compare. rewrite lex_compare_refl. reflexivity. Qed.

Lemma bucketed_window unit k lo hi (l : list (observation (V := V))) :
  fine_step unit k ->
  valid lo -> tzinfo lo = None -> to_us lo mod k = 0 ->
  valid hi -> to_us hi = to_us lo + k ->
  Forall (fun o => valid (obs_datetime o)) l ->
  exists r, bucketed unit lo hi l = Ok r /\ Forall (fun p => fst p = lo) r.
Proof.
  intros Hf Hvlo Htz Hmod Hvhi Hhi.
  induction 1 as [|o l Ho _ (r & IH & Hr)]; [exists []; split; constructor|].
  cbn [bucketed].
  destruct (le lo (obs_datetime o) && lt (obs_datetime o) hi) eqn:E.
  - apply andb_true_iff in E as [Hle Hlt].
    rewrite (date_trunc_window unit k lo hi _ Hf Hvlo Htz Hmod Hvhi Hhi Ho Hle Hlt).
    rewrite IH. cbn [mbind result_bind]. eexists. split; [reflexivity|].
    constructor; [reflexivity | exact Hr].
  - exists r. split; assumption.
Qed.

Lemma buckets_single lo (r : list (datetime * observation (V := V))) :
  Forall (fun p => fst p = lo) r ->
  buckets r = match r with [] => [] | _ :: _ => [lo] end.
Proof.
  induction 1 as [|[b o] r Hb _ IH]; [reflexivity|].
  cbn [fst] in Hb. subst b. cbn [buckets]. rewrite IH.
  destruct r; [reflexivity|].
  rewrite filter_cons_False; [reflexivity|].
  rewrite dt_eqb_refl. cbn. tauto.
Qed.

(** Such a window contributes one record: the row of its one bucket, or
    the placeholder. *)
Lemma window_records_single (t : table (V := V)) unit k rest lo hi :
  fine_step unit k ->
  valid lo -> tzinfo lo = None -> to_us lo mod k = 0 ->
  valid hi -> to_us hi = to_us lo + k ->
  Forall (fun o => valid (obs_datetime o)) (rows t) ->
  exists record,
    window_records agg_fn t (DateTrunc unit :: rest) (lo, hi) = [record]
    /\ (record = placeholder_row lo
        \/ assoc "time_bucket" record = Some (CTime lo)).
Proof.
  intros Hf Hvlo Htz Hmod Hvhi Hhi Hrows.
  destruct (bucketed_window unit k lo hi (rows t) Hf Hvlo Htz Hmod Hvhi Hhi Hrows)
    as (r & Hr & Hall).
  unfold window_records, run_query. cbn [fst snd]. rewrite Hr.
  cbn [mbind result_bind]. rewrite (buckets_single lo r Hall).
  destruct r as [|p r].
  - eexists. split; [reflexivity|]. left. reflexivity.
  - eexists. split; [reflexivity|]. right. reflexivity.
Qed.


Lemma fine_units_step unit :
  In unit ["day"; "hour"; "minute"; "second"; "microsecond"] ->
  exists k, fine_step unit k.
Proof.
  cbn [In]. intros [<-|[<-|[<-|[<-|[<-|[]]]]]]; eexists.
  - left. split; reflexivity.
  - right. left. split; reflexivity.
  - do 2 right. left. split; reflexivity.
  - do 3 right. left. split; reflexivity.
  - do 4 right. split; reflexivity.
Qed.

(** The zeroed start is aligned. *)
Lemma zero_out_aligned unit k s s' :
  fine_step unit k -> valid s -> _zero_out_datetime s unit = Ok s' ->
  to_us (replace_tzinfo s' None) mod k = 0.
Proof.
  intros Hf Hv Hz. destruct (fine_step_kw _ _ Hf) as (_ & Hin & _).
  destruct (zero_out_datetime_run s unit Hv Hin) as (i & Hi & E).
  rewrite E in Hz. injection Hz as <-. apply valid_bounds in Hv.
  unfold to_us, replace_tzinfo.
  cbn [year month day hour minute second microsecond].
  set (o := ymd2ord (year s) (month s) (day s)). clearbody o.
  unfold US_PER_DAY, US_PER_SECOND in *.
  destruct Hf as [[-> ->]|[[-> ->]|[[-> ->]|[[-> ->]|[-> ->]]]]];
    vm_compute in Hi; injection Hi as <-; cbn [Nat.ltb Nat.leb];
    rewrite ?Z.mod_1_r; try reflexivity;
    change (86400 * 1000000) with 86400000000;
    change (3600 * 1000000) with 3600000000;
    change (60 * 1000000) with 60000000;
    Z.div_mod_to_equations; lia.
Qed.

(** Each delimiter the loop appends after the first is the step from the
    one before. *)
Lemma range_loop_steps unit end_datetime fuel :
  forall cur l,
    range_loop fuel unit cur end_datetime = Some (Ok l) ->
    Forall (fun w => advance (fst w) unit = Ok (snd w)) (windows l)
    /\ match l with [] => True | hd :: _ => hd = cur end.
Proof.
  induction fuel as [|fuel IH]; intros cur l; [discriminate|].
  cbn [range_loop].
  destruct (le cur end_datetime); [|intros [= <-]; split; constructor].
  destruct (advance cur unit) as [next|e] eqn:Ea; [|discriminate].
  destruct (range_loop fuel unit next end_datetime) as [[l'|e]|] eqn:El;
    try discriminate.
  intros [= <-]. destruct (IH _ _ El) as [Hw Hhd]. split; [|reflexivity].
  destruct l' as [|b l']; [constructor|]. subst b.
  change (windows (cur :: next :: l')) with ((cur, next) :: windows (next :: l')).
  constructor; [exact Ea | exact Hw].
Qed.

Lemma windows_invariant (Q : datetime -> Prop) unit :
  (forall a b, Q a -> advance a unit = Ok b -> Q b) ->
  forall l,
    match l with [] => True | hd :: _ => Q hd end ->
    Forall (fun w => advance (fst w) unit = Ok (snd w)) (windows l) ->
    Forall (fun w => Q (fst w) /\ advance (fst w) unit = Ok (snd w)) (windows l).
Proof.
  intros HQ. induction l as [|a l IH]; intros Hhd Hw; [constructor|].
  destruct l as [|b l]; [constructor|].
  change (windows (a :: b :: l)) with ((a, b) :: windows (b :: l)) in *.
  inversion Hw as [|? ? Hab Hw']; subst. cbn [fst snd] in Hab.
  constructor; [split; assumption|].
  apply IH; [exact (HQ a b Hhd Hab) | exact Hw'].
Qed.

(** With enough iterations the loop returns, for each unit that
    [_zero_out_datetime] knows. *)
Lemma range_loop_units unit start_datetime end_datetime :
  valid start_datetime -> tzinfo start_datetime = None ->
  valid end_datetime -> year end_datetime < MAXYEAR -> In unit units ->
  exists n l,
    (forall fuel, (n <= fuel)%nat ->
       range_loop fuel unit start_datetime end_datetime = Some (Ok l))
    /\ Forall (fun dt => tzinfo dt = None) l.
Proof.
  intros Hvs Htz Hve Hy Hin.
  assert (forall mu : datetime -> nat,
             (forall cur, valid cur -> tzinfo cur = None ->
                le cur end_datetime = true ->
                exists next,
                  advance cur unit = Ok next /\ valid next /\ tzinfo next = None
                  /\ lt cur next = true /\ (mu next < mu cur)%nat) ->
             exists n l,
               (forall fuel, (n <= fuel)%nat ->
                  range_loop fuel unit start_datetime end_datetime = Some (Ok l))
               /\ Forall (fun dt => tzinfo dt = None) l) as Hgen.
  { intros mu Hstep.
    destruct (range_loop_spec unit end_datetime mu Hstep (S (mu start_datetime))
                start_datetime (Nat.lt_succ_diag_r _) Hvs Htz)
      as (l & Hrun & _ & _ & _ & Hall & _).
    exists (S (mu start_datetime)), l. split; [exact Hrun|].
    eapply Forall_impl; [exact Hall|]. intros dt [H _]. exact H. }
  unfold units in Hin. cbn [In] in Hin.
  destruct Hin as [<-|[<-|[<-|[<-|[<-|[<-|[<-|[]]]]]]]].
  1-2: apply (Hgen (fun dt =>
                      Z.to_nat (year end_datetime * 12 + month end_datetime
                                - (year dt * 12 + month dt) + 1)));
    intros cur Hv Htz' Hle;
    eapply advance_relativedelta_step;
      [reflexivity | reflexivity | lia | eassumption..].
  all: apply (Hgen (fun dt => Z.to_nat (to_us end_datetime - to_us dt + 1)));
    intros cur Hv Htz' Hle;
    eapply advance_timedelta_step;
      [reflexivity | unfold US_PER_DAY, US_PER_SECOND; lia | eassumption..].
Qed.

Lemma apply_aggregates_run (t : table (V := V)) unit rest datetimes log :
  In unit units ->
  Forall (fun dt => tzinfo dt = None) datetimes ->
  _apply_aggregates agg_fn t (DateTrunc unit :: rest) datetimes log
  = Some (Ok (concat (map (window_records agg_fn t (DateTrunc unit :: rest))
                        (windows datetimes))),
          (log ++ map (window_query (DateTrunc unit :: rest))
                    (windows datetimes))%list).
Proof.
  intros Hin Hn. unfold _apply_aggregates.
  exact (apply_windows_suffix agg_fn t unit rest datetimes Hin Hn [] [] log).
Qed.

Lemma format_aggregates_same_length (aggregates : list (row (V := V)))
    agg_label results :
  _format_aggregates aggregates agg_label = Ok results ->
  length results = length aggregates.
Proof.
  revert results. induction aggregates as [|agg aggregates IH]; intros results.
  - intros [= <-]. reflexivity.
  - cbn [_format_aggregates].
    destruct (format_keys agg_label [] agg) as [j|e]; cbn [mbind result_bind];
      [|discriminate].
    destruct (_format_aggregates aggregates agg_label) as [r|e];
      cbn [mbind result_bind]; [|discriminate].
    intros [= <-]. cbn [length]. f_equal. apply IH. reflexivity.
Qed.

Lemma concat_singletons {A B} (g : A -> list B) (l : list A) :
  Forall (fun x => length (g x) = 1%nat) l ->
  length (concat (map g l)) = length l.
Proof.
  induction 1 as [|x l Hx _ IH]; [reflexivity|].
  cbn [map concat length]. rewrite length_app, Hx, IH. reflexivity.
Qed.


End RequestWindowFacts.


(** By the day the same request has 66 delimiters and 65 records. *)
Example aggregate_day_records :
  exists datetimes results log,
    SensorAggregate._generate_datetime_range 100
      (Samples.naive 2016 1 15 0 0 0 0) (Samples.naive 2016 3 20 0 0 0 0) "day"
    = Some (Ok datetimes)
    /\ SensorAggregate.aggregate Samples.date_parse Samples.agg_sum 100 Samples.db
         (Samples.request "temperature" "day") "avg" []
       = Some (Ok results, log)
    /\ length datetimes = 66%nat
    /\ length results = 65%nat.
Proof.
  do 3 eexists. split; [vm_compute; reflexivity|].
  split; [vm_compute; reflexivity|]. split; reflexivity.
Qed.

(** ** Further facts about [make_query] *)

Section MakeQueryInvariants.
Import Sensor.
Context {float shape : Type}.
Variable json_loads : string -> result (json float).
Variable asShape : json float -> result shape.
Variable centroid_y : shape -> result float.
Variable get_size_in_degrees : Z -> float -> float * float.
Variable buffer : shape -> float -> shape.
Variable geo_interface : shape -> json float.
Variable hasattr : string -> string -> bool.
Variable getattr_call : string -> string -> option string -> result unit.
Variable st_within : string -> result unit.

Local Abbreviation step' :=
  (step json_loads asShape centroid_y get_size_in_degrees buffer
     geo_interface hasattr getattr_call st_within).
Local Abbreviation scan' :=
  (scan json_loads asShape centroid_y get_size_in_degrees buffer
     geo_interface hasattr getattr_call st_within).
Local Abbreviation make_query' :=
  (make_query json_loads asShape centroid_y get_size_in_degrees buffer
     geo_interface hasattr getattr_call st_within).
Local Abbreviation within_geometry' :=
  (within_geometry json_loads asShape centroid_y get_size_in_degrees buffer
     geo_interface).

Variable table_keys : list string.
Variable raw_query_params : list (string * string).

(** What one iteration does to the variables of the loop: it appends one
    clause and leaves the report alone, or it writes a 400 report and
    leaves the clauses alone. *)
Lemma step_cases query_param st o :
  step' table_keys raw_query_params query_param st = Ok o ->
  (exists q,
      o = Next {| valid_query := valid_query st;
                  query_clauses := query_clauses st ++ [q];
                  message := message st;
                  status_code := status_code st |})
  \/ (exists msg st',
        (o = Next st' \/ o = Break st')
        /\ st' = {| valid_query := false;
                    query_clauses := query_clauses st;
                    message := String.append (PyStr.repr msg.1) msg.2;
                    status_code := 400 |}).
Proof.
  unfold step. destruct (split_param query_param) as [field operator].
  destruct (negb (PyStr.mem field table_keys)).
  { intros [= <-]. right. exists (field, " is not a valid field name").
    eexists. split; [left; reflexivity | reflexivity]. }
  destruct (String.eqb operator "in").
  { intros [= <-]. left. eexists. reflexivity. }
  destruct (String.eqb operator "within").
  { destruct (within_geometry _ _ _ _ _ _ _) as [val|e]; cbn [mbind result_bind];
      [|discriminate].
    destruct (st_within field) as [[]|e]; cbn [mbind result_bind];
      [|discriminate].
    intros [= <-]. left. eexists. reflexivity. }
  destruct (PyStr.startswith operator "time_of_day").
  { intros [= <-]. left. eexists. reflexivity. }
  destruct (attr_candidates hasattr field operator).
  - intros [= <-]. right. exists (operator, " is not a valid query operator").
    eexists. split; [right; reflexivity | reflexivity].
  - destruct (call_attr _ _ _ _) as [[]|e]; cbn [mbind result_bind];
      [|discriminate].
    intros [= <-]. left. eexists. reflexivity.
Qed.

Lemma repr_append_nonempty s t : String.append (PyStr.repr s) t <> EmptyString.
Proof. unfold PyStr.repr. discriminate. Qed.

Lemma scan_report args st st' :
  scan' table_keys raw_query_params args st = Ok st' ->
  (valid_query st' = valid_query st /\ message st' = message st
   /\ status_code st' = status_code st
   /\ (length (query_clauses st') = length (query_clauses st) + length args)%nat)
  \/ (valid_query st' = false /\ status_code st' = 400
      /\ message st' <> EmptyString).
Proof.
  revert st. induction args as [|query_param args IH]; intros st.
  - intros [= <-]. left. cbn [length]. repeat split; lia.
  - cbn [scan].
    destruct (step' table_keys raw_query_params query_param st) as [o|e] eqn:E;
      cbn [mbind result_bind]; [|discriminate].
    apply step_cases in E as [[q ->] | (msg & st1 & [-> | ->] & Est)].
    + intros H. apply IH in H as [(Hv & Hm & Hc & Hl) | H]; [left|right; exact H].
      cbn [valid_query message status_code query_clauses] in *.
      rewrite length_app in Hl. cbn [length] in *. repeat split; try assumption.
      lia.
    + intros H. right.
      apply IH in H as [(Hv & Hm & Hc & _) | H]; [|exact H].
      subst st1. cbn [valid_query message status_code] in *.
      rewrite Hm. repeat split; try assumption. apply repr_append_nonempty.
    + intros [= <-]. right. subst st1.
      cbn [valid_query message status_code].
      repeat split. apply repr_append_nonempty.
Qed.

(** The status code, the validity flag and the message go together: a
    valid translation has status 200, an empty message and one clause for
    each key scanned; an invalid one has status 400 and a message. *)
Theorem make_query_report v clauses r code :
  make_query' table_keys raw_query_params = Ok (v, clauses, r, code) ->
  meta_status r = "error" /\ objects r = []
  /\ ((v = true /\ code = 200 /\ meta_message r = EmptyString
       /\ length clauses = length (args_keys_of raw_query_params))
      \/ (v = false /\ code = 400 /\ meta_message r <> EmptyString)).
Proof.
  unfold make_query.
  destruct (scan' _ _ _ init) as [st|e] eqn:E; cbn [mbind result_bind];
    [|discriminate].
  intros [= <- <- <- <-]. cbn [meta_status objects meta_message].
  split; [reflexivity|]. split; [reflexivity|].
  apply scan_report in E as [(Hv & Hm & Hc & Hl) | (Hv & Hc & Hm)].
  - left. cbn in Hv, Hm, Hc, Hl. auto.
  - right. auto.
Qed.

Local Abbreviation keeps_going' :=
  (keeps_going json_loads asShape centroid_y get_size_in_degrees buffer
     geo_interface hasattr getattr_call st_within table_keys
     raw_query_params).

Lemma bind_Ok {A B} (m : result A) (k : A -> result B) v :
  (x ← m; k x) = Ok v -> exists x, m = Ok x /\ k x = Ok v.
Proof. destruct m as [x|e]; [eauto | discriminate]. Qed.

Lemma assoc_assoc_set {A} k (v : A) l : assoc k (assoc_set k v l) = Some v.
Proof.
  induction l as [|[k' v'] l IH]; cbn [assoc assoc_set].
  - rewrite String.eqb_refl. reflexivity.
  - destruct (String.eqb k k') eqn:E; cbn [assoc]; rewrite ?String.eqb_refl, ?E;
      [reflexivity | exact IH].
Qed.

Lemma assoc_assoc_set_ne {A} k k' (v : A) l :
  String.eqb k' k = false -> assoc k' (assoc_set k v l) = assoc k' l.
Proof.
  intros Hne. induction l as [|[k0 v0] l IH]; cbn [assoc assoc_set].
  - rewrite Hne. reflexivity.
  - destruct (String.eqb k k0) eqn:E; cbn [assoc].
    + apply String.eqb_eq in E. subst k0. rewrite Hne. reflexivity.
    + destruct (String.eqb k' k0); [reflexivity | exact IH].
Qed.

(** Whatever geometry the [within] branch ends up with, the GeoJSON it
    hands on is an object whose [crs] member names EPSG:4326. *)
Theorem within_geometry_crs query_value val :
  within_geometry' query_value = Ok val ->
  json_getitem val "crs"
  = Ok (JObj [("type", JStr "name");
              ("properties", JObj [("name", JStr "EPSG:4326")])]).
Proof.
  unfold within_geometry. intros H.
  apply bind_Ok in H as (geo & _ & H). apply bind_Ok in H as (ks & _ & H).
  apply bind_Ok in H as (val0 & _ & H). apply bind_Ok in H as (ty & _ & H).
  apply bind_Ok in H as (val1 & _ & H).
  destruct val1; try discriminate H. cbn [json_setitem] in H.
  injection H as <-. cbn [json_getitem]. rewrite assoc_assoc_set. reflexivity.
Qed.


(** A key without operator is an equality test on the column, resolved to
    its [__eq__] when the column has no attribute [eq] or [eq_]; the value
    [null] is handed on as [None]. *)
Theorem step_default_operator query_param query_value st :
  PyStr.contains query_param "__" = false ->
  PyStr.mem query_param table_keys = true ->
  get raw_query_params query_param = Some query_value ->
  hasattr query_param "eq" = false ->
  hasattr query_param "eq_" = false ->
  hasattr query_param "__eq__" = true ->
  step' table_keys raw_query_params query_param st
  = Ok (Next {| valid_query := valid_query st;
                query_clauses :=
                  query_clauses st
                  ++ [Some (GetattrCall query_param "__eq__"
                              (if String.eqb query_value "null" then None
                               else Some query_value))];
                message := message st;
                status_code := status_code st |}).
Proof.
  intros Hc Hf Hg H1 H2 H3. unfold step, split_param.
  rewrite (split_no_separator _ _ Hc), Hf, Hg. cbn [negb default].
  change (String.eqb "eq" "in") with false.
  change (String.eqb "eq" "within") with false.
  change (PyStr.startswith "eq" "time_of_day") with false.
  cbv iota. unfold attr_candidates.
  change ("eq" ++ "_") with "eq_". change ("__" ++ "eq" ++ "__") with "__eq__".
  rewrite !filter_cons, filter_nil.
  rewrite H1, H2, H3.
  rewrite decide_False by (cbn; tauto).
  rewrite decide_False by (cbn; tauto).
  rewrite decide_True by exact I.
  reflexivity.
Qed.

End MakeQueryInvariants.

(** ** The buffering of a line in a [within] filter *)

Section LineStringFacts.
Import Sensor.
Context {float shape : Type}.
Variable json_loads : string -> result (json float).
Variable asShape : json float -> result shape.
Variable centroid_y : shape -> result float.
Variable get_size_in_degrees : Z -> float -> float * float.
Variable buffer : shape -> float -> shape.
Variable geo_interface : shape -> json float.
Variable hasattr : string -> string -> bool.
Variable getattr_call : string -> string -> option string -> result unit.
Variable st_within : string -> result unit.

Local Abbreviation step' :=
  (step json_loads asShape centroid_y get_size_in_degrees buffer
     geo_interface hasattr getattr_call st_within).
Local Abbreviation within_geometry' :=
  (within_geometry json_loads asShape centroid_y get_size_in_degrees buffer
     geo_interface).

(** [positive d]: the angular distance [d] is greater than zero.  The
    helper [get_size_in_degrees] (plenario/utils/helpers.py) turns a
    positive length in meters into positive sizes in degrees, at every
    latitude; shapely's buffer of a shape by a positive distance is a
    polygon. *)
Variable positive : float -> Prop.
Hypothesis size_positive :
  forall lat, positive (snd (get_size_in_degrees 100 lat)).
Hypothesis buffer_polygon :
  forall sh d, positive d ->
    exists members,
      geo_interface (buffer sh d) = JObj members
      /\ assoc "type" members = Some (JStr "Polygon").

Lemma within_geometry_unfold query_value :
  within_geometry' query_value
  = (geo ← json_loads query_value;
     val ← geometry_of geo;
     ty ← json_getitem val "type";
     val ← (if json_is_str ty "LineString" then
              sh ← asShape val;
              lat ← centroid_y sh;
              Ok (geo_interface
                    (buffer sh (snd (get_size_in_degrees 100 lat))))
            else Ok val);
     json_setitem val "crs" crs_4326).
Proof.
  unfold within_geometry, geometry_of.
  destruct (json_loads query_value) as [geo|e]; [|reflexivity].
  cbn [mbind result_bind].
  destruct (json_keys geo) as [ks|e]; [|reflexivity].
  cbn [mbind result_bind].
  destruct (if PyStr.mem "features" ks then _ else _) as [val|e];
    [|reflexivity].
  cbn [mbind result_bind].
  destruct (json_getitem val "type") as [ty|e]; [|reflexivity].
  cbn [mbind result_bind].
  destruct (json_is_str ty "LineString"); [|reflexivity].
  destruct (asShape val) as [sh|e]; [|reflexivity]. cbn [mbind result_bind].
  destruct (centroid_y sh) as [lat|e]; [|reflexivity]. cbn [mbind result_bind].
  destruct (get_size_in_degrees 100 lat). reflexivity.
Qed.

(** C8.  For a [within] filter on a column whose parsed value resolves to a
    geometry of type LineString that shapely accepts, the geometry handed
    on is the buffer of the line by the second size that
    [get_size_in_degrees] gives for 100 meters at the line's centroid
    latitude: the distance is positive, the result is of type Polygon and
    carries the EPSG:4326 [crs], and the clause appended (when the column
    has [ST_Within]) is the containment in that polygon. *)
Theorem within_linestring_buffered
    table_keys raw_query_params query_param field st geo val ty sh lat :
  split_param query_param = (field, "within") ->
  PyStr.mem field table_keys = true ->
  st_within field = Ok tt ->
  json_loads (default EmptyString (get raw_query_params query_param)) = Ok geo ->
  geometry_of geo = Ok val ->
  json_getitem val "type" = Ok ty ->
  json_is_str ty "LineString" = true ->
  asShape val = Ok sh ->
  centroid_y sh = Ok lat ->
  let d := snd (get_size_in_degrees 100 lat) in
  exists members polygon,
    positive d
    /\ geo_interface (buffer sh d) = JObj members
    /\ polygon = JObj (assoc_set "crs" crs_4326 members)
    /\ json_getitem polygon "type" = Ok (JStr "Polygon")
    /\ json_getitem polygon "crs" = Ok crs_4326
    /\ within_geometry' (default EmptyString (get raw_query_params query_param))
       = Ok polygon
    /\ step' table_keys raw_query_params query_param st
       = Ok (Next {| valid_query := valid_query st;
                     query_clauses :=
                       query_clauses st ++ [Some (ST_Within field polygon)];
                     message := message st;
                     status_code := status_code st |}).
Proof.
  intros Hs Hf Hst Hj Hg Hty Hline Hsh Hlat d.
  destruct (buffer_polygon sh d (size_positive lat)) as (members & Hm & Htype).
  exists members, (JObj (assoc_set "crs" crs_4326 members)).
  assert (within_geometry'
            (default EmptyString (get raw_query_params query_param))
          = Ok (JObj (assoc_set "crs" crs_4326 members))) as Hw.
  { rewrite within_geometry_unfold, Hj. cbn [mbind result_bind].
    rewrite Hg. cbn [mbind result_bind]. rewrite Hty. cbn [mbind result_bind].
    rewrite Hline, Hsh. cbn [mbind result_bind]. rewrite Hlat.
    cbn [mbind result_bind]. fold d. rewrite Hm. reflexivity. }
  split; [apply size_positive|]. split; [exact Hm|]. split; [reflexivity|].
  split.
  { cbn [json_getitem]. rewrite assoc_assoc_set_ne by reflexivity.
    rewrite Htype. reflexivity. }
  split; [cbn [json_getitem]; rewrite assoc_assoc_set; reflexivity|].
  split; [exact Hw|].
  unfold step. rewrite Hs, Hf. cbn [negb].
  change (String.eqb "within" "in") with false.
  change (String.eqb "within" "within") with true. cbv iota.
  rewrite Hw. cbn [mbind result_bind]. rewrite Hst. reflexivity.
Qed.

End LineStringFacts.

Lemma within_linestring_buffered_witness :
  exists polygon,
    json_getitem polygon "type" = Ok (JStr "Polygon")
    /\ json_getitem polygon "crs" = Ok Sensor.crs_4326
    /\ Sensor.step (float := Z) (shape := unit)
         Samples.json_loads_line (fun _ => Ok tt) (fun _ => Ok 41)
         Samples.size_in_degrees (fun sh _ => sh) Samples.polygon_interface
         Samples.column_hasattr Samples.column_call Samples.column_st_within
         ["location"] [("location__within", "{}")] "location__within"
         Sensor.init
       = Ok (Sensor.Next
               {| Sensor.valid_query := true;
                  Sensor.query_clauses :=
                    [Some (Sensor.ST_Within "location" polygon)];
                  Sensor.message := EmptyString;
                  Sensor.status_code := 200 |}).
Proof.
  destruct (within_linestring_buffered (float := Z) (shape := unit)
              Samples.json_loads_line (fun _ => Ok tt) (fun _ => Ok 41)
              Samples.size_in_degrees (fun sh _ => sh) Samples.polygon_interface
              Samples.column_hasattr Samples.column_call
              Samples.column_st_within
              (fun d => 0 < d)
              ltac:(intros lat; reflexivity)
              ltac:(intros sh d _; eexists; split; reflexivity)
              ["location"] [("location__within", "{}")] "location__within"
              "location" Sensor.init
              (JObj [("type", JStr "LineString");
                     ("coordinates",
                      JArr [JArr [JInt 0; JInt 41]; JArr [JInt 1; JInt 41]])])
              _ (JStr "LineString") tt 41
              eq_refl eq_refl eq_refl eq_refl eq_refl eq_refl eq_refl eq_refl
              eq_refl)
    as (members & polygon & _ & _ & _ & Hty & Hcrs & _ & Hstep).
  exists polygon. split; [exact Hty|]. split; [exact Hcrs | exact Hstep].
Defined.

Section ArgsKeysFacts.
Import Sensor.

Lemma keys_NoDup raw_query_params : NoDup (keys raw_query_params).
Proof.
  induction raw_query_params as [|[k v] l IH]; cbn [keys]; [constructor|].
  apply NoDup_cons. split.
  - rewrite list_elem_of_filter. intros [H _].
    rewrite String.eqb_refl in H. exact H.
  - apply NoDup_filter. exact IH.
Qed.

Lemma filter_all {A} (P : A -> Prop) `{forall x, Decision (P x)} l :
  Forall P l -> filter P l = l.
Proof.
  induction 1 as [|x l Hx _ IH]; [reflexivity|].
  rewrite filter_cons_True by exact Hx. rewrite IH. reflexivity.
Qed.

Lemma remove_filter x l :
  NoDup l ->
  PyStr.remove x l = filter (fun y => negb (String.eqb x y)) l.
Proof.
  induction 1 as [|y l Hy Hl IH]; [reflexivity|].
  cbn [PyStr.remove]. rewrite filter_cons.
  destruct (String.eqb x y) eqn:E.
  - apply String.eqb_eq in E. subst y.
    rewrite decide_False by (cbn; tauto).
    symmetry. apply filter_all.
    apply Forall_forall. intros z Hz.
    destruct (String.eqb x z) eqn:Ez; [|exact I].
    apply String.eqb_eq in Ez. subst z. contradiction.
  - rewrite decide_True by exact I. rewrite IH. reflexivity.
Qed.

(** The keys scanned are the request's keys, in their order, without the
    four reserved ones. *)
Theorem args_keys_of_filter raw_query_params :
  args_keys_of raw_query_params
  = filter (fun k => negb (PyStr.mem k reserved)) (keys raw_query_params)
  /\ NoDup (args_keys_of raw_query_params).
Proof.
  assert (args_keys_of raw_query_params
          = filter (fun k => negb (PyStr.mem k reserved)) (keys raw_query_params))
    as E.
  { unfold args_keys_of, reserved. cbn [fold_left].
    pose proof (keys_NoDup raw_query_params) as Hnd.
    rewrite (remove_filter "offset") by exact Hnd.
    rewrite (remove_filter "limit") by (apply NoDup_filter; exact Hnd).
    rewrite (remove_filter "order_by")
      by (do 2 apply NoDup_filter; exact Hnd).
    rewrite (remove_filter "weather")
      by (do 3 apply NoDup_filter; exact Hnd).
    rewrite !list_filter_filter. apply list_filter_iff. intros k.
    unfold PyStr.mem. cbn [existsb].
    rewrite (String.eqb_sym "weather"), (String.eqb_sym "order_by"),
      (String.eqb_sym "limit"), (String.eqb_sym "offset").
    destruct (String.eqb k "offset"), (String.eqb k "limit"),
      (String.eqb k "order_by"), (String.eqb k "weather"); cbn; tauto. }
  split; [exact E|]. rewrite E. apply NoDup_filter, keys_NoDup.
Qed.

End ArgsKeysFacts.

(** ** Facts about the weather validators *)

Section ValidatorFacts.
Import Weather.
Variable int : string -> result Z.
Variable reflect_stations : string -> bool.
Variable select_wban : string -> option (list string).

Lemma in_range_In x int_range : in_range x int_range = true <-> In x int_range.
Proof.
  unfold in_range. rewrite existsb_exists. split.
  - intros (y & Hy & E). apply Z.eqb_eq in E. subst y. exact Hy.
  - intros H. exists x. split; [exact H | apply Z.eqb_refl].
Qed.

Lemma In_range_from x k len :
  In x (range_from k len) <-> k <= x < k + Z.of_nat len.
Proof.
  unfold range_from. rewrite in_map_iff. split.
  - intros (n & <- & Hn). apply in_seq in Hn. lia.
  - intros H. exists (Z.to_nat (x - k)). split; [lia|]. apply in_seq. lia.
Qed.

Lemma string_in_int_range_Some maybe_int int_range as_int :
  _string_in_int_range int maybe_int int_range = Ok (Some as_int)
  <-> exists s, maybe_int = Some s /\ s <> EmptyString
                /\ int s = Ok as_int /\ In as_int int_range.
Proof.
  unfold _string_in_int_range. split.
  - destruct maybe_int as [[|c s]|]; try discriminate.
    destruct (int (String c s)) as [n|e] eqn:E.
    + destruct (in_range n int_range) eqn:Hr; [|discriminate].
      intros [= <-]. exists (String c s).
      split; [reflexivity|]. split; [discriminate|].
      split; [exact E | apply in_range_In; exact Hr].
    + destruct e; discriminate.
  - intros (s & -> & Hne & E & Hin). destruct s as [|c s]; [congruence|].
    rewrite E. apply in_range_In in Hin. rewrite Hin. reflexivity.
Qed.

(** [_string_in_int_range] gives an integer exactly for a non-empty string
    that [int] converts to a member of the range; [None], the empty string,
    a string [int] rejects with [ValueError] and an integer outside the
    range all give [False], without an exception. *)
Theorem string_in_int_range_spec maybe_int int_range :
  (forall as_int,
      _string_in_int_range int maybe_int int_range = Ok (Some as_int)
      <-> exists s, maybe_int = Some s /\ s <> EmptyString
                    /\ int s = Ok as_int /\ In as_int int_range)
  /\ (maybe_int = None \/ maybe_int = Some EmptyString
      \/ (exists s, maybe_int = Some s /\ int s = Raise ValueError)
      \/ (exists s n, maybe_int = Some s /\ int s = Ok n /\ ~ In n int_range)
      -> _string_in_int_range int maybe_int int_range = Ok None).
Proof.
  split; [intros as_int; apply string_in_int_range_Some|].
  unfold _string_in_int_range.
  intros [-> | [-> | [(s & -> & E) | (s & n & -> & E & Hn)]]];
    try reflexivity.
  - destruct s; [reflexivity|]. rewrite E. reflexivity.
  - destruct s; [reflexivity|]. rewrite E.
    destruct (in_range n int_range) eqn:Hr; [|reflexivity].
    apply in_range_In in Hr. contradiction.
Qed.

(** The year accepted is from 2000 to 2019 (2020 is not), the month from 1
    to 12; each is the integer [int] reads from the submitted text. *)
Theorem year_month_if_valid_bounds str n :
  (year_if_valid int str = Ok (Some n)
   <-> exists s, str = Some s /\ s <> EmptyString /\ int s = Ok n
                 /\ 2000 <= n <= 2019)
  /\ (month_if_valid int str = Ok (Some n)
      <-> exists s, str = Some s /\ s <> EmptyString /\ int s = Ok n
                    /\ 1 <= n <= 12).
Proof.
  unfold year_if_valid, month_if_valid. cbv zeta.
  rewrite !string_in_int_range_Some.
  split; split; intros (s & H1 & H2 & H3 & H4); exists s;
    (split; [exact H1|]; split; [exact H2|]; split; [exact H3|]);
    apply In_range_from in H4 || apply In_range_from; lia.
Qed.

Local Abbreviation matched :=
  (fun w : string =>
     w <> EmptyString /\ exists row rows, select_wban w = Some (row :: rows)).

(** A piece of the list that is kept, and what checking a piece does to
    the session. *)
Local Abbreviation accepted :=
  (fun w : string =>
     negb (String.eqb w EmptyString) && reflect_stations w
     && match select_wban w with
        | Some (_ :: _) => true
        | _ => false
        end).

Local Abbreviation session_events :=
  (fun w : string =>
     if String.eqb w EmptyString then []
     else if negb (reflect_stations w) then [ReflectStations; Rollback]
     else match select_wban w with
          | None => [ReflectStations; Execute w; Rollback]
          | Some _ => [ReflectStations; Execute w]
          end).

Lemma wban_is_valid_accepted w :
  wban_is_valid reflect_stations select_wban (Some w)
  = (accepted w, session_events w).
Proof.
  unfold wban_is_valid. destruct w as [|c w]; [reflexivity|].
  change (String.eqb (String c w) EmptyString) with false. cbn [negb andb].
  destruct (reflect_stations (String c w)); cbn [negb andb]; [|reflexivity].
  destruct (select_wban (String c w)) as [[|row rows]|]; reflexivity.
Qed.

Lemma valid_wbans_filter candidates :
  valid_wbans reflect_stations select_wban candidates
  = (List.filter accepted candidates, flat_map session_events candidates).
Proof.
  induction candidates as [|w rest IH]; [reflexivity|].
  cbn [valid_wbans List.filter flat_map].
  rewrite wban_is_valid_accepted, IH.
  destruct (negb (String.eqb w EmptyString) && reflect_stations w && _);
    reflexivity.
Qed.

Lemma accepted_matched w :
  accepted w = true
  <-> w <> EmptyString /\ reflect_stations w = true
      /\ exists row rows, select_wban w = Some (row :: rows).
Proof.
  rewrite !andb_true_iff, negb_true_iff, String.eqb_neq. split.
  - intros [[Hne Hr] Hs]. split; [exact Hne|]. split; [exact Hr|].
    destruct (select_wban w) as [[|row rows]|]; try discriminate. eauto.
  - intros (Hne & Hr & row & rows & ->). auto.
Qed.

Lemma wban_list_if_valid_lists wban_list_str :
  match wban_list_if_valid reflect_stations select_wban wban_list_str with
  | (Some l, _) => Forall matched l
  | (None, _) => True
  end.
Proof.
  unfold wban_list_if_valid. destruct wban_list_str as [[|c s]|]; auto.
  rewrite valid_wbans_filter. apply Forall_forall. intros w Hw.
  apply list_elem_of_In, filter_In in Hw as [_ Hw].
  apply accepted_matched in Hw as (Hne & _ & H). split; assumption.
Qed.

(** [wban_list_if_valid] gives [False] without touching the database for a
    missing or empty text; otherwise it returns exactly the pieces of the
    comma-separated text, in their order, that are non-empty, for which the
    stations table could be reflected and that have a row in it; and for
    each non-empty piece, in order, the session reflects the table, runs the
    query if the reflection returned, and rolls back if either failed. *)
Theorem wban_list_if_valid_spec wban_list_str :
  wban_list_if_valid reflect_stations select_wban wban_list_str
  = match wban_list_str with
    | None => (None, [])
    | Some s =>
        if String.eqb s EmptyString then (None, [])
        else (Some (List.filter accepted (PyStr.split s ",")),
              flat_map session_events (PyStr.split s ","))
    end
  /\ forall w,
       accepted w = true
       <-> w <> EmptyString /\ reflect_stations w = true
           /\ exists row rows, select_wban w = Some (row :: rows).
Proof.
  split; [|apply accepted_matched].
  unfold wban_list_if_valid. destruct wban_list_str as [[|c s]|];
    try reflexivity.
  rewrite valid_wbans_filter. reflexivity.
Qed.

(** A weather update is queued only for a year from 2000 to 2019, a month
    from 1 to 12 and a non-empty list of station codes that all have a row
    in the stations table; and the stations table is only consulted once
    year and month have passed. *)
Theorem weather_fill_spec args resp ev :
  weather_fill int reflect_stations select_wban args = Ok (resp, ev) ->
  match resp with
  | queued month year wbans =>
      year_if_valid int (Sensor.get args "year") = Ok (Some year)
      /\ month_if_valid int (Sensor.get args "month") = Ok (Some month)
      /\ 2000 <= year <= 2019 /\ 1 <= month <= 12
      /\ wbans <> [] /\ Forall matched wbans
  | make_error msg status =>
      status = 400
      /\ (ev <> [] ->
          exists year month,
            year_if_valid int (Sensor.get args "year") = Ok (Some year)
            /\ month_if_valid int (Sensor.get args "month") = Ok (Some month))
  end.
Proof.
  unfold weather_fill.
  destruct (year_if_valid int (Sensor.get args "year")) as [year|e] eqn:Ey;
    cbn [mbind result_bind]; [|discriminate].
  destruct (truthy_int year) eqn:Ty; cbn [negb].
  2: { intros [= <- <-]. split; [reflexivity | congruence]. }
  destruct (month_if_valid int (Sensor.get args "month")) as [month|e] eqn:Em;
    cbn [mbind result_bind]; [|discriminate].
  destruct (truthy_int month) eqn:Tm; cbn [negb].
  2: { intros [= <- <-]. split; [reflexivity | congruence]. }
  destruct year as [y|]; [|discriminate]. destruct month as [m|]; [|discriminate].
  pose proof (wban_list_if_valid_lists (Sensor.get args "wbans")) as Hw.
  destruct (wban_list_if_valid reflect_stations select_wban
              (Sensor.get args "wbans"))
    as [[[|w l]|] ev'] eqn:Ew; intros [= <- <-].
  - split; [reflexivity|]. intros _. eauto.
  - cbn [default].
    pose proof Ey as Ey'. pose proof Em as Em'.
    unfold year_if_valid in Ey'. unfold month_if_valid in Em'.
    apply string_in_int_range_Some in Ey' as (_ & _ & _ & _ & Hy).
    apply string_in_int_range_Some in Em' as (_ & _ & _ & _ & Hm).
    apply In_range_from in Hy, Hm.
    repeat split; try assumption; try lia; try discriminate.
  - split; [reflexivity|]. intros _. eauto.
Qed.

End ValidatorFacts.

(** ** Facts about the grouping of weather rows by station *)

Section GroupingFacts.
Import Weather.
Context {WD SD : Type}.

Local Abbreviation total_of :=
  (fun l : list (string * list WD) =>
     fold_right Z.add 0 (map (fun kv => Z.of_nat (length (snd kv))) l)).

Lemma assoc_set_keys {A} k (v : A) l :
  map fst (assoc_set k v l)
  = match assoc k l with
    | Some _ => map fst l
    | None => (map fst l ++ [k])%list
    end.
Proof.
  induction l as [|[k' v'] l IH]; cbn [assoc assoc_set map fst app]; [reflexivity|].
  destruct (String.eqb k k') eqn:E; cbn [map fst].
  - apply String.eqb_eq in E. subst k'. reflexivity.
  - rewrite IH. destruct (assoc k l); reflexivity.
Qed.

Lemma assoc_None_keys {A} k (l : list (string * A)) :
  assoc k l = None <-> ~ In k (map fst l).
Proof.
  induction l as [|[k' v'] l IH]; cbn [assoc map fst In]; [tauto|].
  destruct (String.eqb k k') eqn:E.
  - apply String.eqb_eq in E. subst k'. split; [discriminate | tauto].
  - apply String.eqb_neq in E. rewrite IH. split; [intros H [?|?]; congruence | tauto].
Qed.

Lemma assoc_set_total k v (l : list (string * list WD)) :
  total_of (assoc_set k v l)
  = total_of l
    - match assoc k l with
      | Some old => Z.of_nat (length old)
      | None => 0
      end
    + Z.of_nat (length v).
Proof.
  induction l as [|[k' v'] l IH]; cbn [assoc assoc_set map fold_right snd length].
  - lia.
  - destruct (String.eqb k k'); cbn [map fold_right snd].
    + lia.
    + rewrite IH. lia.
Qed.

Lemma assoc_set_Forall {A} (P : A -> Prop) k v (l : list (string * A)) :
  P v -> Forall (fun kv => P (snd kv)) l ->
  Forall (fun kv => P (snd kv)) (assoc_set k v l).
Proof.
  intros Hv. induction 1 as [|[k' v'] l Hx Hl IH]; cbn [assoc_set].
  - repeat constructor. exact Hv.
  - destruct (String.eqb k k'); constructor; auto.
Qed.

Lemma assoc_set_other {A} k k' (v : A) l :
  assoc k' l <> None -> assoc k' (assoc_set k v l) <> None.
Proof.
  induction l as [|[k0 v0] l IH]; cbn [assoc assoc_set]; [congruence|].
  destruct (String.eqb k k0) eqn:E; cbn [assoc].
  - apply String.eqb_eq in E. subst k0.
    destruct (String.eqb k' k); [discriminate | auto].
  - destruct (String.eqb k' k0); [discriminate | auto].
Qed.

Lemma assoc_set_same {A} k (v : A) l : assoc k (assoc_set k v l) <> None.
Proof.
  induction l as [|[k0 v0] l IH]; cbn [assoc assoc_set].
  - rewrite String.eqb_refl. discriminate.
  - destruct (String.eqb k k0) eqn:E; cbn [assoc];
      rewrite ?String.eqb_refl, ?E; [discriminate | exact IH].
Qed.

(** What the loop over the rows keeps true of the two dicts. *)
Local Abbreviation grouped :=
  (fun (st : list (string * list WD) * list (string * SD)) (n : Z) =>
     NoDup (map fst (fst st))
     /\ (forall k, assoc k (fst st) <> None -> assoc k (snd st) <> None)
     /\ Forall (fun kv => snd kv <> []) (fst st)
     /\ total_of (fst st) = n).

Lemma add_value_grouped st n value :
  grouped st n -> grouped (add_value st value) (n + 1).
Proof.
  destruct st as [weather_data station_data], value as [[code wd] sd].
  cbn [fst snd]. intros (Hnd & Hkeys & Hne & Htot). unfold add_value.
  destruct (assoc code weather_data) as [[|o l]|] eqn:E; cbn [fst snd].
  - (* an empty list of observations: not reachable, treated as absent *)
    rewrite Forall_forall in Hne.
    assert (In code (map fst weather_data)) as Hin.
    { destruct (in_dec String.string_dec code (map fst weather_data)) as [H|H];
        [exact H|]. apply assoc_None_keys in H. congruence. }
    split; [|split; [|split]].
    + rewrite assoc_set_keys, E. exact Hnd.
    + intros k Hk. destruct (String.eqb k code) eqn:Ek.
      * apply String.eqb_eq in Ek. subst k. apply assoc_set_same.
      * apply assoc_set_other, Hkeys.
        rewrite assoc_assoc_set_ne in Hk by exact Ek. exact Hk.
    + apply (assoc_set_Forall (fun v => v <> [])); [discriminate|].
      apply Forall_forall. exact Hne.
    + rewrite assoc_set_total, E. cbn [length]. lia.
  - split; [|split; [|split]].
    + rewrite assoc_set_keys, E. exact Hnd.
    + intros k Hk. destruct (String.eqb k code) eqn:Ek.
      * apply String.eqb_eq in Ek. subst k. apply assoc_set_same.
      * apply assoc_set_other, Hkeys.
        rewrite assoc_assoc_set_ne in Hk by exact Ek. exact Hk.
    + apply (assoc_set_Forall (fun v => v <> [])); [discriminate | exact Hne].
    + rewrite assoc_set_total, E. rewrite length_app.
      cbn [length]. lia.
  - split; [|split; [|split]].
    + rewrite assoc_set_keys, E. apply NoDup_app. split; [exact Hnd|].
      split; [|apply NoDup_singleton].
      intros k Hk Hk'. apply list_elem_of_singleton in Hk'. subst k.
      apply assoc_None_keys in E. apply E. apply list_elem_of_In. exact Hk.
    + intros k Hk. destruct (String.eqb k code) eqn:Ek.
      * apply String.eqb_eq in Ek. subst k. apply assoc_set_same.
      * apply assoc_set_other, Hkeys.
        rewrite assoc_assoc_set_ne in Hk by exact Ek. exact Hk.
    + apply (assoc_set_Forall (fun v => v <> [])); [discriminate | exact Hne].
    + rewrite assoc_set_total, E. cbn [length]. lia.
Qed.

Lemma fold_add_value_grouped values st n :
  grouped st n ->
  grouped (fold_left add_value values st) (n + Z.of_nat (length values)).
Proof.
  revert st n. induction values as [|value values IH]; intros st n H.
  - cbn [fold_left length]. rewrite Z.add_0_r. exact H.
  - cbn [fold_left length]. apply add_value_grouped with (value := value) in H.
    apply IH in H. replace (n + Z.of_nat (S (length values)))
      with (n + 1 + Z.of_nat (length values)) by lia. exact H.
Qed.

Local Abbreviation code := (fun v : string * WD * SD => fst (fst v)).
Local Abbreviation wd_of := (fun v : string * WD * SD => snd (fst v)).
Local Abbreviation sd_of := (fun v : string * WD * SD => snd v).

Lemma rows_of_snoc station_id (l : list (string * WD * SD)) x :
  rows_of station_id (l ++ [x])
  = (rows_of station_id l
     ++ if String.eqb (code x) station_id then [x] else [])%list.
Proof.
  unfold rows_of. rewrite List.filter_app. cbn [List.filter].
  destruct (String.eqb (code x) station_id); reflexivity.
Qed.

Lemma station_ids_In (l : list (string * WD * SD)) c :
  In c (station_ids l) <-> exists v, In v l /\ code v = c.
Proof.
  induction l as [|[[c0 wd] sd] l IH]; cbn [station_ids In].
  - split; [intros [] | intros (v & [] & _)].
  - rewrite filter_In, IH. split.
    + intros [<- | [(v & Hv & <-) _]].
      * exists (c0, wd, sd). auto.
      * exists v. auto.
    + intros (v & [<- | Hv] & <-); [left; reflexivity|].
      destruct (String.eqb c0 (code v)) eqn:E.
      * apply String.eqb_eq in E. left. exact E.
      * right. split; [exists v; auto | reflexivity].
Qed.

Lemma station_ids_NoDup (l : list (string * WD * SD)) :
  List.NoDup (station_ids l).
Proof.
  induction l as [|[[c0 wd] sd] l IH]; cbn [station_ids]; constructor.
  - rewrite filter_In. intros [_ H]. rewrite String.eqb_refl in H. discriminate.
  - apply List.NoDup_filter. exact IH.
Qed.

Lemma existsb_filter_ne c c0 ids :
  String.eqb c c0 = false ->
  existsb (String.eqb c)
    (List.filter (fun c' => negb (String.eqb c0 c')) ids)
  = existsb (String.eqb c) ids.
Proof.
  intros E. induction ids as [|y ys IHy]; [reflexivity|].
  cbn [List.filter existsb].
  destruct (String.eqb c0 y) eqn:E0; cbn [negb existsb]; rewrite IHy.
  - apply String.eqb_eq in E0. subst y. rewrite E. reflexivity.
  - reflexivity.
Qed.

Lemma station_ids_snoc (l : list (string * WD * SD)) x :
  station_ids (l ++ [x])
  = if PyStr.mem (code x) (station_ids l) then station_ids l
    else (station_ids l ++ [code x])%list.
Proof.
  destruct x as [[c wd] sd]. cbn [fst].
  induction l as [|[[c0 wd0] sd0] l IH]; [reflexivity|].
  cbn [app station_ids]. rewrite IH. unfold PyStr.mem. cbn [existsb].
  destruct (String.eqb c c0) eqn:E.
  - apply String.eqb_eq in E. subst c0. cbn [orb].
    destruct (existsb (String.eqb c) (station_ids l)); [reflexivity|].
    rewrite List.filter_app. cbn [List.filter]. rewrite String.eqb_refl.
    cbn [negb]. rewrite app_nil_r. reflexivity.
  - cbn [orb].
    rewrite (existsb_filter_ne _ _ _ E).
    destruct (existsb (String.eqb c) (station_ids l)); [reflexivity|].
    rewrite List.filter_app. cbn [List.filter].
    rewrite String.eqb_sym, E. reflexivity.
Qed.

Lemma assoc_map_ids {A} (g : string -> A) c ids :
  assoc c (map (fun id => (id, g id)) ids)
  = if PyStr.mem c ids then Some (g c) else None.
Proof.
  unfold PyStr.mem. induction ids as [|y ys IH]; [reflexivity|].
  cbn [map assoc existsb]. destruct (String.eqb c y) eqn:E; cbn [orb].
  - apply String.eqb_eq in E. subst y. reflexivity.
  - exact IH.
Qed.

Lemma mem_In c ids : PyStr.mem c ids = true <-> In c ids.
Proof.
  unfold PyStr.mem. rewrite existsb_exists. split.
  - intros (y & Hy & E). apply String.eqb_eq in E. subst y. exact Hy.
  - intros H. exists c. split; [exact H | apply String.eqb_refl].
Qed.

Lemma assoc_set_map_ids {A} (g : string -> A) c v ids :
  List.NoDup ids ->
  assoc_set c v (map (fun id => (id, g id)) ids)
  = if PyStr.mem c ids
    then map (fun id => (id, if String.eqb c id then v else g id)) ids
    else (map (fun id => (id, g id)) ids ++ [(c, v)])%list.
Proof.
  induction 1 as [|y ys Hy Hnd IH]; [reflexivity|].
  unfold PyStr.mem in *. cbn [map assoc_set existsb].
  destruct (String.eqb c y) eqn:E; cbn [orb].
  - apply String.eqb_eq in E. subst y. f_equal.
    apply map_ext_in. intros id Hid.
    destruct (String.eqb c id) eqn:E; [|reflexivity].
    apply String.eqb_eq in E. subst id. contradiction.
  - rewrite IH. destruct (existsb (String.eqb c) ys); reflexivity.
Qed.

Lemma rows_of_nil station_id (l : list (string * WD * SD)) :
  ~ In station_id (station_ids l) -> rows_of station_id l = [].
Proof.
  intros H. unfold rows_of.
  destruct (List.filter _ l) as [|v vs] eqn:E; [reflexivity|].
  exfalso. apply H. apply station_ids_In. exists v.
  assert (In v (List.filter (fun v => String.eqb (code v) station_id) l)) as Hv
    by (rewrite E; left; reflexivity).
  apply filter_In in Hv as [Hv Hc]. apply String.eqb_eq in Hc. auto.
Qed.

(** The two dicts after the loop over the rows. *)
Lemma fold_add_value_exact (l : list (string * WD * SD)) :
  exists station_data,
    fold_left add_value l ([], [])
    = (map (fun id => (id, map wd_of (rows_of id l))) (station_ids l),
       station_data)
    /\ map fst station_data = station_ids l
    /\ forall id, assoc id station_data = last (map sd_of (rows_of id l)).
Proof.
  induction l as [|x l (sdm & E & Hkeys & Hvals)] using rev_ind.
  - exists []. repeat split.
  - rewrite fold_left_app, E. cbn [fold_left].
    destruct x as [[c wd] sd]. unfold add_value.
    exists (assoc_set c sd sdm).
    rewrite assoc_map_ids.
    pose proof (station_ids_NoDup l) as Hnd.
    pose proof (station_ids_snoc l (c, wd, sd)) as Hsnoc. cbn [fst] in Hsnoc.
    split; [|split].
    + f_equal. rewrite Hsnoc.
      destruct (PyStr.mem c (station_ids l)) eqn:Hmem.
      * assert (match map wd_of (rows_of c l) with
                | [] => assoc_set c [wd]
                          (map (fun id => (id, map wd_of (rows_of id l)))
                             (station_ids l))
                | o :: l0 =>
                    assoc_set c ((o :: l0) ++ [wd])%list
                      (map (fun id => (id, map wd_of (rows_of id l)))
                         (station_ids l))
                end
                = assoc_set c (map wd_of (rows_of c l) ++ [wd])%list
                    (map (fun id => (id, map wd_of (rows_of id l)))
                       (station_ids l))) as ->
          by (destruct (map wd_of (rows_of c l)); reflexivity).
        rewrite (assoc_set_map_ids _ _ _ _ Hnd), Hmem.
        apply map_ext. intros id. f_equal. rewrite rows_of_snoc. cbn [fst].
        destruct (String.eqb c id) eqn:Ec.
        -- apply String.eqb_eq in Ec. subst id. rewrite map_app. reflexivity.
        -- rewrite app_nil_r. reflexivity.
      * rewrite (assoc_set_map_ids _ _ _ _ Hnd), Hmem. rewrite map_app.
        cbn [map]. f_equal.
        -- apply map_ext_in. intros id Hid. f_equal. rewrite rows_of_snoc.
           cbn [fst].
           destruct (String.eqb c id) eqn:Ec; [|rewrite app_nil_r; reflexivity].
           apply String.eqb_eq in Ec. subst id.
           apply mem_In in Hid. congruence.
        -- rewrite rows_of_snoc. cbn [fst]. rewrite String.eqb_refl.
           rewrite rows_of_nil; [reflexivity|].
           intros Hin. apply mem_In in Hin. congruence.
    + rewrite assoc_set_keys, Hkeys, Hsnoc, Hvals.
      destruct (PyStr.mem c (station_ids l)) eqn:Hmem.
      * apply mem_In, station_ids_In in Hmem as (v & Hv & Hc).
        assert (In v (rows_of c l)) as Hr.
        { apply filter_In. split; [exact Hv | apply String.eqb_eq; exact Hc]. }
        destruct (rows_of c l) as [|r rs]; [destruct Hr|].
        destruct (last (map sd_of (r :: rs))) eqn:El; [reflexivity|].
        apply last_None in El. discriminate El.
      * rewrite rows_of_nil; [reflexivity|].
        intros Hin. apply mem_In in Hin. congruence.
    + intros id. rewrite rows_of_snoc. cbn [fst].
      destruct (String.eqb c id) eqn:Ec.
      * apply String.eqb_eq in Ec. subst id. rewrite assoc_assoc_set.
        rewrite map_app. cbn [map]. rewrite last_snoc. reflexivity.
      * rewrite assoc_assoc_set_ne by (rewrite String.eqb_sym; exact Ec).
        rewrite app_nil_r. apply Hvals.
Qed.

Lemma station_objects_ids (weather_data : list (string * list WD))
    (station_data : list (string * SD)) ids :
  (forall id, In id ids ->
     assoc id station_data <> None /\ assoc id weather_data <> None) ->
  exists objects,
    station_objects weather_data station_data ids = Ok objects
    /\ Forall2 (fun id o =>
                  assoc id station_data = Some (fst o)
                  /\ assoc id weather_data = Some (snd o)) ids objects.
Proof.
  induction ids as [|id ids IH]; intros H.
  - exists []. split; [reflexivity | constructor].
  - destruct (H id ltac:(left; reflexivity)) as [Hs Hw].
    destruct IH as (objects & E & Hall); [intros i Hi; apply H; right; exact Hi|].
    cbn [station_objects].
    destruct (assoc id station_data) as [info|] eqn:Ei; [|congruence].
    destruct (assoc id weather_data) as [obs|] eqn:Eo; [|congruence].
    rewrite E. exists ((info, obs) :: objects). split; [reflexivity|].
    constructor; [split; assumption | exact Hall].
Qed.

(** Grouping the rows by station never fails for want of a key and
    reports as total the number of rows; the objects are, in order of first
    appearance, one for each distinct station code of the rows, holding the
    observations of that station's rows in their order and the station
    data of its last row. *)
Theorem group_values_by_station (values : list (string * WD * SD)) :
  exists objects,
    group_values values = Ok (objects, Z.of_nat (length values))
    /\ Forall2 (fun station_id o =>
                  snd o = map wd_of (rows_of station_id values)
                  /\ last (map sd_of (rows_of station_id values))
                     = Some (fst o)
                  /\ snd o <> [])
         (station_ids values) objects
    /\ List.NoDup (station_ids values)
    /\ (forall v, In v values -> In (code v) (station_ids values)).
Proof.
  unfold group_values.
  destruct (fold_add_value_exact values) as (sdm & E & Hkeys & Hvals).
  pose proof (fold_add_value_grouped values ([], []) 0) as Hg.
  rewrite E in *. cbn [fst snd] in Hg.
  destruct Hg as (_ & _ & Hne & Htot).
  { split; [constructor|]. split; [intros k Hk; exfalso; apply Hk; reflexivity|].
    split; [constructor | reflexivity]. }
  rewrite Z.add_0_l in Htot.
  rewrite map_map. cbn [fst]. rewrite map_id.
  destruct (station_objects_ids
              (map (fun id => (id, map wd_of (rows_of id values)))
                 (station_ids values)) sdm (station_ids values))
    as (objects & -> & Hall).
  { intros id Hid. rewrite assoc_map_ids, (proj2 (mem_In _ _) Hid), Hvals.
    split; [|discriminate].
    apply station_ids_In in Hid as (v & Hv & Hc).
    assert (In v (rows_of id values)) as Hr
      by (apply filter_In; split; [exact Hv | apply String.eqb_eq; exact Hc]).
    destruct (rows_of id values) as [|r rs]; [destruct Hr|].
    intros El. apply last_None in El. discriminate El. }
  cbn [mbind result_bind]. exists objects.
  assert (Forall2 (fun station_id o =>
                     snd o = map wd_of (rows_of station_id values)
                     /\ last (map sd_of (rows_of station_id values))
                        = Some (fst o)
                     /\ snd o <> [])
            (station_ids values) objects) as Hobj.
  { pose proof (fun id => proj1 (station_ids_In values id)) as Hin.
    revert Hin. induction Hall as [|id o ids os [Hs Hw] _ IH]; intros Hin;
      constructor.
    - assert (snd o = map wd_of (rows_of id values)) as Ho.
      { rewrite assoc_map_ids in Hw.
        destruct (PyStr.mem id (station_ids values)); congruence. }
      split; [exact Ho|]. split; [rewrite <- Hvals; exact Hs|].
      rewrite Ho. destruct (Hin id (or_introl eq_refl)) as (v & Hv & Hc).
      assert (In v (rows_of id values)) as Hr
        by (apply filter_In; split; [exact Hv | apply String.eqb_eq; exact Hc]).
      destruct (rows_of id values); [destruct Hr | discriminate].
    - apply IH. intros i Hi. apply Hin. right. exact Hi. }
  split; [|split; [exact Hobj|split; [apply station_ids_NoDup|]]].
  - f_equal. f_equal. rewrite <- Htot. clear -Hobj.
    induction Hobj as [|id o ids os (Ho & _) _ IH]; [reflexivity|].
    cbn [map fold_right snd]. rewrite IH, Ho. reflexivity.
  - intros v Hv. apply station_ids_In. exists v. auto.
Qed.

End GroupingFacts.

(** ** Error and edge behaviour of the aggregation *)

Section AggregateErrorFacts.
Import PyDatetime SensorAggregate.
Context {V : Type}.
Variable date_parse : string -> result datetime.
Variable agg_fn : list V -> option V.

Lemma index_not_In x l : ~ In x l -> index x l = Raise ValueError.
Proof.
  induction l as [|y l IH]; [reflexivity|]. cbn [index In]. intros H.
  destruct (String.eqb x y) eqn:E.
  - apply String.eqb_eq in E. subst y. tauto.
  - rewrite IH by tauto. reflexivity.
Qed.

Lemma index_In x l : In x l -> exists i, index x l = Ok i.
Proof.
  induction l as [|y l IH]; [intros []|]. cbn [index In]. intros H.
  destruct (String.eqb x y) eqn:E; [eexists; reflexivity|].
  apply String.eqb_neq in E. destruct IH as [i ->]; [destruct H; congruence|].
  eexists; reflexivity.
Qed.

(** A unit outside the seven of [_zero_out_datetime] is rejected with
    [ValueError] by [units.index], and [aggregate] fails with it before
    sending any query. *)
Theorem aggregate_unknown_unit fuel (db : database (V := V)) a agg_label s log :
  date_parse (start_datetime a) = Ok s ->
  ~ In (agg_unit a) units ->
  _zero_out_datetime s (agg_unit a) = Raise ValueError
  /\ aggregate date_parse agg_fn fuel db a agg_label log
     = Some (Raise ValueError, log).
Proof.
  intros Hs Hu.
  assert (_zero_out_datetime s (agg_unit a) = Raise ValueError) as Hz.
  { unfold _zero_out_datetime. rewrite (index_not_In _ _ Hu). reflexivity. }
  split; [exact Hz|]. unfold aggregate.
  unfold mbind at 1, M_bind at 1, lift at 1. rewrite Hs.
  unfold mbind at 1, M_bind at 1, lift at 1. rewrite Hz. reflexivity.
Qed.

(** When the node is not in the metadata, reading the sensors of the
    missing row raises [AttributeError]: [aggregate] fails with it right
    after the node lookup, without reflecting a table. *)
Theorem aggregate_unknown_node
    fuel (db : database (V := V)) a agg_label s e f tfp log :
  date_parse (start_datetime a) = Ok s ->
  valid s ->
  In (agg_unit a) units ->
  date_parse (end_datetime a) = Ok e ->
  feature_properties (feature a) (PyStr.split (feature a) ",") ∅ = Ok (f, tfp) ->
  first_node (node_metadata db) (node_id a) = None ->
  aggregate date_parse agg_fn fuel db a agg_label log
  = Some (Raise AttributeError, (log ++ [SelectNodeMeta (node_id a)])%list).
Proof.
  intros Hs Hv Hu He Hf Hn.
  destruct (zero_out_datetime_run s (agg_unit a) Hv Hu) as (i & _ & Hz).
  unfold aggregate.
  unfold mbind at 1, M_bind at 1, lift at 1. rewrite Hs.
  unfold mbind at 1, M_bind at 1, lift at 1. rewrite Hz.
  unfold mbind at 1, M_bind at 1, lift at 1. rewrite He.
  unfold mbind at 1, M_bind at 1, lift at 1. rewrite Hf.
  unfold mbind at 1, M_bind at 1, _valid_columns.
  unfold mbind at 1, M_bind at 1, send, lift. rewrite Hn. reflexivity.
Qed.

End AggregateErrorFacts.

Section RangeEdgeFacts.
Import PyDatetime SensorAggregate.

Lemma append_s_inj a b : a ++ "s" = b ++ "s" -> a = b.
Proof.
  revert b. induction a as [|c a IH]; intros [|d b]; cbn [String.append].
  - reflexivity.
  - rewrite append_nil_l, append_cons. destruct b; discriminate.
  - rewrite append_nil_l, append_cons. destruct a; discriminate.
  - rewrite !append_cons. intros [= -> H]. f_equal. apply IH. exact H.
Qed.

Lemma eqb_plural unit kw :
  unit <> kw -> String.eqb (unit ++ "s") (kw ++ "s") = false.
Proof.
  intros H. apply String.eqb_neq. intros E. apply H, append_s_inj, E.
Qed.

Lemma unknown_unit_keywords unit :
  ~ In unit (supported_units ++ ["leapday"]) ->
  timedelta_kw (unit ++ "s") = None /\ relativedelta_kw (unit ++ "s") = None.
Proof.
  intros H. unfold supported_units in H. cbn [app In] in H.
  unfold timedelta_kw, relativedelta_kw.
  change "microseconds" with ("microsecond" ++ "s").
  change "milliseconds" with ("millisecond" ++ "s").
  change "leapdays" with ("leapday" ++ "s").
  change "days" with ("day" ++ "s"). change "seconds" with ("second" ++ "s").
  change "minutes" with ("minute" ++ "s"). change "hours" with ("hour" ++ "s").
  change "weeks" with ("week" ++ "s"). change "years" with ("year" ++ "s").
  change "months" with ("month" ++ "s").
  rewrite !eqb_plural by (intros ->; tauto). split; reflexivity.
Qed.

(** A unit that is neither one of the supported units nor [leapday] is
    only noticed when the loop runs: with the start at or before the end the
    first step raises [TypeError]; with the start after the end the result
    is the empty list, whatever the unit. *)
Theorem generate_datetime_range_unknown_unit fuel start_datetime end_datetime unit :
  ~ In unit (supported_units ++ ["leapday"]) ->
  _generate_datetime_range (S fuel) start_datetime end_datetime unit
  = if le (replace_tzinfo start_datetime None) (replace_tzinfo end_datetime None)
    then Some (Raise TypeError)
    else Some (Ok []).
Proof.
  intros H. destruct (unknown_unit_keywords unit H) as [Ht Hr].
  unfold _generate_datetime_range. cbn [range_loop].
  unfold advance. rewrite Ht, Hr. reflexivity.
Qed.

Lemma advance_leapday cur :
  valid cur -> (2 <? month cur) && is_leap (year cur) = false ->
  advance cur "leapday" = Ok cur.
Proof.
  intros Hv Hl. pose proof (valid_bounds _ Hv) as Hb.
  change (advance cur "leapday") with (add_relativedelta cur 0 0 1).
  unfold add_relativedelta. cbv zeta.
  replace (12 <? month cur + 0) with false
    by (symmetry; apply Z.ltb_ge; lia).
  rewrite !Z.add_0_r, Hl.
  replace (Z.min (days_in_month (year cur) (month cur)) (day cur)) with (day cur)
    by lia.
  destruct cur as [y m d h mi s us tz]. cbn [year month day hour minute second
    microsecond tzinfo] in *.
  change (check_fields _) with
    (check_fields {| year := y; month := m; day := d; hour := h; minute := mi;
                     second := s; microsecond := us; tzinfo := tz |}).
  rewrite Hv. rewrite Z.mul_0_l. apply add_timedelta_zero. exact Hv.
Qed.

(** With the unit [leapday] and a start outside March to December of a
    leap year, the step adds nothing: when the start is at or before the
    end the loop never ends, no number of iterations gives a result. *)
Theorem generate_datetime_range_leapday_diverges fuel start_datetime end_datetime :
  valid start_datetime ->
  (2 <? month start_datetime) && is_leap (year start_datetime) = false ->
  le (replace_tzinfo start_datetime None) (replace_tzinfo end_datetime None)
  = true ->
  _generate_datetime_range fuel start_datetime end_datetime "leapday" = None.
Proof.
  intros Hv Hl Hle. unfold _generate_datetime_range.
  induction fuel as [|fuel IH]; [reflexivity|].
  cbn [range_loop]. rewrite Hle.
  rewrite (advance_leapday (replace_tzinfo start_datetime None) Hv Hl).
  rewrite IH. reflexivity.
Qed.

End RangeEdgeFacts.

(** ** Facts about the columns and selects of an aggregation *)

Section ColumnFacts.
Import PyDatetime SensorAggregate.

(** A value [feature.property] that gives a column under the filters. *)
Local Abbreviation requested :=
  (fun (tfp : gmap string (option (list string))) (val c : string) =>
     exists f p rest props,
       PyStr.split val "." = f :: p :: rest /\ c = lower p
       /\ tfp !! f = Some props
       /\ (truthy props = false \/ PyStr.mem p (default [] props) = true)).

Lemma visit_property_sound tfp columns val columns' c :
  visit_property tfp columns val = Ok columns' ->
  c ∈ columns' -> c ∈ columns \/ requested tfp val c.
Proof.
  unfold visit_property. unfold getitem.
  destruct (PyStr.split val ".") as [|f [|p rest]] eqn:Es;
    cbn [lookup list_lookup mbind result_bind]; try discriminate.
  destruct (tfp !! f) as [props|] eqn:Ef; [|intros [= <-]; auto].
  destruct (truthy props && negb (PyStr.mem p (default [] props))) eqn:Ep;
    [intros [= <-]; auto|].
  intros [= <-]. rewrite elem_of_union, elem_of_singleton.
  intros [-> | H]; [|auto]. right. exists f, p, rest, props.
  repeat split; try assumption.
  apply andb_false_iff in Ep as [Ep | Ep]; [left; exact Ep|].
  right. apply negb_false_iff. exact Ep.
Qed.

Lemma visit_properties_sound tfp vals columns columns' c :
  visit_properties tfp columns vals = Ok columns' ->
  c ∈ columns' -> c ∈ columns \/ exists val, In val vals /\ requested tfp val c.
Proof.
  revert columns. induction vals as [|val vals IH]; intros columns.
  - intros [= <-]. auto.
  - cbn [visit_properties].
    destruct (visit_property tfp columns val) as [columns1|e] eqn:E;
      cbn [mbind result_bind]; [|discriminate].
    intros H Hc. destruct (IH _ H Hc) as [Hc1 | (v & Hv & Hr)].
    + destruct (visit_property_sound _ _ _ _ _ E Hc1) as [? | Hr]; [auto|].
      right. exists val. split; [left; reflexivity | exact Hr].
    + right. exists v. split; [right; exact Hv | exact Hr].
Qed.

Lemma visit_sensors_sound target_sensors tfp l columns columns' c :
  visit_sensors target_sensors tfp columns l = Ok columns' ->
  c ∈ columns' ->
  c ∈ columns
  \/ exists sensor key val,
       In sensor l /\ In (key, val) (observed_properties sensor)
       /\ (truthy target_sensors = false
           \/ PyStr.mem (name sensor) (default [] target_sensors) = true)
       /\ requested tfp val c.
Proof.
  revert columns. induction l as [|sensor l IH]; intros columns.
  - intros [= <-]. auto.
  - cbn [visit_sensors].
    destruct (visit_sensor target_sensors tfp columns sensor)
      as [columns1|e] eqn:E; cbn [mbind result_bind]; [|discriminate].
    intros H Hc.
    destruct (IH _ H Hc) as [Hc1 | (s & k & v & Hs & Hk & Hf & Hr)].
    + unfold visit_sensor in E.
      destruct (truthy target_sensors
                && negb (PyStr.mem (name sensor) (default [] target_sensors)))
        eqn:Ef.
      * injection E as <-. auto.
      * destruct (visit_properties_sound _ _ _ _ _ E Hc1)
          as [? | (val & Hval & Hr)]; [auto|].
        right. apply in_map_iff in Hval as ([key val'] & <- & Hkv).
        exists sensor, key, val'. split; [left; reflexivity|].
        split; [exact Hkv|]. split; [|exact Hr].
        apply andb_false_iff in Ef as [Ef | Ef]; [left; exact Ef|].
        right. apply negb_false_iff. exact Ef.
    + right. exists s, k, v. split; [right; exact Hs|]. auto.
Qed.

(** For a node whose observed properties are ASCII text, every column
    [_valid_columns] returns is the lower-cased property of an observed
    property of a sensor of the node that passes the sensor filter, for a
    requested feature and, when properties were given for that feature, a
    requested property. *)
Theorem valid_columns_of_sound node target_sensors tfp columns c :
  ascii_properties node ->
  valid_columns_of (Some node) target_sensors tfp = Ok columns ->
  c ∈ columns ->
  exists sensor key val f p rest props,
    In sensor (sensors node) /\ In (key, val) (observed_properties sensor)
    /\ PyStr.is_ascii val = true
    /\ (truthy target_sensors = false
        \/ PyStr.mem (name sensor) (default [] target_sensors) = true)
    /\ PyStr.split val "." = f :: p :: rest /\ c = lower p
    /\ tfp !! f = Some props
    /\ (truthy props = false \/ PyStr.mem p (default [] props) = true).
Proof.
  unfold valid_columns_of. intros Hascii H Hc.
  destruct (visit_sensors_sound _ _ _ _ _ _ H Hc)
    as [Hc0 | (s & k & v & Hs & Hk & Hf & f & p & rest & props & Hr)].
  - apply elem_of_empty in Hc0. contradiction.
  - exists s, k, v, f, p, rest, props.
    assert (PyStr.is_ascii v = true) as Hv.
    { unfold ascii_properties in Hascii. rewrite Forall_forall in Hascii.
      specialize (Hascii s (proj2 (list_elem_of_In _ _) Hs)).
      rewrite Forall_forall in Hascii.
      apply (Hascii (k, v)), list_elem_of_In, Hk. }
    tauto.
Qed.

Lemma visit_property_mono tfp columns val columns' c :
  visit_property tfp columns val = Ok columns' -> c ∈ columns -> c ∈ columns'.
Proof.
  unfold visit_property, getitem.
  destruct (PyStr.split val ".") as [|f [|p rest]];
    cbn [lookup list_lookup mbind result_bind]; try discriminate.
  destruct (tfp !! f) as [props|]; [|intros [= <-]; auto].
  destruct (truthy props && negb (PyStr.mem p (default [] props)));
    intros [= <-]; [auto|]. intros H. apply elem_of_union. right. exact H.
Qed.

Lemma visit_properties_mono tfp vals columns columns' c :
  visit_properties tfp columns vals = Ok columns' -> c ∈ columns -> c ∈ columns'.
Proof.
  revert columns. induction vals as [|val vals IH]; intros columns.
  - intros [= <-]. auto.
  - cbn [visit_properties].
    destruct (visit_property tfp columns val) as [columns1|e] eqn:E;
      cbn [mbind result_bind]; [|discriminate].
    intros H Hc. apply (IH _ H). apply (visit_property_mono _ _ _ _ _ E Hc).
Qed.

Lemma visit_sensors_mono target_sensors tfp l columns columns' c :
  visit_sensors target_sensors tfp columns l = Ok columns' ->
  c ∈ columns -> c ∈ columns'.
Proof.
  revert columns. induction l as [|sensor l IH]; intros columns.
  - intros [= <-]. auto.
  - cbn [visit_sensors].
    destruct (visit_sensor target_sensors tfp columns sensor)
      as [columns1|e] eqn:E; cbn [mbind result_bind]; [|discriminate].
    intros H Hc. apply (IH _ H). unfold visit_sensor in E.
    destruct (truthy target_sensors && _); [injection E as <-; exact Hc|].
    apply (visit_properties_mono _ _ _ _ _ E Hc).
Qed.

Lemma visit_properties_complete tfp vals columns columns' val f p rest props :
  visit_properties tfp columns vals = Ok columns' ->
  In val vals ->
  PyStr.split val "." = f :: p :: rest ->
  tfp !! f = Some props ->
  truthy props = false \/ PyStr.mem p (default [] props) = true ->
  lower p ∈ columns'.
Proof.
  intros H Hin Hs Hf Hp. revert columns H.
  induction vals as [|v vals IH]; intros columns; [destruct Hin|].
  cbn [visit_properties].
  destruct (visit_property tfp columns v) as [columns1|e] eqn:E;
    cbn [mbind result_bind]; [|discriminate].
  intros H. destruct Hin as [-> | Hin]; [|apply (IH Hin _ H)].
  apply (visit_properties_mono _ _ _ _ _ H).
  unfold visit_property, getitem in E. rewrite Hs in E.
  cbn [lookup list_lookup mbind result_bind] in E. rewrite Hf in E.
  replace (truthy props && negb (PyStr.mem p (default [] props))) with false in E
    by (destruct Hp as [-> | ->]; [reflexivity | symmetry; apply andb_false_r]).
  injection E as <-. apply elem_of_union. left. apply elem_of_singleton.
  reflexivity.
Qed.

(** Conversely, when [_valid_columns] returns, it has every such column:
    each ASCII observed property of a sensor passing the sensor filter, for
    a requested feature and (if properties were given) a requested
    property, contributes its lower-cased property. *)
Theorem valid_columns_of_complete
    node target_sensors tfp columns sensor key val f p rest props :
  PyStr.is_ascii val = true ->
  valid_columns_of (Some node) target_sensors tfp = Ok columns ->
  In sensor (sensors node) ->
  truthy target_sensors = false
  \/ PyStr.mem (name sensor) (default [] target_sensors) = true ->
  In (key, val) (observed_properties sensor) ->
  PyStr.split val "." = f :: p :: rest ->
  tfp !! f = Some props ->
  truthy props = false \/ PyStr.mem p (default [] props) = true ->
  lower p ∈ columns.
Proof.
  unfold valid_columns_of. intros _ H Hin Hpass Hkv Hs Hf Hp.
  revert H. generalize (∅ : gset string) as columns0.
  induction (sensors node) as [|s l IH]; intros columns0; [destruct Hin|].
  cbn [visit_sensors].
  destruct (visit_sensor target_sensors tfp columns0 s) as [columns1|e] eqn:E;
    cbn [mbind result_bind]; [|discriminate].
  intros H. destruct Hin as [-> | Hin]; [|apply (IH Hin _ H)].
  apply (visit_sensors_mono _ _ _ _ _ _ H).
  unfold visit_sensor in E.
  replace (truthy target_sensors
           && negb (PyStr.mem (name sensor) (default [] target_sensors)))
    with false in E
    by (destruct Hpass as [-> | ->]; [reflexivity | symmetry; apply andb_false_r]).
  apply (visit_properties_complete _ _ _ _ val f p rest props E);
    try assumption.
  apply in_map_iff. exists (key, val). split; [reflexivity | exact Hkv].
Qed.

End ColumnFacts.

Section SelectFacts.
Import PyDatetime SensorAggregate.
Context {V : Type}.
Variable date_parse : string -> result datetime.
Variable agg_fn : list V -> option V.

(** The select list starts with the time bucket, which appears nowhere
    else; after it come, for exactly the columns of the table that are not
    metadata, are among the target columns and have type DOUBLE PRECISION,
    the aggregate and the count. *)
Theorem generate_aggregate_selects_spec (t : table (V := V)) target_columns agg_unit :
  exists tail,
    _generate_aggregate_selects t target_columns agg_unit
    = DateTrunc agg_unit :: tail
    /\ (forall u, ~ In (DateTrunc u) tail)
    /\ (forall c,
          In (AggFn c) tail
          <-> exists col,
                In col (columns t) /\ col_name col = c
                /\ PyStr.mem c meta_columns = false
                /\ c ∈ target_columns
                /\ type_name col = "DOUBLE PRECISION")
    /\ (forall c, In (CountOf c) tail <-> In (AggFn c) tail)
    /\ (length tail <= 2 * length (columns t))%nat.
Proof.
  unfold _generate_aggregate_selects. eexists. split; [reflexivity|].
  set (f := fun col : column => _).
  assert (forall col s, In s (f col) ->
            (s = AggFn (col_name col) \/ s = CountOf (col_name col))
            /\ f col = [AggFn (col_name col); CountOf (col_name col)]
            /\ PyStr.mem (col_name col) meta_columns = false
            /\ col_name col ∈ target_columns
            /\ type_name col = "DOUBLE PRECISION") as Hf.
  { intros col s. subst f. cbv beta.
    destruct (PyStr.mem (col_name col) meta_columns); [intros []|].
    destruct (bool_decide (col_name col ∈ target_columns)) eqn:Et;
      cbn [negb]; [|intros []].
    destruct (String.eqb (type_name col) "DOUBLE PRECISION") eqn:Ety;
      cbn [negb]; [|intros []].
    apply bool_decide_eq_true in Et. apply String.eqb_eq in Ety.
    intros [<- | [<- | []]]; auto 10. }
  split; [|split; [|split]].
  - intros u Hin. apply in_flat_map in Hin as (col & _ & Hs).
    destruct (Hf _ _ Hs) as ([? | ?] & _); discriminate.
  - intros c. rewrite in_flat_map. split.
    + intros (col & Hcol & Hs). destruct (Hf _ _ Hs) as ([E | E] & _ & H);
        [|discriminate].
      injection E as ->. exists col. tauto.
    + intros (col & Hcol & <- & Hm & Ht & Hty). exists col. split; [exact Hcol|].
      subst f. cbv beta. rewrite Hm, Hty.
      rewrite bool_decide_eq_true_2 by exact Ht. left. reflexivity.
  - intros c. rewrite !in_flat_map. split.
    + intros (col & Hcol & Hs). exists col. split; [exact Hcol|].
      destruct (Hf _ _ Hs) as ([E | E] & -> & _); [discriminate|].
      injection E as ->. left. reflexivity.
    + intros (col & Hcol & Hs). exists col. split; [exact Hcol|].
      destruct (Hf _ _ Hs) as ([E | E] & -> & _); [|discriminate].
      injection E as ->. right. left. reflexivity.
  - induction (columns t) as [|col l IH]; [cbn; lia|].
    cbn [flat_map length]. rewrite length_app.
    assert (length (f col) <= 2)%nat.
    { subst f. cbv beta.
      repeat match goal with |- context [if ?b then _ else _] => destruct b end;
        cbn; lia. }
    lia.
Qed.

(** When the feature's table does not exist, [aggregate] fails with
    [NoSuchTableError] after the node lookup and the reflection, before any
    aggregate query. *)
Theorem aggregate_unknown_table
    fuel (db : database (V := V)) a agg_label s e f tfp columns table_name log :
  date_parse (start_datetime a) = Ok s ->
  valid s ->
  In (agg_unit a) units ->
  date_parse (end_datetime a) = Ok e ->
  feature_properties (feature a) (PyStr.split (feature a) ",") ∅ = Ok (f, tfp) ->
  valid_columns_of (first_node (node_metadata db) (node_id a))
    (split_sensors (arg_sensors a)) tfp = Ok columns ->
  columns <> ∅ ->
  getitem (PyStr.split f ".") 0 = Ok table_name ->
  assoc table_name (feature_tables db) = None ->
  aggregate date_parse agg_fn fuel db a agg_label log
  = Some (Raise NoSuchTableError,
          (log ++ [SelectNodeMeta (node_id a); Reflect table_name])%list).
Proof.
  intros Hs Hv Hu He Hf Hc Hne Hg Ht.
  destruct (zero_out_datetime_run s (agg_unit a) Hv Hu) as (i & _ & Hz).
  unfold aggregate.
  unfold mbind at 1, M_bind at 1, lift at 1. rewrite Hs.
  unfold mbind at 1, M_bind at 1, lift at 1. rewrite Hz.
  unfold mbind at 1, M_bind at 1, lift at 1. rewrite He.
  unfold mbind at 1, M_bind at 1, lift at 1. rewrite Hf.
  unfold mbind at 1, M_bind at 1, _valid_columns.
  unfold mbind at 1, M_bind at 1, send at 1, lift at 1. rewrite Hc.
  rewrite bool_decide_eq_false_2 by exact Hne.
  unfold mbind at 1, M_bind at 1, lift at 1. rewrite Hg.
  unfold mbind at 1, M_bind at 1, _reflect. rewrite Ht.
  unfold mbind at 1, M_bind at 1, send at 1.
  unfold raise, lift. rewrite <- app_assoc. reflexivity.
Qed.

End SelectFacts.

Section FeatureFacts.
Import SensorAggregate.

(** The loop over the requested features leaves [feature] bound to the
    last one listed (to its feature name, when it is [feature.property]):
    that is the one whose table is reflected afterwards. *)
Theorem feature_properties_last feature0 pre x tfp feature tfp' :
  feature_properties feature0 (pre ++ [x]) tfp = Ok (feature, tfp') ->
  feature = match PyStr.split x "." with
            | [name; _] => name
            | _ => x
            end.
Proof.
  revert feature0 tfp. induction pre as [|y pre IH]; intros feature0 tfp.
  - cbn [app feature_properties].
    destruct (PyStr.split x ".") as [|a [|b [|c l]]];
      try (intros [= <- _]; reflexivity).
    destruct (tfp !! a) as [[l|]|]; try discriminate;
      intros [= <- _]; reflexivity.
  - cbn [app feature_properties].
    destruct (PyStr.split y ".") as [|a [|b [|c l]]]; try apply IH.
    destruct (tfp !! a) as [[l|]|]; try discriminate; apply IH.
Qed.

End FeatureFacts.

(** ** Splitting at a one-character separator *)

Section CharSplitFacts.

Local Abbreviation char ch := (String ch EmptyString).

Lemma startswith_char ch c s :
  PyStr.startswith (String c s) (char ch) = Ascii.eqb ch c.
Proof.
  cbn [PyStr.startswith]. destruct (Ascii.eqb ch c); [|reflexivity].
  apply startswith_empty.
Qed.

Lemma contains_char_cons ch c s :
  PyStr.contains (String c s) (char ch)
  = Ascii.eqb ch c || PyStr.contains s (char ch).
Proof. cbn [PyStr.contains]. rewrite startswith_char. reflexivity. Qed.

Lemma contains_char_app ch a b :
  PyStr.contains (a ++ b) (char ch)
  = PyStr.contains a (char ch) || PyStr.contains b (char ch).
Proof.
  induction a as [|c a IH].
  - rewrite append_nil_l. destruct b; reflexivity.
  - rewrite append_cons, !contains_char_cons, IH. apply orb_assoc.
Qed.

(** Splitting at the first occurrence of a one-character separator. *)
Lemma split_char ch a b :
  PyStr.contains a (char ch) = false ->
  PyStr.split (a ++ String ch b) (char ch) = a :: PyStr.split b (char ch).
Proof.
  unfold PyStr.split. induction a as [|c a IH]; intros H.
  - rewrite append_nil_l. cbn [PyStr.split_aux].
    rewrite startswith_char, Ascii.eqb_refl. reflexivity.
  - rewrite append_cons. rewrite contains_char_cons in H.
    apply orb_false_iff in H as [H1 H2].
    cbn [PyStr.split_aux]. rewrite startswith_char, H1, (IH H2).
    reflexivity.
Qed.

End CharSplitFacts.

Section FeatureErrorFacts.
Import PyDatetime SensorAggregate.
Context {V : Type}.
Variable date_parse : string -> result datetime.
Variable agg_fn : list V -> option V.

(** Asking for a whole feature and then for one of its properties
    ([name,name.prop]) makes [aggregate] fail with [AttributeError] (the
    map holds [None] for the feature, which has no [append]), before any
    query is sent. *)
Theorem aggregate_feature_then_property
    fuel (db : database (V := V)) a agg_label s e name prop log :
  date_parse (start_datetime a) = Ok s ->
  valid s ->
  In (agg_unit a) units ->
  date_parse (end_datetime a) = Ok e ->
  PyStr.contains name "," = false -> PyStr.contains name "." = false ->
  PyStr.contains prop "," = false -> PyStr.contains prop "." = false ->
  feature a = name ++ "," ++ name ++ "." ++ prop ->
  aggregate date_parse agg_fn fuel db a agg_label log
  = Some (Raise AttributeError, log).
Proof.
  intros Hs Hv Hu He Hn1 Hn2 Hp1 Hp2 Hfeat.
  destruct (zero_out_datetime_run s (agg_unit a) Hv Hu) as (i & _ & Hz).
  assert (feature_properties (feature a) (PyStr.split (feature a) ",") ∅
          = Raise AttributeError) as Hf.
  { rewrite Hfeat at 2.
    change (name ++ "," ++ name ++ "." ++ prop)
      with (name ++ String "," (name ++ String "." prop)).
    rewrite (split_char "," name _ Hn1).
    rewrite (split_no_separator "," (name ++ String "." prop)).
    2: { rewrite (contains_char_app "," name (String "." prop)), Hn1.
         rewrite (contains_char_cons "," "." prop), Hp1. reflexivity. }
    cbn [feature_properties].
    rewrite (split_no_separator "." name Hn2).
    rewrite (split_char "." name prop Hn2).
    rewrite (split_no_separator "." prop Hp2).
    rewrite lookup_insert_eq. reflexivity. }
  unfold aggregate.
  unfold mbind at 1, M_bind at 1, lift at 1. rewrite Hs.
  unfold mbind at 1, M_bind at 1, lift at 1. rewrite Hz.
  unfold mbind at 1, M_bind at 1, lift at 1. rewrite He.
  unfold mbind at 1, M_bind at 1, lift at 1. rewrite Hf. reflexivity.
Qed.

End FeatureErrorFacts.

(** ** Facts about [_format_aggregates] *)

Section FormatFacts.
Import PyDatetime SensorAggregate.
Context {V : Type}.

Lemma contains_app_r a b sub :
  PyStr.contains b sub = true -> PyStr.contains (a ++ b) sub = true.
Proof.
  intros H. induction a as [|c a IH]; [rewrite append_nil_l; exact H|].
  rewrite append_cons. cbn [PyStr.contains]. rewrite IH. apply orb_true_r.
Qed.

Lemma contains_self s : PyStr.contains s s = true.
Proof.
  assert (forall t, PyStr.startswith t t = true) as H.
  { induction t as [|c t IH]; [reflexivity|]. cbn [PyStr.startswith].
    rewrite Ascii.eqb_refl. exact IH. }
  destruct s; cbn [PyStr.contains]; rewrite H; reflexivity.
Qed.

Lemma length_append a b :
  String.length (a ++ b) = (String.length a + String.length b)%nat.
Proof.
  induction a as [|c a IH]; [rewrite append_nil_l; reflexivity|].
  rewrite append_cons. cbn [String.length]. rewrite IH. reflexivity.
Qed.

(** A row of the grouped query for one column whose name has no underscore
    and does not contain [count] is formatted as the time bucket and, under
    the column's name, the aggregate (under the label of the aggregate
    function) together with the count. *)
Theorem format_aggregates_row agg_label (t v n : cell (V := V)) c :
  PyStr.contains c "_" = false ->
  PyStr.contains c "count" = false ->
  agg_label <> "count" ->
  _format_aggregates [[("time_bucket", t); (c, v); (c ++ "_count", n)]] agg_label
  = Ok [[("time_bucket", Top t);
         (c, Nested [(agg_label, v); ("count", n)])]].
Proof.
  intros Hu Hc Hl.
  assert (String.eqb c "time_bucket" = false) as E1.
  { apply String.eqb_neq. intros ->. discriminate Hu. }
  assert (String.eqb c "count" = false) as E2.
  { apply String.eqb_neq. intros ->. discriminate Hc. }
  assert (String.eqb (c ++ "_count") "time_bucket" = false) as E3.
  { apply String.eqb_neq. intros E.
    assert (String.length c = 5%nat) as Hlen.
    { apply (f_equal String.length) in E. rewrite length_append in E.
      cbn in E. lia. }
    destruct c as [|c1 [|c2 [|c3 [|c4 [|c5 [|c6 c]]]]]]; try discriminate Hlen.
    rewrite !append_cons, append_nil_l in E. injection E as -> -> -> -> -> _.
    discriminate Hu. }
  assert (String.eqb (c ++ "_count") "count" = false) as E4.
  { apply String.eqb_neq. intros E.
    apply (f_equal String.length) in E. rewrite length_append in E.
    cbn in E. lia. }
  assert (String.eqb "time_bucket" c = false) as E1'
    by (rewrite String.eqb_sym; exact E1).
  assert (String.eqb "count" agg_label = false) as E5
    by (apply String.eqb_neq; congruence).
  assert (set_nested [("time_bucket", Top t)] c agg_label v
          = Ok [("time_bucket", Top t); (c, Nested [(agg_label, v)])]) as S1.
  { unfold set_nested. cbn [assoc]. rewrite E1. cbn [assoc_set].
    rewrite E1. reflexivity. }
  assert (set_nested [("time_bucket", Top t); (c, Nested [(agg_label, v)])]
            c "count" n
          = Ok [("time_bucket", Top t);
                (c, Nested [(agg_label, v); ("count", n)])]) as S2.
  { unfold set_nested. cbn [assoc]. rewrite E1, String.eqb_refl.
    cbn [assoc_set]. rewrite E1, String.eqb_refl, E5. reflexivity. }
  cbn [_format_aggregates format_keys format_key].
  rewrite (String.eqb_refl "time_bucket"). cbn [assoc_set mbind result_bind].
  rewrite E1, E2, Hc, S1. cbn [mbind result_bind].
  rewrite E3, E4.
  rewrite (contains_app_r c "_count" "count") by reflexivity.
  change (c ++ "_count") with (c ++ String "_" "count").
  rewrite (split_char "_" c "count" Hu).
  cbn [getitem lookup list_lookup mbind result_bind].
  rewrite S2. reflexivity.
Qed.

Lemma format_aggregates_Forall2 aggregates agg_label
    (results : list (list (string * entry (V := V)))) :
  _format_aggregates aggregates agg_label = Ok results
  <-> Forall2 (fun agg res => format_keys agg_label [] agg = Ok res)
        aggregates results.
Proof.
  revert results. induction aggregates as [|agg aggregates IH]; intros results.
  - cbn [_format_aggregates]. split.
    + intros [= <-]. constructor.
    + intros H. inversion H. reflexivity.
  - cbn [_format_aggregates]. split.
    + destruct (format_keys agg_label [] agg) as [j|e] eqn:Ej;
        cbn [mbind result_bind]; [|discriminate].
      destruct (_format_aggregates aggregates agg_label) as [rs|e] eqn:Er;
        cbn [mbind result_bind]; [|discriminate].
      intros [= <-]. constructor; [exact Ej|]. apply IH. reflexivity.
    + intros H. inversion H as [|? res ? rs Hres Hrs]; subst.
      rewrite Hres. cbn [mbind result_bind].
      apply IH in Hrs. rewrite Hrs. reflexivity.
Qed.

(** [_format_aggregates] returns exactly when every row can be formatted,
    and then its result holds, position by position, the formatted record
    of each row; the first row that cannot be formatted makes it fail with
    that row's exception; and a placeholder row is formatted as its
    time bucket text and its zero count. *)
Theorem format_aggregates_rows aggregates agg_label :
  (forall results : list (list (string * entry (V := V))),
      _format_aggregates aggregates agg_label = Ok results
      <-> Forall2 (fun agg res => format_keys agg_label [] agg = Ok res)
            aggregates results)
  /\ (forall pre agg post e,
        aggregates = (pre ++ agg :: post)%list ->
        Forall (fun agg' => exists res, format_keys agg_label [] agg' = Ok res)
          pre ->
        format_keys agg_label [] agg = Raise e ->
        _format_aggregates aggregates agg_label = Raise e)
  /\ (forall lo,
        format_keys (V := V) agg_label [] (placeholder_row lo)
        = Ok [("time_bucket", Top (CStr (isoformat lo)));
              ("count", Top (CInt 0))]).
Proof.
  split; [intros results; apply format_aggregates_Forall2|].
  split; [|intros lo; reflexivity].
  intros pre agg post e -> Hpre He.
  induction Hpre as [|agg' pre [res Hres] _ IH].
  - cbn [app _format_aggregates]. rewrite He. reflexivity.
  - cbn [app _format_aggregates]. rewrite Hres. cbn [mbind result_bind].
    rewrite IH. reflexivity.
Qed.

End FormatFacts.

(** ** The further facts on concrete requests *)

Lemma make_query_report_witness :
  length [Some (Sensor.GetattrCall (float := Z) "a" "__ge__" (Some "1"))]
  = length (Sensor.args_keys_of [("a__ge", "1"); ("limit", "5")]).
Proof.
  destruct (make_query_report (float := Z) (shape := unit)
              (fun _ => Raise ValueError) (fun _ => Raise ValueError)
              (fun _ => Raise ValueError) (fun _ _ => (0, 0)) (fun s _ => s)
              (fun _ => JNull) Samples.column_hasattr Samples.column_call
              Samples.column_st_within
              ["a"] [("a__ge", "1"); ("limit", "5")]
              true [Some (Sensor.GetattrCall "a" "__ge__" (Some "1"))]
              {| Sensor.meta_status := "error";
                 Sensor.meta_message := EmptyString;
                 Sensor.objects := [] |}
              200 eq_refl)
    as (_ & _ & [(_ & _ & _ & H) | (H & _)]); [exact H | discriminate H].
Defined.

Lemma within_geometry_crs_witness :
  json_getitem (float := Z)
    (JObj [("type", JStr "Point"); ("coordinates", JArr [JInt 1; JInt 2]);
           ("crs", JObj [("type", JStr "name");
                         ("properties", JObj [("name", JStr "EPSG:4326")])])])
    "crs"
  = Ok (JObj [("type", JStr "name");
              ("properties", JObj [("name", JStr "EPSG:4326")])]).
Proof.
  exact (within_geometry_crs (float := Z) (shape := unit)
           Samples.json_loads_point (fun _ => Raise ValueError)
           (fun _ => Raise ValueError) (fun _ _ => (0, 0)) (fun s _ => s)
           (fun _ => JNull) "{}" _ eq_refl).
Defined.


Lemma step_default_operator_witness :
  Samples.step_plain ["a"] [("a", "null")] "a" Sensor.init
  = Ok (Sensor.Next
          {| Sensor.valid_query := true;
             Sensor.query_clauses := [Some (Sensor.GetattrCall "a" "__eq__" None)];
             Sensor.message := EmptyString;
             Sensor.status_code := 200 |}).
Proof.
  apply (step_default_operator (float := Z) (shape := unit)
              (fun _ => Raise ValueError) (fun _ => Raise ValueError)
              (fun _ => Raise ValueError) (fun _ _ => (0, 0)) (fun s _ => s)
              (fun _ => JNull) Samples.column_hasattr Samples.column_call
              Samples.column_st_within
           ["a"] [("a", "null")] "a" "null" Sensor.init); reflexivity.
Defined.

Lemma weather_fill_spec_witness :
  Weather.year_if_valid Samples.int_digits (Some "2010") = Ok (Some 2010)
  /\ Weather.month_if_valid Samples.int_digits (Some "7") = Ok (Some 7)
  /\ 2000 <= 2010 <= 2019 /\ 1 <= 7 <= 12
  /\ ["14819"] <> []
  /\ Forall (fun w : string =>
               w <> EmptyString
               /\ exists row rows, Samples.select_wban w = Some (row :: rows))
       ["14819"].
Proof.
  exact (weather_fill_spec Samples.int_digits Samples.reflect_stations
           Samples.select_wban
           [("year", "2010"); ("month", "7"); ("wbans", "14819,00000")]
           (Weather.queued 7 2010 ["14819"])
           [Weather.ReflectStations; Weather.Execute "14819";
            Weather.ReflectStations; Weather.Execute "00000"] eq_refl).
Defined.

Lemma aggregate_unknown_unit_witness :
  SensorAggregate._zero_out_datetime (Samples.naive 2016 1 15 10 0 0 0) "week"
  = Raise ValueError
  /\ SensorAggregate.aggregate Samples.date_parse Samples.agg_sum 0 Samples.db
       (Samples.request "temperature" "week") "avg" []
     = Some (Raise ValueError, []).
Proof.
  apply (aggregate_unknown_unit Samples.date_parse Samples.agg_sum 0 Samples.db
           (Samples.request "temperature" "week") "avg"
           (Samples.naive 2016 1 15 10 0 0 0) []).
  - reflexivity.
  - simpl. intuition discriminate.
Defined.

Lemma aggregate_unknown_node_witness :
  SensorAggregate.aggregate Samples.date_parse Samples.agg_sum 0 Samples.db
    {| SensorAggregate.node_id := "n2";
       SensorAggregate.feature := "temperature";
       SensorAggregate.start_datetime := "2016-01-15T10:00:00";
       SensorAggregate.end_datetime := "2016-03-20T00:00:00";
       SensorAggregate.arg_sensors := None;
       SensorAggregate.agg_unit := "day" |} "avg" []
  = Some (Raise AttributeError, [SensorAggregate.SelectNodeMeta "n2"]).
Proof.
  apply (aggregate_unknown_node Samples.date_parse Samples.agg_sum 0 Samples.db
           {| SensorAggregate.node_id := "n2";
              SensorAggregate.feature := "temperature";
              SensorAggregate.start_datetime := "2016-01-15T10:00:00";
              SensorAggregate.end_datetime := "2016-03-20T00:00:00";
              SensorAggregate.arg_sensors := None;
              SensorAggregate.agg_unit := "day" |}
           "avg" (Samples.naive 2016 1 15 10 0 0 0)
           (Samples.naive 2016 3 20 0 0 0 0) "temperature"
           {["temperature" := None]} []); try reflexivity.
  simpl; tauto.
Defined.

Lemma generate_datetime_range_unknown_unit_witness :
  SensorAggregate._generate_datetime_range 1
    (Samples.naive 2021 1 1 0 0 0 0) (Samples.naive 2021 1 3 0 0 0 0) "fortnight"
  = Some (Raise TypeError).
Proof.
  apply (generate_datetime_range_unknown_unit 0
           (Samples.naive 2021 1 1 0 0 0 0) (Samples.naive 2021 1 3 0 0 0 0)
           "fortnight").
  simpl. intuition discriminate.
Defined.

Lemma generate_datetime_range_leapday_diverges_witness :
  SensorAggregate._generate_datetime_range 1000
    (Samples.naive 2021 1 31 0 0 0 0) (Samples.naive 2021 4 1 0 0 0 0) "leapday"
  = None.
Proof.
  apply (generate_datetime_range_leapday_diverges 1000
           (Samples.naive 2021 1 31 0 0 0 0) (Samples.naive 2021 4 1 0 0 0 0));
    reflexivity.
Defined.

Lemma valid_columns_of_sound_witness :
  exists sensor key val f p rest props,
    In sensor (SensorAggregate.sensors Samples.node_n1)
    /\ In (key, val) (SensorAggregate.observed_properties sensor)
    /\ PyStr.is_ascii val = true
    /\ (SensorAggregate.truthy (A := string) None = false
        \/ PyStr.mem (SensorAggregate.name sensor) (default [] None) = true)
    /\ PyStr.split val "." = f :: p :: rest
    /\ "temperature" = SensorAggregate.lower p
    /\ ({["temperature" := None]} : gmap string (option (list string))) !! f
       = Some props
    /\ (SensorAggregate.truthy props = false
        \/ PyStr.mem p (default [] props) = true).
Proof.
  apply (valid_columns_of_sound Samples.node_n1 None {["temperature" := None]}
           ({["temperature"]} ∪ ∅) "temperature").
  - repeat constructor.
  - reflexivity.
  - apply elem_of_union. left. apply elem_of_singleton. reflexivity.
Defined.

Lemma valid_columns_of_complete_witness :
  "temperature" ∈ ({["temperature"]} ∪ ∅ : gset string).
Proof.
  apply (valid_columns_of_complete Samples.node_n1 None
           {["temperature" := None]} ({["temperature"]} ∪ ∅)
           {| SensorAggregate.name := "s1";
              SensorAggregate.observed_properties :=
                [("t", "temperature.temperature"); ("h", "humidity.humidity")] |}
           "t" "temperature.temperature" "temperature" "temperature" [] None).
  - reflexivity.
  - reflexivity.
  - left. reflexivity.
  - left. reflexivity.
  - left. reflexivity.
  - reflexivity.
  - reflexivity.
  - left. reflexivity.
Defined.

Lemma aggregate_unknown_table_witness :
  SensorAggregate.aggregate Samples.date_parse Samples.agg_sum 0 Samples.db
    (Samples.request "humidity" "day") "avg" []
  = Some (Raise NoSuchTableError,
          [SensorAggregate.SelectNodeMeta "n1"; SensorAggregate.Reflect "humidity"]).
Proof.
  apply (aggregate_unknown_table Samples.date_parse Samples.agg_sum 0 Samples.db
           (Samples.request "humidity" "day") "avg"
           (Samples.naive 2016 1 15 10 0 0 0) (Samples.naive 2016 3 20 0 0 0 0)
           "humidity" {["humidity" := None]} ({["humidity"]} ∪ ∅) "humidity" []);
    try reflexivity.
  - simpl; tauto.
  - intros H. assert ("humidity" ∈ (∅ : gset string)) as H'.
    { rewrite <- H. apply elem_of_union. left. apply elem_of_singleton.
      reflexivity. }
    apply elem_of_empty in H'. exact H'.
Defined.

Lemma feature_properties_last_witness :
  "humidity"
  = match PyStr.split "humidity" "." with
    | [name; _] => name
    | _ => "humidity"
    end.
Proof.
  exact (feature_properties_last "temperature,humidity" ["temperature"]
           "humidity" ∅ "humidity"
           (<["humidity" := None]> (<["temperature" := None]> ∅)) eq_refl).
Defined.

Lemma aggregate_feature_then_property_witness :
  SensorAggregate.aggregate Samples.date_parse Samples.agg_sum 0 Samples.db
    (Samples.request "temperature,temperature.x" "day") "avg" []
  = Some (Raise AttributeError, []).
Proof.
  apply (aggregate_feature_then_property Samples.date_parse Samples.agg_sum 0
           Samples.db (Samples.request "temperature,temperature.x" "day") "avg"
           (Samples.naive 2016 1 15 10 0 0 0) (Samples.naive 2016 3 20 0 0 0 0)
           "temperature" "x" []); try reflexivity.
  simpl; tauto.
Defined.

Lemma format_aggregates_row_witness :
  SensorAggregate._format_aggregates (V := Z)
    [[("time_bucket", SensorAggregate.CTime (Samples.naive 2016 1 1 0 0 0 0));
      ("temperature", SensorAggregate.CVal (Some 5));
      ("temperature" ++ "_count", SensorAggregate.CInt 1)]] "avg"
  = Ok [[("time_bucket",
          SensorAggregate.Top
            (SensorAggregate.CTime (Samples.naive 2016 1 1 0 0 0 0)));
         ("temperature",
          SensorAggregate.Nested
            [("avg", SensorAggregate.CVal (Some 5));
             ("count", SensorAggregate.CInt 1)])]].
Proof.
  apply (format_aggregates_row (V := Z) "avg"); [reflexivity..|discriminate].
Defined.


(** ** An inverted time range *)

Section InvertedRangeFacts.
Import PyDatetime SensorAggregate.
Context {V : Type}.
Variable date_parse : string -> result datetime.
Variable agg_fn : list V -> option V.

(** A start that (zeroed, without offsets) is after the end is not an
    error: once the columns and the table are found, [aggregate] returns the
    empty list, having sent the node lookup, the reflection when the
    metadata does not hold the table yet, and no aggregate query. *)
Theorem aggregate_inverted_range
    fuel (db : database (V := V)) a agg_label s s' e f tfp columns table_name t
    log :
  date_parse (start_datetime a) = Ok s ->
  _zero_out_datetime s (agg_unit a) = Ok s' ->
  date_parse (end_datetime a) = Ok e ->
  feature_properties (feature a) (PyStr.split (feature a) ",") ∅ = Ok (f, tfp) ->
  valid_columns_of (first_node (node_metadata db) (node_id a))
    (split_sensors (arg_sensors a)) tfp = Ok columns ->
  columns <> ∅ ->
  getitem (PyStr.split f ".") 0 = Ok table_name ->
  assoc table_name (feature_tables db) = Some t ->
  le (replace_tzinfo s' None) (replace_tzinfo e None) = false ->
  aggregate date_parse agg_fn (S fuel) db a agg_label log
  = Some (Ok [],
          (log ++ SelectNodeMeta (node_id a)
               :: (if reflected t then [] else [Reflect table_name]))%list).
Proof.
  intros Hs Hz He Hf Hc Hne Hg Ht Hle. unfold aggregate.
  unfold mbind at 1, M_bind at 1, lift at 1. rewrite Hs.
  unfold mbind at 1, M_bind at 1, lift at 1. rewrite Hz.
  unfold mbind at 1, M_bind at 1, lift at 1. rewrite He.
  unfold mbind at 1, M_bind at 1, lift at 1. rewrite Hf.
  unfold mbind at 1, M_bind at 1, _valid_columns.
  unfold mbind at 1, M_bind at 1, send at 1, lift at 1. rewrite Hc.
  rewrite bool_decide_eq_false_2 by exact Hne.
  unfold mbind at 1, M_bind at 1, lift at 1. rewrite Hg.
  unfold mbind at 1, M_bind at 1, _reflect. rewrite Ht.
  destruct (reflected t).
  - unfold mret, M_ret.
    unfold mbind at 1, M_bind at 1, run_loop, _generate_datetime_range.
    cbn [range_loop]. rewrite Hle. reflexivity.
  - unfold mbind at 1, M_bind at 1, send at 1. unfold mret, M_ret.
    unfold mbind at 1, M_bind at 1, run_loop, _generate_datetime_range.
    cbn [range_loop]. rewrite Hle.
    rewrite <- app_assoc. reflexivity.
Qed.

End InvertedRangeFacts.

Lemma aggregate_inverted_range_witness :
  SensorAggregate.aggregate Samples.date_parse Samples.agg_sum 1 Samples.db
    {| SensorAggregate.node_id := "n1";
       SensorAggregate.feature := "temperature";
       SensorAggregate.start_datetime := "2016-03-20T00:00:00";
       SensorAggregate.end_datetime := "2016-01-15T10:00:00";
       SensorAggregate.arg_sensors := None;
       SensorAggregate.agg_unit := "day" |} "avg" []
  = Some (Ok [], [SensorAggregate.SelectNodeMeta "n1";
                  SensorAggregate.Reflect "temperature"]).
Proof.
  apply (aggregate_inverted_range Samples.date_parse Samples.agg_sum 0 Samples.db
           {| SensorAggregate.node_id := "n1";
              SensorAggregate.feature := "temperature";
              SensorAggregate.start_datetime := "2016-03-20T00:00:00";
              SensorAggregate.end_datetime := "2016-01-15T10:00:00";
              SensorAggregate.arg_sensors := None;
              SensorAggregate.agg_unit := "day" |} "avg"
           (Samples.naive 2016 3 20 0 0 0 0) (Samples.naive 2016 3 20 0 0 0 0)
           (Samples.naive 2016 1 15 10 0 0 0)
           "temperature" {["temperature" := None]} ({["temperature"]} ∪ ∅)
           "temperature" Samples.temperature_table []);
    try reflexivity.
  intros H. assert ("temperature" ∈ (∅ : gset string)) as H'.
  { rewrite <- H. apply elem_of_union. left. apply elem_of_singleton.
    reflexivity. }
  apply elem_of_empty in H'. exact H'.
Defined.
